(** * openapi-codegen: schema-reference walker and code emitters

    A shallow embedding of the TypeScript sources
      - src/utils/string.ts, src/utils/path.ts, src/core/config.ts
      - src/builder/CodeBuilder.ts
      - src/builder/APISpecParser.ts (class APISpecParser)
      - the generator classes BaseGenerator, DTOGenerator, GETRequestGenerator
        and POSTRequestGenerator
      - src/OpenAPICodeGenerator.ts (the sequencing of one path pattern, and
        a run over a world that holds the file system and the network)
    followed by the properties the specification states about them, and by
    further properties of the code.

    Conventions.
      - JS strings are [string]; only the ASCII range is interpreted by the
        case-mapping and character-class helpers (other bytes are kept as
        they are).
      - JS objects used as dictionaries whose iteration order is observed
        ([paths], [responses], [content], [properties]) are association
        lists in source order; the schema dictionary, which is only ever
        indexed by name, is a [gmap string SchemaObject] (own properties
        only: what a JS object inherits from [Object.prototype] is not
        modelled).
      - A missing optional field is [None]; JS truthiness of strings
        (non-empty) is written out where the source relies on it.
      - Mutable instance fields are threaded explicitly; [console.warn] is a
        writer effect (the list of lines written). *)

From Stdlib Require Import Ascii String ZArith List Bool Lia.
From stdpp Require Import gmap strings list fin_maps.

Set Warnings "-clear-no-such-hyp".

Local Open Scope Z_scope.
Local Open Scope nat_scope.

(** ** Outcomes of computations that can throw or need fuel *)

Inductive Outcome (A : Type) : Type :=
| Done (a : A)
| SyntaxError        (* the RegExp constructor rejects the pattern *)
| OutsideFragment    (* valid JS, but outside the modelled RegExp syntax *)
| OutOfFuel.         (* the recursion bound of the embedding was hit *)
Arguments Done {A} a.
Arguments SyntaxError {A}.
Arguments OutsideFragment {A}.
Arguments OutOfFuel {A}.

Definition obind {A B} (x : Outcome A) (f : A → Outcome B) : Outcome B :=
  match x with
  | Done a => f a
  | SyntaxError => SyntaxError
  | OutsideFragment => OutsideFragment
  | OutOfFuel => OutOfFuel
  end.

Notation "x ←! c ; k" := (obind c (fun x => k))
  (at level 60, c at next level, right associativity, only parsing).

(** ** String.prototype helpers used by the sources *)

Module JsString.

Definition truthy (s : option string) : bool :=
  match s with
  | Some (String _ _) => true
  | _ => false
  end.

Fixpoint firstIndexFrom (needle s : string) (i : nat) : option nat :=
  if String.prefix needle s then Some i
  else match s with
       | EmptyString => None
       | String _ s' => firstIndexFrom needle s' (S i)
       end.

Fixpoint lastIndexFrom (needle s : string) (i : nat) : option nat :=
  match s with
  | EmptyString => if String.prefix needle EmptyString then Some i else None
  | String _ s' =>
      match lastIndexFrom needle s' (S i) with
      | Some j => Some j
      | None => if String.prefix needle s then Some i else None
      end
  end.

Definition indexOf (s needle : string) : Z :=
  match firstIndexFrom needle s 0 with
  | Some i => Z.of_nat i
  | None => (-1)%Z
  end.

Definition lastIndexOf (s needle : string) : Z :=
  match lastIndexFrom needle s 0 with
  | Some i => Z.of_nat i
  | None => (-1)%Z
  end.

Definition includes (s needle : string) : bool :=
  match firstIndexFrom needle s 0 with
  | Some _ => true
  | None => false
  end.

(** [s.substring(start, stop)]: both ends clamped to [0, length], swapped
    when out of order; [stop] omitted means the length. *)
Definition substring (s : string) (start : Z) (stop : option Z) : string :=
  let len := Z.of_nat (String.length s) in
  let clamp z := Z.max 0 (Z.min z len) in
  let a := clamp start in
  let b := match stop with Some e => clamp e | None => len end in
  let lo := Z.min a b in
  let hi := Z.max a b in
  String.substring (Z.to_nat lo) (Z.to_nat (hi - lo)) s.

Definition rev_string (acc : list ascii) : string :=
  string_of_list_ascii (rev acc).

(** [s.split(sep)] for a non-empty separator: [skip] counts the characters
    of a separator occurrence that are still to be dropped, [cur] is the
    current piece, reversed. *)
Fixpoint splitAux (sep s : string) (skip : nat) (cur : list ascii) : list string :=
  match s with
  | EmptyString => [rev_string cur]
  | String c s' =>
      match skip with
      | S n => splitAux sep s' n cur
      | O =>
          if String.prefix sep s
          then rev_string cur :: splitAux sep s' (String.length sep - 1) []
          else splitAux sep s' 0 (c :: cur)
      end
  end.

Definition split (s sep : string) : list string :=
  match sep with
  | EmptyString => map (fun c => String c EmptyString) (list_ascii_of_string s)
  | _ => splitAux sep s 0 []
  end.

Definition join (l : list string) (sep : string) : string := String.concat sep l.

Definition isUpper (c : ascii) : bool :=
  let n := nat_of_ascii c in (65 <=? n) && (n <=? 90).
Definition isLower (c : ascii) : bool :=
  let n := nat_of_ascii c in (97 <=? n) && (n <=? 122).
Definition isDigit (c : ascii) : bool :=
  let n := nat_of_ascii c in (48 <=? n) && (n <=? 57).
(** The class \w *)
Definition isWord (c : ascii) : bool :=
  isUpper c || isLower c || isDigit c || Ascii.eqb c "_".
(** The class \s, ASCII range *)
Definition isSpace (c : ascii) : bool :=
  let n := nat_of_ascii c in ((9 <=? n) && (n <=? 13)) || (n =? 32).

Definition upperChar (c : ascii) : ascii :=
  if isLower c then ascii_of_nat (nat_of_ascii c - 32) else c.
Definition lowerChar (c : ascii) : ascii :=
  if isUpper c then ascii_of_nat (nat_of_ascii c + 32) else c.

Fixpoint mapChars (f : ascii → ascii) (s : string) : string :=
  match s with
  | EmptyString => EmptyString
  | String c s' => String (f c) (mapChars f s')
  end.

Definition toUpperCase : string → string := mapChars upperChar.
Definition toLowerCase : string → string := mapChars lowerChar.

Fixpoint repeat (s : string) (n : nat) : string :=
  match n with
  | O => EmptyString
  | S n' => s +:+ repeat s n'
  end.

End JsString.

(** ** RegExp: the fragment of ECMAScript patterns that is modelled

    Characters, [.], groups (capturing or [(?:...)], which [test] does not
    tell apart), alternation, the assertions [^] and [$], the quantifiers
    [*], [+], [?] with their lazy forms, and [\c] for a syntax character
    [c].  Classes, braces, look-arounds and the other escapes are reported
    as [OutsideFragment].  No flags: [^] and [$] are the ends of the input,
    [.] excludes line terminators. *)

Module RegExp.

Inductive Regex : Type :=
| REmpty
| RChar (c : ascii)
| RAny
| RBol
| REol
| RSeq (a b : Regex)
| RAlt (a b : Regex)
| RStar (a : Regex).

Inductive TermKind : Type := KAssertion | KAtom | KQuantified | KLazy.

(** One open group: the finished alternatives and the terms of the
    current alternative, both most recent first. *)
Record Frame : Type := mkFrame {
  alts : list Regex;
  cur : list (Regex * TermKind)
}.

Definition emptyFrame : Frame := mkFrame [] [].

Definition closeAlternative (terms : list (Regex * TermKind)) : Regex :=
  fold_left (fun acc t => match acc with
                          | REmpty => fst t
                          | _ => RSeq (fst t) acc
                          end) terms REmpty.

Definition closeFrame (f : Frame) : Regex :=
  fold_left (fun acc a => RAlt a acc) (alts f) (closeAlternative (cur f)).

Definition pushTerm (f : Frame) (r : Regex) (k : TermKind) : Frame :=
  mkFrame (alts f) ((r, k) :: cur f).

Definition nextAlternative (f : Frame) : Frame :=
  mkFrame (closeAlternative (cur f) :: alts f) [].

Definition isSyntaxChar (c : ascii) : bool :=
  existsb (Ascii.eqb c)
    ["^"; "$"; "\"; "."; "*"; "+"; "?"; "("; ")"; "["; "]"; "{"; "}"; "|"]%char.

(** [*] and [+] apply to an unquantified atom only. *)
Definition quantify (f : Frame) (q : Regex → Regex) : option Frame :=
  match cur f with
  | (r, KAtom) :: rest => Some (mkFrame (alts f) ((q r, KQuantified) :: rest))
  | _ => None
  end.

(** [?] is a quantifier after an atom and the lazy mark after a quantifier. *)
Definition question (f : Frame) : option Frame :=
  match cur f with
  | (r, KAtom) :: rest => Some (mkFrame (alts f) ((RAlt r REmpty, KQuantified) :: rest))
  | (r, KQuantified) :: rest => Some (mkFrame (alts f) ((r, KLazy) :: rest))
  | _ => None
  end.

Fixpoint parseLoop (cs : list ascii) (top : Frame) (stack : list Frame)
  : Outcome Regex :=
  match cs with
  | [] =>
      match stack with
      | [] => Done (closeFrame top)
      | _ :: _ => SyntaxError
      end
  | c :: rest =>
      if Ascii.eqb c "\" then
        match rest with
        | [] => SyntaxError
        | e :: rest' =>
            if isSyntaxChar e || Ascii.eqb e "/"
            then parseLoop rest' (pushTerm top (RChar e) KAtom) stack
            else OutsideFragment
        end
      else if Ascii.eqb c "(" then
        match rest with
        | q :: rest' =>
            if Ascii.eqb q "?" then
              match rest' with
              | d :: rest'' =>
                  if Ascii.eqb d ":"
                  then parseLoop rest'' emptyFrame (top :: stack)
                  else OutsideFragment
              | [] => SyntaxError
              end
            else parseLoop rest emptyFrame (top :: stack)
        | [] => SyntaxError
        end
      else if Ascii.eqb c ")" then
        match stack with
        | [] => SyntaxError
        | parent :: stack' =>
            parseLoop rest (pushTerm parent (closeFrame top) KAtom) stack'
        end
      else if Ascii.eqb c "|" then parseLoop rest (nextAlternative top) stack
      else if Ascii.eqb c "*" then
        match quantify top RStar with
        | Some top' => parseLoop rest top' stack
        | None => SyntaxError
        end
      else if Ascii.eqb c "+" then
        match quantify top (fun r => RSeq r (RStar r)) with
        | Some top' => parseLoop rest top' stack
        | None => SyntaxError
        end
      else if Ascii.eqb c "?" then
        match question top with
        | Some top' => parseLoop rest top' stack
        | None => SyntaxError
        end
      else if Ascii.eqb c "^" then parseLoop rest (pushTerm top RBol KAssertion) stack
      else if Ascii.eqb c "$" then parseLoop rest (pushTerm top REol KAssertion) stack
      else if Ascii.eqb c "." then parseLoop rest (pushTerm top RAny KAtom) stack
      else if existsb (Ascii.eqb c) ["["; "]"; "{"; "}"]%char then OutsideFragment
      else parseLoop rest (pushTerm top (RChar c) KAtom) stack
  end.

(** [new RegExp(source)] *)
Definition compile (source : string) : Outcome Regex :=
  parseLoop (list_ascii_of_string source) emptyFrame [].

Definition isLineTerminator (c : ascii) : bool :=
  Ascii.eqb c "010" || Ascii.eqb c "013".

(** The matcher of a pattern, in the continuation style of the language
    definition: [i] is the index in the input, [s] the rest of the input,
    [k] what must match afterwards.  An iteration of a star that does not
    advance is rejected, so [length s] iterations are enough. *)
Fixpoint matcher (r : Regex) (i : nat) (s : list ascii)
  (k : nat → list ascii → bool) {struct r} : bool :=
  match r with
  | REmpty => k i s
  | RChar c =>
      match s with
      | x :: s' => if Ascii.eqb x c then k (S i) s' else false
      | [] => false
      end
  | RAny =>
      match s with
      | x :: s' => if isLineTerminator x then false else k (S i) s'
      | [] => false
      end
  | RBol => if i =? 0 then k i s else false
  | REol => match s with [] => k i s | _ :: _ => false end
  | RSeq a b => matcher a i s (fun i' s' => matcher b i' s' k)
  | RAlt a b => matcher a i s k || matcher b i s k
  | RStar a =>
      (fix loop (n i : nat) (s : list ascii) {struct n} : bool :=
         match n with
         | O => false
         | S n' =>
             matcher a i s
               (fun i' s' => if i' =? i then false else loop n' i' s')
         end || k i s) (length s) i s
  end.

(** [regex.test(text)] without flags: the first index at which the pattern
    matches, if any. *)
Fixpoint searchFrom (r : Regex) (i : nat) (s : list ascii) : bool :=
  matcher r i s (fun _ _ => true)
  || match s with
     | [] => false
     | _ :: s' => searchFrom r (S i) s'
     end.

Definition test (r : Regex) (text : string) : bool :=
  searchFrom r 0 (list_ascii_of_string text).

(** The pattern matches the text from its first to its last character. *)
Definition matchesWhole (r : Regex) (text : string) : bool :=
  matcher r 0 (list_ascii_of_string text)
    (fun _ s' => match s' with [] => true | _ :: _ => false end).

End RegExp.

(** ** src/utils/string.ts *)

Definition regexFilter (text pattern : string) : Outcome bool :=
  regex ←! RegExp.compile ("^" +:+ pattern +:+ "$");
  Done (RegExp.test regex text).

Definition replaceAll (text search replace : string) : string :=
  JsString.join (JsString.split text search) replace.

Definition sanitizePropertyName (name : string) : string :=
  replaceAll name "." "_".

(** [camelize]: the first replace rewrites single characters, those matched
    by [^\w], [[A-Z]] or [\b\w]; the second removes white space. *)
Fixpoint camelizeFrom (index : nat) (prev : option ascii) (s : string) : string :=
  match s with
  | EmptyString => EmptyString
  | String c s' =>
      let atStart := (index =? 0) && JsString.isWord c in
      let boundary :=
        JsString.isWord c &&
        match prev with
        | None => true
        | Some p => negb (JsString.isWord p)
        end in
      let c' :=
        if atStart || JsString.isUpper c || boundary
        then (if index =? 0 then JsString.lowerChar c else JsString.upperChar c)
        else c in
      String c' (camelizeFrom (S index) (Some c) s')
  end.

Fixpoint removeSpaces (s : string) : string :=
  match s with
  | EmptyString => EmptyString
  | String c s' =>
      if JsString.isSpace c then removeSpaces s' else String c (removeSpaces s')
  end.

Definition camelize (str : string) : string :=
  removeSpaces (camelizeFrom 0 None str).

(** ** src/core/config.ts and the option record of src/types/ICodgenConfigs *)

Definition API_OUTPUT_PATH : string := "data-access/web-service".

Record ConfigOptions : Type := mkConfigOptions {
  useStrictTypes : bool;
  generateComments : bool;
  generateJsDoc : bool;
  indentation : nat;
  cleanOutputDir : bool;
  filesToKeep : list string
}.

Definition DEFAULT_CONFIG : ConfigOptions :=
  {| indentation := 2;
     cleanOutputDir := false;
     filesToKeep := ["config.json"];
     useStrictTypes := true;
     generateComments := true;
     generateJsDoc := true |}.

(** [createConfig]

    A configuration file is parsed JSON: an endpoint entry can lack its
    [paths], and the [options] object any of its keys. *)

Record EndpointEntryConfig : Type := mkEndpointEntry {
  ee_url : string;
  ee_paths : option (list string)
}.

Record GivenOptions : Type := mkGivenOptions {
  given_useStrictTypes : option bool;
  given_generateComments : option bool;
  given_generateJsDoc : option bool;
  given_indentation : option nat;
  given_cleanOutputDir : option bool;
  given_filesToKeep : option (list string)
}.

Record ConfigFile : Type := mkConfigFile {
  cf_endpoints : list EndpointEntryConfig;
  cf_options : option GivenOptions
}.

Record EndpointConfig : Type := mkEndpointConfig {
  ec_url : string;
  ec_paths : list string
}.

Record CodegenConfig : Type := mkCodegenConfig {
  cfg_endpoints : list EndpointConfig;
  cfg_options : ConfigOptions;
  cfg_verbose : bool
}.

(** [{ ...defaults, ...given }] *)
Definition spreadOptions (defaults : ConfigOptions) (given : GivenOptions)
  : ConfigOptions :=
  {| indentation := default (indentation defaults) (given_indentation given);
     cleanOutputDir := default (cleanOutputDir defaults) (given_cleanOutputDir given);
     filesToKeep := default (filesToKeep defaults) (given_filesToKeep given);
     useStrictTypes := default (useStrictTypes defaults) (given_useStrictTypes given);
     generateComments := default (generateComments defaults) (given_generateComments given);
     generateJsDoc := default (generateJsDoc defaults) (given_generateJsDoc given) |}.

Definition createConfig (config : ConfigFile) : CodegenConfig :=
  {| cfg_endpoints :=
       map (fun endpoint =>
              mkEndpointConfig (ee_url endpoint) (default [".*"%string] (ee_paths endpoint)))
         (cf_endpoints config);
     cfg_options :=
       spreadOptions DEFAULT_CONFIG
         (default (mkGivenOptions None None None None None None) (cf_options config));
     cfg_verbose := false |}.

(** ** node:path, POSIX flavour: [path.join] and the normalisation it applies *)

Module NodePath.

Definition normalizeStep (allowAboveRoot : bool) (acc : list string) (seg : string)
  : list string :=
  if String.eqb seg "" || String.eqb seg "." then acc
  else if String.eqb seg ".." then
    match acc with
    | last :: rest =>
        if String.eqb last ".."
        then (if allowAboveRoot then seg :: acc else acc)
        else rest
    | [] => if allowAboveRoot then [seg] else []
    end
  else seg :: acc.

Definition startsWithSlash (p : string) : bool := String.prefix "/" p.

Fixpoint endsWithSlash (p : string) : bool :=
  match p with
  | EmptyString => false
  | String c EmptyString => Ascii.eqb c "/"
  | String _ p' => endsWithSlash p'
  end.

Definition normalize (p : string) : string :=
  match p with
  | EmptyString => "."
  | _ =>
      let isAbsolute := startsWithSlash p in
      let trailingSeparator := endsWithSlash p in
      let segs := fold_left (normalizeStep (negb isAbsolute)) (JsString.split p "/") [] in
      let body := JsString.join (rev segs) "/" in
      match body with
      | EmptyString =>
          if isAbsolute then "/" else if trailingSeparator then "./" else "."
      | _ =>
          let body' := if trailingSeparator then body +:+ "/" else body in
          if isAbsolute then "/" +:+ body' else body'
      end
  end.

Definition join (parts : list string) : string :=
  let nonEmpty := List.filter (fun a => negb (String.eqb a "")) parts in
  match nonEmpty with
  | [] => "."
  | _ => normalize (JsString.join nonEmpty "/")
  end.

End NodePath.

(** ** src/utils/path.ts *)

Record ModelPathAndName : Type := mkModelPathAndName {
  modelPath : string;
  modelName : string
}.

Definition getModelPathAndNameWith (model divider : string) : ModelPathAndName :=
  let model :=
    if JsString.includes model "System.Collections.Generic.IEnumerable"
    then JsString.substring model
           (JsString.lastIndexOf model "[[" + 2)%Z
           (Some (JsString.indexOf model ","))
    else model in
  let lastIndex := JsString.lastIndexOf model divider in
  if (lastIndex =? -1)%Z
  then mkModelPathAndName "" model
  else mkModelPathAndName
         (JsString.substring model 0%Z (Some lastIndex))
         (JsString.substring model (lastIndex + 1)%Z None).

(** The default divider *)
Definition getModelPathAndName (model : string) : ModelPathAndName :=
  getModelPathAndNameWith model ".".

Definition createCorrectPath (modelPath : string) : string :=
  let pathWithSlashes := replaceAll modelPath "." "/" in
  JsString.join
    (map (fun segment =>
            if String.eqb segment (JsString.toUpperCase segment)
            then JsString.toLowerCase segment
            else camelize segment)
         (JsString.split pathWithSlashes "/"))
    "/".

Definition buildFilePath (basePath category itemPath fileName : string) : string :=
  NodePath.join [basePath; category; itemPath; fileName +:+ ".ts"].

(** ** src/types/IGenerator *)

Record ImportStatement : Type := mkImport {
  imp_name : string;
  imp_path : string;
  imp_isDefault : option bool
}.

Record ModelProperty : Type := mkModelProperty {
  propertyName : string;
  mp_type : string;
  isOptional : bool;
  mp_description : option string
}.

Record GeneratedOutput : Type := mkOutput {
  out_content : string;
  out_path : string;
  out_filename : string
}.

(** ** src/builder/CodeBuilder.ts

    The builder is a text buffer with an indentation level.  Its methods
    mutate the instance and return it; here each is a function from the
    builder before to the builder after, and a body callback is such a
    function too. *)

Module CodeBuilder.

Record t : Type := mkBuilder {
  indentLevel : nat;
  content : string;
  indentString : string
}.

Definition Body := t → t.

(** [setDefaultIndentLevel(size)] stores [Math.max(1, size)] *)
Definition defaultIndentSize (size : nat) : nat := Nat.max 1 size.

(** [new CodeBuilder()] when the default size is [size] *)
Definition create (size : nat) : t :=
  mkBuilder 0 "" (JsString.repeat " " size).

Definition appendLine (line : string) (b : t) : t :=
  let indentation := JsString.repeat (indentString b) (indentLevel b) in
  mkBuilder (indentLevel b)
    (content b +:+ (indentation +:+ line +:+ String "010" ""))
    (indentString b).

Definition appendLines (lines : list string) (b : t) : t :=
  fold_left (fun b line => appendLine line b) lines b.

Definition appendEmptyLine (b : t) : t :=
  mkBuilder (indentLevel b) (content b +:+ String "010" "") (indentString b).

Definition indentBy (count : Z) (b : t) : t :=
  mkBuilder (Z.to_nat (Z.max 0 (Z.of_nat (indentLevel b) + count)))
    (content b) (indentString b).

Definition setIndentLevel (level : Z) (b : t) : t :=
  mkBuilder (Z.to_nat (Z.max 0 level)) (content b) (indentString b).

Definition reset (b : t) : t := mkBuilder 0 "" (indentString b).

(** [build()] with the default [reset = true]: the text, and the builder
    after the reset *)
Definition build (b : t) : string * t := (content b, reset b).

(* -------------------- Documentation -------------------- *)

Record Tag : Type := mkTag { tag : string; tag_text : string }.

(** [description?: string | string[]] *)
Definition Description := option (string + list string).

Definition descriptionGiven (d : Description) : bool :=
  match d with
  | Some (inl s) => JsString.truthy (Some s)
  | Some (inr _) => true
  | None => false
  end.

Definition descLines (d : Description) : list string :=
  match d with
  | Some (inl s) => [s]
  | Some (inr l) => l
  | None => []
  end.

Definition tagsGiven (tags : option (list Tag)) : bool :=
  match tags with
  | Some (_ :: _) => true
  | _ => false
  end.

Definition createJSDocBlock (description : Description)
  (tags : option (list Tag)) (b : t) : t :=
  let b := appendLine "/**" b in
  let b :=
    if descriptionGiven description then
      let lines := descLines description in
      let b := fold_left (fun b line => appendLine (" * " +:+ line) b) lines b in
      if tagsGiven tags && (0 <? length lines) then appendLine " *" b else b
    else b in
  let b :=
    if tagsGiven tags
    then fold_left
           (fun b tg => appendLine (" * @" +:+ tag tg +:+ " " +:+ tag_text tg) b)
           (default [] tags) b
    else b in
  appendLine " */" b.

Definition createCommentBlock (lines : list string) (b : t) : t :=
  match lines with
  | [] => b
  | _ =>
      let b := appendLine "/*" b in
      let b := fold_left (fun b line => appendLine (" * " +:+ line) b) lines b in
      appendLine " */" b
  end.

Definition createComment (text : string) (b : t) : t :=
  appendLine ("// " +:+ text) b.

(* -------------------- File level -------------------- *)

Definition createFileHeader (b : t) : t :=
  createJSDocBlock
    (Some (inr ["This code was generated using a code generation tool.";
                "";
                "Manual changes to this file may cause unexpected behavior.";
                "Manual changes will be overwritten if the code is regenerated."]))
    None b.

Record ImportSpec : Type := mkImportSpec {
  is_name : string;
  is_path : string;
  is_isDefault : option bool;
  is_isTypeOnly : option bool
}.

Record ImportItem : Type := mkImportItem {
  ii_name : string;
  ii_isDefault : bool;
  ii_isTypeOnly : bool
}.

(** The [Map] from path to items, in insertion order of the paths *)
Fixpoint groupInsert (path : string) (item : ImportItem)
  (groups : list (string * list ImportItem)) : list (string * list ImportItem) :=
  match groups with
  | [] => [(path, [item])]
  | (p, items) :: rest =>
      if String.eqb p path
      then (p, items ++ [item]) :: rest
      else (p, items) :: groupInsert path item rest
  end.

Definition importsByPath (imports : list ImportSpec)
  : list (string * list ImportItem) :=
  fold_left
    (fun groups imp =>
       groupInsert (is_path imp)
         (mkImportItem (is_name imp)
            (default false (is_isDefault imp))
            (default false (is_isTypeOnly imp)))
         groups)
    imports [].

Definition importStatement (path : string) (items : list ImportItem) : string :=
  let typePrefix := if forallb ii_isTypeOnly items then "type " else "" in
  let defaultImports := map ii_name (List.filter ii_isDefault items) in
  let namedImports := map ii_name (List.filter (fun i => negb (ii_isDefault i)) items) in
  let statement := "import " +:+ typePrefix in
  let statement :=
    match defaultImports with
    | [] => statement
    | _ =>
        let statement := statement +:+ JsString.join defaultImports ", " in
        match namedImports with
        | [] => statement
        | _ => statement +:+ ", "
        end
    end in
  let statement :=
    match namedImports with
    | [] => statement
    | _ => statement +:+ "{ " +:+ JsString.join namedImports ", " +:+ " }"
    end in
  statement +:+ " from '" +:+ path +:+ "';".

Definition createImports (imports : list ImportSpec) (b : t) : t :=
  match imports with
  | [] => b
  | _ =>
      let b := fold_left
                 (fun b g => appendLine (importStatement (fst g) (snd g)) b)
                 (importsByPath imports) b in
      appendEmptyLine b
  end.

(* -------------------- Declarations -------------------- *)

Definition createBlock (openingLine : string) (bodyContent : option Body) (b : t) : t :=
  let b := appendLine (openingLine +:+ " {") b in
  let b := indentBy 1 b in
  let b := match bodyContent with Some body => body b | None => b end in
  let b := indentBy (-1) b in
  appendLine "}" b.

Definition flag (o : option bool) : bool := default false o.

Definition describe (description : option string) (b : t) : t :=
  if JsString.truthy description
  then createJSDocBlock (option_map inl description) None b
  else b.

Definition decorate (decorators : option (list string)) (b : t) : t :=
  match decorators with
  | Some ((_ :: _) as decs) => fold_left (fun b dec => appendLine dec b) decs b
  | _ => b
  end.

(** [options.exported !== false ? "export " : ""] *)
Definition exportPrefix (exported : option bool) : string :=
  match exported with
  | Some false => ""
  | _ => "export "
  end.

Definition typeParamsSuffix (typeParams : option string) : string :=
  if JsString.truthy typeParams then "<" +:+ default "" typeParams +:+ ">" else "".

Record ClassOptions : Type := mkClassOptions {
  co_name : string;
  co_exported : option bool;
  co_extends : option string;
  co_implements : option (list string);
  co_typeParams : option string;
  co_abstract : option bool;
  co_description : option string;
  co_decorators : option (list string)
}.

Definition classDeclaration (options : ClassOptions) : string :=
  let declaration := if flag (co_abstract options) then "abstract " else "" in
  let declaration := declaration +:+ exportPrefix (co_exported options) in
  let declaration := declaration +:+ "class " +:+ co_name options in
  let declaration := declaration +:+ typeParamsSuffix (co_typeParams options) in
  let declaration :=
    if JsString.truthy (co_extends options)
    then declaration +:+ " extends " +:+ default "" (co_extends options)
    else declaration in
  match co_implements options with
  | Some ((_ :: _) as l) => declaration +:+ " implements " +:+ JsString.join l ", "
  | _ => declaration
  end.

Definition createClass (options : ClassOptions) (bodyContent : option Body) (b : t) : t :=
  let b := describe (co_description options) b in
  let b := decorate (co_decorators options) b in
  createBlock (classDeclaration options) bodyContent b.

Record Param : Type := mkParam {
  p_name : string;
  p_type : string;
  p_optional : option bool;
  p_defaultValue : option string
}.

Inductive Access : Type := Public | Private | Protected.

Definition accessName (a : Access) : string :=
  match a with
  | Public => "public"
  | Private => "private"
  | Protected => "protected"
  end.

Record MethodOptions : Type := mkMethodOptions {
  mo_name : string;
  mo_params : option (list Param);
  mo_returnType : option string;
  mo_access : option Access;
  mo_static : option bool;
  mo_async : option bool;
  mo_abstract : option bool;
  mo_override : option bool;
  mo_description : option string;
  mo_paramDescriptions : option (list (string * string));
  mo_returnDescription : option string
}.

Fixpoint assoc {A} (key : string) (l : list (string * A)) : option A :=
  match l with
  | [] => None
  | (k, v) :: rest => if String.eqb k key then Some v else assoc key rest
  end.

Definition methodTags (options : MethodOptions) : list Tag :=
  let paramTags :=
    match mo_params options, mo_paramDescriptions options with
    | Some params, Some descs =>
        flat_map
          (fun param =>
             match assoc (p_name param) descs with
             | Some (String _ _ as d) => [mkTag "param" (p_name param +:+ " - " +:+ d)]
             | _ => []
             end)
          params
    | _, _ => []
    end in
  let returnTags :=
    if JsString.truthy (mo_returnType options)
       && negb (String.eqb (default "" (mo_returnType options)) "void")
       && JsString.truthy (mo_returnDescription options)
    then [mkTag "returns" (default "" (mo_returnDescription options))]
    else [] in
  paramTags ++ returnTags.

Definition paramString (param : Param) : string :=
  let paramStr := p_name param in
  let paramStr := if flag (p_optional param) then paramStr +:+ "?" else paramStr in
  let paramStr := paramStr +:+ ": " +:+ p_type param in
  if JsString.truthy (p_defaultValue param)
  then paramStr +:+ " = " +:+ default "" (p_defaultValue param)
  else paramStr.

Definition methodSignature (options : MethodOptions) : string :=
  let signature := if flag (mo_override options) then "override " else "" in
  let signature :=
    match mo_access options with
    | Some a => signature +:+ accessName a +:+ " "
    | None => signature
    end in
  let signature := if flag (mo_static options) then signature +:+ "static " else signature in
  let signature := if flag (mo_abstract options) then signature +:+ "abstract " else signature in
  let signature := if flag (mo_async options) then signature +:+ "async " else signature in
  let signature := signature +:+ mo_name options in
  let signature := signature +:+ "(" in
  let signature :=
    match mo_params options with
    | Some ((_ :: _) as params) =>
        signature +:+ JsString.join (map paramString params) ", "
    | _ => signature
    end in
  let signature := signature +:+ ")" in
  if JsString.truthy (mo_returnType options)
  then signature +:+ ": " +:+ default "" (mo_returnType options)
  else signature.

Definition createMethod (options : MethodOptions) (bodyContent : option Body) (b : t) : t :=
  let b :=
    if JsString.truthy (mo_description options)
       || bool_decide (is_Some (mo_paramDescriptions options))
       || JsString.truthy (mo_returnDescription options)
    then createJSDocBlock (option_map inl (mo_description options))
           (Some (methodTags options)) b
    else b in
  let signature := methodSignature options in
  if flag (mo_abstract options)
  then appendLine (signature +:+ ";") b
  else createBlock signature bodyContent b.

Record PropertyOptions : Type := mkPropertyOptions {
  po_name : string;
  po_type : string;
  po_access : option Access;
  po_static : option bool;
  po_readonly : option bool;
  po_optional : option bool;
  po_initializer : option string;
  po_description : option string;
  po_decorators : option (list string)
}.

Definition propertyDeclaration (options : PropertyOptions) : string :=
  let declaration :=
    match po_access options with
    | Some a => accessName a +:+ " "
    | None => ""
    end in
  let declaration := if flag (po_static options) then declaration +:+ "static " else declaration in
  let declaration := if flag (po_readonly options) then declaration +:+ "readonly " else declaration in
  let declaration := declaration +:+ po_name options in
  let declaration := if flag (po_optional options) then declaration +:+ "?" else declaration in
  let declaration := declaration +:+ ": " +:+ po_type options in
  let declaration :=
    if JsString.truthy (po_initializer options)
    then declaration +:+ " = " +:+ default "" (po_initializer options)
    else declaration in
  declaration +:+ ";".

Definition createProperty (options : PropertyOptions) (b : t) : t :=
  let b := describe (po_description options) b in
  let b := decorate (po_decorators options) b in
  appendLine (propertyDeclaration options) b.

Record InterfaceOptions : Type := mkInterfaceOptions {
  io_name : string;
  io_exported : option bool;
  io_extends : option (list string);
  io_typeParams : option string;
  io_description : option string
}.

Definition interfaceDeclaration (options : InterfaceOptions) : string :=
  let declaration := exportPrefix (io_exported options) in
  let declaration := declaration +:+ "interface " +:+ io_name options in
  let declaration := declaration +:+ typeParamsSuffix (io_typeParams options) in
  match io_extends options with
  | Some ((_ :: _) as l) => declaration +:+ " extends " +:+ JsString.join l ", "
  | _ => declaration
  end.

Definition createInterface (options : InterfaceOptions) (bodyContent : option Body)
  (b : t) : t :=
  let b := describe (io_description options) b in
  createBlock (interfaceDeclaration options) bodyContent b.

Record InterfacePropertyOptions : Type := mkInterfacePropertyOptions {
  ip_name : string;
  ip_type : string;
  ip_optional : option bool;
  ip_readonly : option bool;
  ip_description : option string
}.

Definition interfacePropertyDeclaration (options : InterfacePropertyOptions) : string :=
  let declaration := if flag (ip_readonly options) then "readonly " else "" in
  let declaration := declaration +:+ ip_name options in
  let declaration := if flag (ip_optional options) then declaration +:+ "?" else declaration in
  declaration +:+ ": " +:+ ip_type options +:+ ";".

Definition createInterfaceProperty (options : InterfacePropertyOptions) (b : t) : t :=
  let b := describe (ip_description options) b in
  appendLine (interfacePropertyDeclaration options) b.

Record TypeAliasOptions : Type := mkTypeAliasOptions {
  ta_name : string;
  ta_type : string;
  ta_exported : option bool;
  ta_typeParams : option string;
  ta_description : option string
}.

Definition typeAliasDeclaration (options : TypeAliasOptions) : string :=
  let declaration := exportPrefix (ta_exported options) in
  let declaration := declaration +:+ "type " +:+ ta_name options in
  let declaration := declaration +:+ typeParamsSuffix (ta_typeParams options) in
  declaration +:+ " = " +:+ ta_type options +:+ ";".

Definition createTypeAlias (options : TypeAliasOptions) (b : t) : t :=
  let b := describe (ta_description options) b in
  let b := appendLine (typeAliasDeclaration options) b in
  appendEmptyLine b.

End CodeBuilder.

(** ** src/types/ISchema.ts *)

#[warnings="-register-all"]
Inductive SchemaObject : Type := mkSchema {
  s_type : option string;
  s_format : option string;
  s_nullable : option bool;
  s_required : option (list string);
  s_properties : option (list (string * SchemaObject));
  s_additionalProperties : option (SchemaObject + bool);
  s_items : option SchemaObject;
  s_ref : option string;
  s_allOf : option (list SchemaObject);
  s_oneOf : option (list SchemaObject);
  s_anyOf : option (list SchemaObject);
  s_description : option string
}.

Record ParameterObject : Type := mkParameter {
  par_name : string;
  par_in : string;
  par_description : option string;
  par_required : option bool;
  par_schema : option SchemaObject;
  par_type : option string;
  par_nullable : option bool
}.

Record MediaTypeObject : Type := mkMedia {
  media_schema : option SchemaObject
}.

Record RequestBodyObject : Type := mkRequestBody {
  rb_description : option string;
  rb_content : list (string * MediaTypeObject);
  rb_required : option bool
}.

Record ResponseObject : Type := mkResponse {
  resp_description : string;
  resp_content : option (list (string * MediaTypeObject));
  resp_schema : option SchemaObject
}.

(** [responses] lists the entries in the order [Object.values] yields them. *)
Record OperationObject : Type := mkOperation {
  op_summary : option string;
  op_description : option string;
  op_operationId : option string;
  op_parameters : option (list ParameterObject);
  op_requestBody : option RequestBodyObject;
  op_responses : list (string * ResponseObject)
}.

Record PathItemObject : Type := mkPathItem {
  pi_get : option OperationObject;
  pi_post : option OperationObject;
  pi_put : option OperationObject;
  pi_delete : option OperationObject;
  pi_parameters : option (list ParameterObject)
}.

Record ServerObject : Type := mkServer {
  server_url : string;
  server_description : option string
}.

Record ComponentsObject : Type := mkComponents {
  schemas : option (gmap string SchemaObject)
}.

Record OpenAPIDocument : Type := mkDocument {
  swagger : option string;
  openapi : option string;
  paths : list (string * PathItemObject);
  basePath : option string;
  servers : option (list ServerObject);
  definitions : option (gmap string SchemaObject);
  components : option ComponentsObject
}.

(** Induction over schemas, through the lists and options that nest them *)

Section SchemaInduction.

Variable P : SchemaObject → Prop.

Definition PItems (o : option SchemaObject) : Prop :=
  match o with Some s => P s | None => True end.
Definition PList (o : option (list SchemaObject)) : Prop :=
  match o with Some l => Forall P l | None => True end.
Definition PProps (o : option (list (string * SchemaObject))) : Prop :=
  match o with Some l => Forall (fun kv => P (snd kv)) l | None => True end.
Definition PAdditional (o : option (SchemaObject + bool)) : Prop :=
  match o with Some (inl s) => P s | _ => True end.

Hypothesis step :
  ∀ ty fmt nul req props ap items ref allOf oneOf anyOf desc,
    PProps props → PAdditional ap → PItems items →
    PList allOf → PList oneOf → PList anyOf →
    P (mkSchema ty fmt nul req props ap items ref allOf oneOf anyOf desc).

Fixpoint SchemaObject_nested_ind (s : SchemaObject) : P s :=
  match s with
  | mkSchema ty fmt nul req props ap items ref allOf oneOf anyOf desc =>
      let all :=
        fix all (l : list SchemaObject) : Forall P l :=
          match l with
          | [] => @List.Forall_nil _ P
          | x :: l' => @List.Forall_cons _ P x l' (SchemaObject_nested_ind x) (all l')
          end in
      let plist := fun (o : option (list SchemaObject)) =>
        match o return PList o with
        | Some l => all l
        | None => I
        end in
      step ty fmt nul req props ap items ref allOf oneOf anyOf desc
        (match props return PProps props with
         | Some l =>
             (fix allp (l : list (string * SchemaObject))
                : Forall (fun kv => P (snd kv)) l :=
                match l with
                | [] => List.Forall_nil _
                | kv :: l' =>
                    @List.Forall_cons _ (fun kv => P (snd kv)) kv l'
                      (SchemaObject_nested_ind (snd kv)) (allp l')
                end) l
         | None => I
         end)
        (match ap return PAdditional ap with
         | Some (inl a) => SchemaObject_nested_ind a
         | Some (inr _) => I
         | None => I
         end)
        (match items return PItems items with
         | Some i => SchemaObject_nested_ind i
         | None => I
         end)
        (plist allOf) (plist oneOf) (plist anyOf)
  end.

End SchemaInduction.

(** An object literal with only some fields set *)
Definition emptySchema : SchemaObject :=
  mkSchema None None None None None None None None None None None None.

Definition refSchema (ref : string) : SchemaObject :=
  mkSchema None None None None None None None (Some ref) None None None None.

Definition typedSchema (ty : string) : SchemaObject :=
  mkSchema (Some ty) None None None None None None None None None None None.

Definition objectSchema (props : list (string * SchemaObject)) : SchemaObject :=
  mkSchema None None None None (Some props) None None None None None None None.

Definition allOfSchema (members : list SchemaObject) : SchemaObject :=
  mkSchema None None None None None None None None (Some members) None None None.

(** [schema.type === "array"] *)
Definition isArrayType (schema : SchemaObject) : bool :=
  match s_type schema with
  | Some type => String.eqb type "array"
  | None => false
  end.

(** [ref.substring(ref.lastIndexOf("/") + 1)], the expression by which every
    component takes the model name out of a reference *)
Definition afterLastSlash (ref : string) : string :=
  JsString.substring ref (JsString.lastIndexOf ref "/" + 1)%Z None.

(** ** [Array.prototype.forEach] and [filter] over code that can fail *)

Fixpoint forEach {A S : Type} (f : A → S → Outcome S) (l : list A) (st : S)
  : Outcome S :=
  match l with
  | [] => Done st
  | x :: l' => st' ←! f x st; forEach f l' st'
  end.

Fixpoint filterM {A : Type} (p : A → Outcome bool) (l : list A) : Outcome (list A) :=
  match l with
  | [] => Done []
  | x :: l' =>
      keep ←! p x;
      rest ←! filterM p l';
      Done (if keep then x :: rest else rest)
  end.

(** ** src/builder/APISpecParser.ts *)

Module APISpecParser.

(** The two [Set<string>] fields.  [modelRefs] is read back with
    [Array.from], so its insertion order is kept. *)
Record State : Type := mkState {
  modelRefs : list string;
  processedRefs : gset string
}.

(** After the two [clear()] calls of [discoverModelPaths] *)
Definition cleared : State := mkState [] ∅.

Definition extractRefName (ref : string) : string := afterLastSlash ref.

Definition addModelReference (refName : string) (st : State) : State :=
  if bool_decide (refName ∈ modelRefs st) then st
  else mkState (modelRefs st ++ [refName]) (processedRefs st).

Definition markProcessed (refName : string) (st : State) : State :=
  mkState (modelRefs st) ({[ refName ]} ∪ processedRefs st).

Section Instance.

(** [constructor(private readonly apiSpec: OpenAPIDocument)] *)
Variable apiSpec : OpenAPIDocument.

Definition isOpenApi3 : bool := JsString.truthy (openapi apiSpec).

(** [definitions] as [processReferencedSchema] computes it *)
Definition schemaDictionary : gmap string SchemaObject :=
  if isOpenApi3
  then default ∅ (components apiSpec ≫= schemas)
  else default ∅ (definitions apiSpec).

Section Walk.

(** What happens at a reference that was not expanded before:
    [processReferencedSchema], which re-enters [processSchema]. *)
Variable processReferencedSchema : string → State → Outcome State.

(** [processSchema] with [processCompositeSchema] inlined: [composite] is
    what the latter does when the schema is not an array with items.  The
    spread of [allOf], [oneOf] and [anyOf] into one array that is then
    walked is written as three walks in that order. *)
Fixpoint processSchemaWith (schema : SchemaObject) (st : State)
  {struct schema} : Outcome State :=
  if JsString.truthy (s_ref schema) then
    let refPath := extractRefName (default "" (s_ref schema)) in
    let st := addModelReference refPath st in
    if bool_decide (refPath ∈ processedRefs st)
    then Done st
    else processReferencedSchema refPath st
  else
    let composite :=
      st ←! match s_allOf schema with
             | Some members => forEach processSchemaWith members st
             | None => Done st
             end;
      st ←! match s_oneOf schema with
             | Some members => forEach processSchemaWith members st
             | None => Done st
             end;
      st ←! match s_anyOf schema with
             | Some members => forEach processSchemaWith members st
             | None => Done st
             end;
      st ←! match s_additionalProperties schema with
             | Some (inl additional) => processSchemaWith additional st
             | _ => Done st
             end;
      match s_properties schema with
      | Some props => forEach (fun kv => processSchemaWith (snd kv)) props st
      | None => Done st
      end in
    match s_items schema with
    | Some items => if isArrayType schema then processSchemaWith items st else composite
    | None => composite
    end.

End Walk.

(** [fuel] bounds the nesting of reference expansions. *)
Fixpoint processSchema (fuel : nat) (schema : SchemaObject) (st : State)
  {struct fuel} : Outcome State :=
  processSchemaWith
    (fun refName st =>
       match fuel with
       | O => OutOfFuel
       | S fuel' =>
           let st := markProcessed refName st in
           match schemaDictionary !! refName with
           | Some schema => processSchema fuel' schema st
           | None => Done st
           end
       end)
    schema st.

Section Traversal.

Variable fuel : nat.

Definition processOptionalSchema (schema : option SchemaObject) (st : State)
  : Outcome State :=
  match schema with
  | Some schema => processSchema fuel schema st
  | None => Done st
  end.

Definition processParameter (param : ParameterObject) (st : State)
  : Outcome State :=
  processOptionalSchema (par_schema param) st.

(** The loop over [Object.values(content)], shared by the request body
    and the responses *)
Definition processContent (content : list (string * MediaTypeObject))
  (st : State) : Outcome State :=
  forEach (fun kv st => processOptionalSchema (media_schema (snd kv)) st)
    content st.

Definition processRequestBody (requestBody : RequestBodyObject) (st : State)
  : Outcome State :=
  processContent (rb_content requestBody) st.

Definition processRequestModels (pathItem : PathItemObject)
  (operation : OperationObject) (st : State) : Outcome State :=
  let parameters :=
    default [] (pi_parameters pathItem) ++ default [] (op_parameters operation) in
  st ←! forEach processParameter parameters st;
  match op_requestBody operation with
  | Some requestBody =>
      if isOpenApi3 then processRequestBody requestBody st else Done st
  | None => Done st
  end.

Definition processResponse (response : ResponseObject) (st : State)
  : Outcome State :=
  match resp_content response with
  | Some content =>
      if isOpenApi3 then processContent content st
      else processOptionalSchema (resp_schema response) st
  | None => processOptionalSchema (resp_schema response) st
  end.

Definition processResponseModels (operation : OperationObject) (st : State)
  : Outcome State :=
  forEach (fun kv st => processResponse (snd kv) st) (op_responses operation) st.

Definition processOperation (pathItem : PathItemObject)
  (operation : OperationObject) (st : State) : Outcome State :=
  st ←! processRequestModels pathItem operation st;
  processResponseModels operation st.

Definition definedOperations (pathItem : PathItemObject) : list OperationObject :=
  omap id [pi_get pathItem; pi_post pathItem; pi_put pathItem; pi_delete pathItem].

Definition processPathOperations (pathItem : PathItemObject) (st : State)
  : Outcome State :=
  forEach (processOperation pathItem) (definedOperations pathItem) st.

(** [pathsToProcess]: an unset or empty pattern keeps every path. *)
Definition pathsToProcess (pathPattern : option string)
  : Outcome (list (string * PathItemObject)) :=
  if JsString.truthy pathPattern
  then filterM (fun kv => regexFilter (fst kv) (default "" pathPattern))
         (paths apiSpec)
  else Done (paths apiSpec).

Definition processMatchingPaths (pathPattern : option string) (st : State)
  : Outcome State :=
  selected ←! pathsToProcess pathPattern;
  forEach (fun kv st => processPathOperations (snd kv) st) selected st.

Definition discoverModelPathsWith (pathPattern : option string)
  : Outcome (list string) :=
  st ←! processMatchingPaths pathPattern cleared;
  Done (modelRefs st).

End Traversal.

(** One level of expansion per dictionary entry, and one more for a
    reference that has no entry. *)
Definition discoverFuel : nat := S (size schemaDictionary).

Definition discoverModelPaths (pathPattern : option string) : Outcome (list string) :=
  discoverModelPathsWith discoverFuel pathPattern.

End Instance.

End APISpecParser.

(** ** class BaseGenerator: the shared helpers *)

Module BaseGenerator.

Definition addFileHeader (builder : CodeBuilder.t) : CodeBuilder.t :=
  CodeBuilder.appendEmptyLine (CodeBuilder.createFileHeader builder).

Definition sameImport (a b : ImportStatement) : bool :=
  String.eqb (imp_path a) (imp_path b) && String.eqb (imp_name a) (imp_name b).

(** The filter of [addImportStatements]: [seen] holds the elements of the
    array before the current index, so [findIndex(...) === idx] is "no
    element of [seen] is the same import". *)
Fixpoint uniqueImportsFrom (currentName : string) (seen imports : list ImportStatement)
  : list ImportStatement :=
  match imports with
  | [] => []
  | imp :: rest =>
      let keep :=
        negb (String.eqb (imp_name imp) currentName)
        && negb (existsb (sameImport imp) seen) in
      (if keep then [imp] else [])
        ++ uniqueImportsFrom currentName (seen ++ [imp]) rest
  end.

Definition uniqueImports (imports : list ImportStatement) (currentName : string)
  : list ImportStatement :=
  uniqueImportsFrom currentName [] imports.

Definition toImportSpec (imp : ImportStatement) : CodeBuilder.ImportSpec :=
  CodeBuilder.mkImportSpec (imp_name imp) (imp_path imp) (imp_isDefault imp) None.

Definition addImportStatements (builder : CodeBuilder.t)
  (imports : list ImportStatement) (currentName : string) : CodeBuilder.t :=
  match uniqueImports imports currentName with
  | [] => builder
  | unique => CodeBuilder.createImports (map toImportSpec unique) builder
  end.

Definition isOpenApi3 (spec : OpenAPIDocument) : bool :=
  JsString.truthy (openapi spec).

Definition getApiBasePath (api : OpenAPIDocument) : string :=
  match servers api with
  | Some (first :: _) =>
      if JsString.truthy (openapi api) then server_url first
      else default "" (basePath api)
  | _ => default "" (basePath api)
  end.

Definition getDefinitions (spec : OpenAPIDocument) : gmap string SchemaObject :=
  if isOpenApi3 spec
  then default ∅ (components spec ≫= schemas)
  else default ∅ (definitions spec).

Definition isPrimitiveType (type : string) : bool :=
  existsb (String.eqb type)
    ["string"; "number"; "boolean"; "any"; "void"; "Object"; "Array"]%string.

Definition mapPrimitiveType (type : string) (format : option string) : string :=
  if String.eqb type "integer" || String.eqb type "number" then "number"
  else if String.eqb type "string" then
    match format with
    | Some "date"%string => "string"
    | Some "date-time"%string => "string"
    | Some "binary"%string => "Blob"
    | Some "byte"%string => "string"
    | _ => "string"
    end
  else if String.eqb type "boolean" then "boolean"
  else if String.eqb type "object" then "Record<string, any>"
  else if String.eqb type "array" then "Array<any>"
  else "any".

(** [a || b] on strings *)
Definition orElse (a : option string) (b : string) : string :=
  if JsString.truthy a then default "" a else b.

Definition capitalize (type : string) : string :=
  match type with
  | EmptyString => EmptyString
  | String c rest => String (JsString.upperChar c) rest
  end.

Definition normalizeSchemaType (schema : option SchemaObject) : string :=
  match schema with
  | None => "void"
  | Some schema =>
      if JsString.truthy (s_ref schema)
      then afterLastSlash (default "" (s_ref schema))
      else if JsString.truthy (s_type schema)
      then capitalize (default "" (s_type schema))
      else "void"
  end.

Definition isPdfResponse (type : option string) : bool :=
  match type with
  | Some type => JsString.includes type "Stream"
  | None => false
  end.

End BaseGenerator.

(** ** class DTOGenerator *)

Module DTOGenerator.

(** The two [Set<string>] fields of an instance *)
Record State : Type := mkState {
  processedRefs : gset string;
  processingStack : gset string
}.

(** A newly constructed generator *)
Definition fresh : State := mkState ∅ ∅.

(** What one call of [buildOutput] leaves behind: the returned value, the
    fields, and the lines given to [console.warn] *)
Record Built : Type := mkBuilt {
  built_output : option GeneratedOutput;
  built_state : State;
  built_warnings : list string
}.

Record Inheritance : Type := mkInheritance {
  inh_imports : list ImportStatement;
  typeDef : string
}.

Record Collected : Type := mkCollected {
  col_properties : list ModelProperty;
  col_imports : list ImportStatement
}.

Definition dtoImport (refPath : string) : ImportStatement :=
  let mpn := getModelPathAndName refPath in
  mkImport (modelName mpn)
    (API_OUTPUT_PATH +:+ "/dto/" +:+ createCorrectPath (modelPath mpn)
       +:+ "/" +:+ modelName mpn)
    None.

Definition processInheritance (definition : SchemaObject) : Inheritance :=
  fold_left
    (fun acc item =>
       if JsString.truthy (s_ref item) then
         let refPath := afterLastSlash (default "" (s_ref item)) in
         let name := modelName (getModelPathAndName refPath) in
         mkInheritance (inh_imports acc ++ [dtoImport refPath])
           (match typeDef acc with
            | EmptyString => name
            | _ => typeDef acc +:+ " & " +:+ name
            end)
       else acc)
    (default [] (s_allOf definition))
    (mkInheritance [] "").

Definition addReferenceImport (ref : string) (imports : list ImportStatement)
  : list ImportStatement :=
  imports ++ [dtoImport (afterLastSlash ref)].

Definition itemsRef (schema : SchemaObject) : option string :=
  s_items schema ≫= s_ref.

Fixpoint resolvePropertyType (schema : SchemaObject) : string :=
  if JsString.truthy (s_ref schema) then
    modelName (getModelPathAndName (afterLastSlash (default "" (s_ref schema))))
  else
    match s_type schema with
    | Some "array"%string =>
        let itemType :=
          if JsString.truthy (itemsRef schema)
          then modelName (getModelPathAndName
                            (afterLastSlash (default "" (itemsRef schema))))
          else BaseGenerator.mapPrimitiveType
                 (BaseGenerator.orElse (s_items schema ≫= s_type) "any") None in
        itemType +:+ "[]"
    | ty =>
        match ty, s_additionalProperties schema with
        | Some "object"%string, Some (inl additional) =>
            "Record<string, " +:+ resolvePropertyType additional +:+ ">"
        | Some "object"%string, Some (inr true) => "Record<string, any>"
        | _, _ =>
            BaseGenerator.mapPrimitiveType
              (BaseGenerator.orElse (s_type schema) "any") (s_format schema)
        end
    end.

Definition isRequired (definition : SchemaObject) (propName : string) : bool :=
  match s_required definition with
  | Some required => existsb (String.eqb propName) required
  | None => false
  end.

Definition collectProperty (definition : SchemaObject) (acc : Collected)
  (entry : string * SchemaObject) : Collected :=
  let propName := fst entry in
  let schema := snd entry in
  let type := resolvePropertyType schema in
  let isNullable := default false (s_nullable schema) in
  let isOptional := negb (isRequired definition propName) || isNullable in
  let imports :=
    if JsString.truthy (s_ref schema)
    then addReferenceImport (default "" (s_ref schema)) (col_imports acc)
    else if JsString.truthy (itemsRef schema)
    then addReferenceImport (default "" (itemsRef schema)) (col_imports acc)
    else col_imports acc in
  mkCollected
    (col_properties acc ++
       [mkModelProperty (sanitizePropertyName propName) type isOptional
          (s_description schema)])
    imports.

Definition collectProperties (definition : SchemaObject) : Collected :=
  match s_properties definition with
  | None => mkCollected [] []
  | Some props => fold_left (collectProperty definition) props (mkCollected [] [])
  end.

Section Instance.

(** [constructor(definitions, options)], and the value of the static
    [CodeBuilder.defaultIndentSize] when builders are created *)
Variable definitions : gmap string SchemaObject.
Variable options : ConfigOptions.
Variable indentSize : nat.

Definition generateInterfaceDefinition (builder : CodeBuilder.t)
  (modelName : string) (properties : list ModelProperty) : CodeBuilder.t :=
  CodeBuilder.createInterface
    (CodeBuilder.mkInterfaceOptions modelName (Some true) None None
       (Some ("Interface representing a " +:+ modelName +:+ " model")))
    (Some (fun builder =>
             fold_left
               (fun builder prop =>
                  CodeBuilder.createInterfaceProperty
                    (CodeBuilder.mkInterfacePropertyOptions
                       (propertyName prop) (mp_type prop)
                       (Some (isOptional prop)) None (mp_description prop))
                    builder)
               properties builder))
    builder.

Definition typeMemberLine (prop : ModelProperty) : string :=
  propertyName prop +:+ (if isOptional prop then "?" else "") +:+ ": "
    +:+ mp_type prop +:+ ";".

Definition generateTypeDefinition (builder : CodeBuilder.t) (modelName : string)
  (properties : list ModelProperty) (baseType : string) : CodeBuilder.t :=
  match properties with
  | [] =>
      CodeBuilder.createTypeAlias
        (CodeBuilder.mkTypeAliasOptions modelName baseType (Some true) None
           (Some ("Type representing a " +:+ modelName +:+ " model")))
        builder
  | _ =>
      let builder :=
        CodeBuilder.createJSDocBlock
          (Some (inl ("Type representing a " +:+ modelName +:+ " model")))
          None builder in
      let builder :=
        CodeBuilder.appendLine
          ("export type " +:+ modelName +:+ " = " +:+ baseType +:+ " & {") builder in
      let builder := CodeBuilder.indentBy 1 builder in
      let builder :=
        fold_left
          (fun builder prop =>
             let builder :=
               if JsString.truthy (mp_description prop) && generateJsDoc options
               then CodeBuilder.createJSDocBlock
                      (option_map inl (mp_description prop)) None builder
               else builder in
             CodeBuilder.appendLine (typeMemberLine prop) builder)
          properties builder in
      let builder := CodeBuilder.indentBy (-1) builder in
      let builder := CodeBuilder.appendLine "};" builder in
      CodeBuilder.appendEmptyLine builder
  end.

(** The text of the file of one model, from the part of [buildOutput]
    that follows the emission of the parents *)
Definition modelContent (modelName : string) (definition : SchemaObject) : string :=
  let inheritance :=
    match s_allOf definition with
    | Some _ => processInheritance definition
    | None => mkInheritance [] ""
    end in
  let collected := collectProperties definition in
  let imports := inh_imports inheritance ++ col_imports collected in
  let builder := CodeBuilder.create indentSize in
  let builder := BaseGenerator.addFileHeader builder in
  let builder := BaseGenerator.addImportStatements builder imports modelName in
  let builder :=
    match s_allOf definition with
    | Some _ =>
        generateTypeDefinition builder modelName (col_properties collected)
          (typeDef inheritance)
    | None =>
        generateInterfaceDefinition builder modelName (col_properties collected)
    end in
  fst (CodeBuilder.build builder).

(** The record [buildOutput] returns for a model that has a definition *)
Definition modelOutput (modelRef : string) (definition : SchemaObject)
  : GeneratedOutput :=
  let mpn := getModelPathAndName modelRef in
  let filePath :=
    buildFilePath (API_OUTPUT_PATH +:+ "/") "dto"
      (createCorrectPath (modelPath mpn)) (modelName mpn) in
  mkOutput (modelContent (modelName mpn) definition) filePath (modelName mpn).

(** The loop "Generate parent types first": the value each inner call
    returns is not used, its effects are. *)
Fixpoint buildParents (buildOutput : string → State → Outcome Built)
  (parents : list ImportStatement) (st : State) (warnings : list string)
  : Outcome (State * list string) :=
  match parents with
  | [] => Done (st, warnings)
  | imp :: rest =>
      let parentRef := imp_name imp in
      built ←! buildOutput parentRef st;
      buildParents buildOutput rest (built_state built)
        (warnings ++ built_warnings built)
  end.

Fixpoint buildOutput (fuel : nat) (modelRef : string) (st : State)
  {struct fuel} : Outcome Built :=
  if bool_decide (modelRef ∈ processedRefs st) then Done (mkBuilt None st [])
  else if bool_decide (modelRef ∈ processingStack st) then
    Done (mkBuilt None
            (mkState ({[ modelRef ]} ∪ processedRefs st) (processingStack st)) [])
  else
    match definitions !! modelRef with
    | None =>
        Done (mkBuilt None st ["Definition not found for model: " +:+ modelRef])
    | Some definition =>
        match fuel with
        | O => OutOfFuel
        | S fuel' =>
            let st := mkState ({[ modelRef ]} ∪ processedRefs st)
                        ({[ modelRef ]} ∪ processingStack st) in
            let inheritance :=
              match s_allOf definition with
              | Some _ => processInheritance definition
              | None => mkInheritance [] ""
              end in
            after ←! buildParents (buildOutput fuel') (inh_imports inheritance) st [];
            let st := fst after in
            Done (mkBuilt (Some (modelOutput modelRef definition))
                    (mkState (processedRefs st) (processingStack st ∖ {[ modelRef ]}))
                    (snd after))
        end
    end.

Definition generateFuel : nat := S (size definitions).

(** [generate(paths)] on an instance whose fields are [st]: the
    [flatMap] over the names *)
Fixpoint generateFrom (paths : list string) (st : State)
  : Outcome (list GeneratedOutput * State * list string) :=
  match paths with
  | [] => Done ([], st, [])
  | path :: rest =>
      built ←! buildOutput generateFuel path st;
      more ←! generateFrom rest (built_state built);
      Done (option_list (built_output built) ++ fst (fst more),
            snd (fst more),
            built_warnings built ++ snd more)
  end.

(** [new DTOGenerator(definitions, options).generate(paths)] *)
Definition generate (paths : list string)
  : Outcome (list GeneratedOutput * State * list string) :=
  generateFrom paths fresh.

End Instance.

End DTOGenerator.

(** ** Endpoint descriptors (src/types/IGenerator) *)

Record EndpointParameter : Type := mkEndpointParameter {
  ep_name : string;
  ep_type : string + (string * option string);
  ep_isOptional : bool;
  ep_description : option string;
  ep_in : string
}.

Record EndpointDefinition : Type := mkEndpoint {
  ed_path : string;
  ed_method : string;
  ed_parameters : list EndpointParameter;
  ed_responseType : list string;
  ed_operationId : option string;
  ed_summary : option string;
  ed_description : option string;
  ed_requestBody : option string
}.

(** [flatMap] over code that can fail *)
Fixpoint flatMapM {A B : Type} (f : A → Outcome (list B)) (l : list A)
  : Outcome (list B) :=
  match l with
  | [] => Done []
  | x :: l' =>
      ys ←! f x;
      rest ←! flatMapM f l';
      Done (ys ++ rest)
  end.

(** What the read-style and the write-style generator have word for word in
    common *)

Module RequestCommon.

Section Instance.

Variable apiSpec : OpenAPIDocument.

(** [extractResponseTypes], the same text in both generators *)
Definition responseTypesOf (resp : ResponseObject) : list string :=
  match resp_content resp with
  | Some content =>
      if BaseGenerator.isOpenApi3 apiSpec
      then map (fun kv => BaseGenerator.normalizeSchemaType (media_schema (snd kv)))
             content
      else match resp_schema resp with
           | Some schema => [BaseGenerator.normalizeSchemaType (Some schema)]
           | None => ["void"]
           end
  | None =>
      match resp_schema resp with
      | Some schema => [BaseGenerator.normalizeSchemaType (Some schema)]
      | None => ["void"]
      end
  end.

Definition extractResponseTypes (operation : OperationObject) : list string :=
  flat_map (fun kv => responseTypesOf (snd kv)) (op_responses operation).

End Instance.

(** [respType && respType !== "void" && !this.isPrimitiveType(respType)] *)
Definition isModelType (respType : option string) : bool :=
  JsString.truthy respType
  && negb (String.eqb (default "" respType) "void")
  && negb (BaseGenerator.isPrimitiveType (default "" respType)).

Definition baseImportName (isPdf : bool) : string :=
  if isPdf then "PdfWebServiceRequest" else "JsonWebServiceRequest".

Definition baseImport (isPdf : bool) : ImportStatement :=
  mkImport (baseImportName isPdf)
    ("data-access/data-service/" +:+ baseImportName isPdf) (Some true).

Definition responseDTOName (respType : option string) : option string :=
  if isModelType respType
  then Some (modelName (getModelPathAndName (default "" respType)))
  else None.

(** [isPdf ? "PdfWebServiceRequest" : `JsonWebServiceRequest<${responseDTOName ?? "any"}>`] *)
Definition baseClass (isPdf : bool) (respType : option string) : string :=
  if isPdf then "PdfWebServiceRequest"
  else "JsonWebServiceRequest<" +:+ default "any" (responseDTOName respType) +:+ ">".

Definition constructorMethod (verb basePath path : string) (builder : CodeBuilder.t)
  : CodeBuilder.t :=
  CodeBuilder.createMethod
    (CodeBuilder.mkMethodOptions "constructor" None None None None None None None
       None None None)
    (Some (CodeBuilder.appendLine
             ("super('" +:+ verb +:+ "', '" +:+ basePath +:+ path +:+ "');")))
    builder.

Definition requestFilePath (basePath epPath className : string) : string :=
  let apiName := afterLastSlash basePath in
  buildFilePath (API_OUTPUT_PATH +:+ "/")
    ("request/" +:+ createCorrectPath apiName)
    (createCorrectPath epPath)
    (className +:+ "WebServiceRequest").

End RequestCommon.

(** ** class GETRequestGenerator *)

Module GETRequestGenerator.

Section Instance.

Variable apiSpec : OpenAPIDocument.
Variable options : ConfigOptions.
Variable indentSize : nat.

Definition convertParameter (param : ParameterObject) : EndpointParameter :=
  if BaseGenerator.isOpenApi3 apiSpec then
    let schema := default (typedSchema "string") (par_schema param) in
    mkEndpointParameter (par_name param)
      (inr (BaseGenerator.orElse (s_type schema) "string", s_format schema))
      (negb (default false (par_required param)))
      (par_description param) (par_in param)
  else
    mkEndpointParameter (par_name param)
      (inl (BaseGenerator.orElse (par_type param) "string"))
      (negb (default false (par_required param)))
      (par_description param) (par_in param).

Definition extractParameters (pathItem : PathItemObject)
  (operation : OperationObject) : list EndpointParameter :=
  map convertParameter
    (default [] (pi_parameters pathItem) ++ default [] (op_parameters operation)).

Definition extractResponseTypes := RequestCommon.extractResponseTypes apiSpec.

Definition resolveEntities (pathPattern : string) : Outcome (list EndpointDefinition) :=
  flatMapM
    (fun entry =>
       let path := fst entry in
       let item := snd entry in
       match pi_get item with
       | None => Done []
       | Some operation =>
           selected ←! regexFilter path pathPattern;
           if selected
           then Done [mkEndpoint path "get"
                        (extractParameters item operation)
                        (extractResponseTypes operation)
                        (op_operationId operation) (op_summary operation)
                        (op_description operation) None]
           else Done []
       end)
    (paths apiSpec).

Definition generateImports (endpoint : EndpointDefinition) (isPdf : bool)
  : list ImportStatement :=
  let respType := head (ed_responseType endpoint) in
  RequestCommon.baseImport isPdf
    :: (if RequestCommon.isModelType respType
        then [DTOGenerator.dtoImport (default "" respType)]
        else []).

Definition getParameterType (paramType : string + (string * option string)) : string :=
  match paramType with
  | inl type => BaseGenerator.mapPrimitiveType type None
  | inr (type, format) => BaseGenerator.mapPrimitiveType type format
  end.

Definition inQueryOrPath (param : EndpointParameter) : bool :=
  String.eqb (ep_in param) "query" || String.eqb (ep_in param) "path".

Definition generateQueryParamsInterface (builder : CodeBuilder.t)
  (endpoint : EndpointDefinition) (className : string) : CodeBuilder.t :=
  let builder :=
    CodeBuilder.createInterface
      (CodeBuilder.mkInterfaceOptions (className +:+ "QueryParams") (Some true)
         None None (Some ("Query parameters for " +:+ className +:+ " request")))
      (Some (fun builder =>
               fold_left
                 (fun builder param =>
                    if inQueryOrPath param then
                      CodeBuilder.createInterfaceProperty
                        (CodeBuilder.mkInterfacePropertyOptions
                           (sanitizePropertyName (ep_name param))
                           (getParameterType (ep_type param))
                           (Some (ep_isOptional param)) None
                           (ep_description param))
                        builder
                    else builder)
                 (ed_parameters endpoint) builder))
      builder in
  CodeBuilder.appendEmptyLine builder.

Definition setupUrlLine (param : EndpointParameter) : string :=
  "this.appendIfNotEmpty(url, '" +:+ ep_name param +:+ "', this.queryParams"
    +:+ (if ep_isOptional param then "?" else "") +:+ "."
    +:+ sanitizePropertyName (ep_name param) +:+ ");".

Definition generateSetupUrlMethod (builder : CodeBuilder.t)
  (endpoint : EndpointDefinition) : CodeBuilder.t :=
  CodeBuilder.createMethod
    (CodeBuilder.mkMethodOptions "setupURL"
       (Some [CodeBuilder.mkParam "url" "URL" None None]) (Some "void")
       None None None None None
       (Some "Appends query parameters to the URL") None None)
    (Some (fun builder =>
             fold_left
               (fun builder param =>
                  if inQueryOrPath param
                  then CodeBuilder.appendLine (setupUrlLine param) builder
                  else builder)
               (ed_parameters endpoint) builder))
    builder.

Definition hasParameters (endpoint : EndpointDefinition) : bool :=
  match ed_parameters endpoint with [] => false | _ :: _ => true end.

Definition generateRequestClass (builder : CodeBuilder.t)
  (endpoint : EndpointDefinition) (className basePath : string) (isPdf : bool)
  : CodeBuilder.t :=
  let respType := head (ed_responseType endpoint) in
  let baseClass := RequestCommon.baseClass isPdf respType in
  let builder :=
    CodeBuilder.createClass
      (CodeBuilder.mkClassOptions (className +:+ "WebServiceRequest") (Some true)
         (Some baseClass) None None None
         (Some ("Request class for " +:+ ed_path endpoint)) None)
      (Some (fun builder =>
               let builder :=
                 if hasParameters endpoint then
                   CodeBuilder.appendEmptyLine
                     (CodeBuilder.createProperty
                        (CodeBuilder.mkPropertyOptions "queryParams"
                           (className +:+ "QueryParams") None None None
                           (Some (negb (useStrictTypes options))) None
                           (Some "Query parameters") None)
                        builder)
                 else builder in
               let builder :=
                 RequestCommon.constructorMethod "GET" basePath (ed_path endpoint)
                   builder in
               let builder := CodeBuilder.appendEmptyLine builder in
               if hasParameters endpoint
               then generateSetupUrlMethod builder endpoint
               else builder))
      builder in
  let builder := CodeBuilder.appendEmptyLine builder in
  CodeBuilder.appendLine
    ("export default " +:+ className +:+ "WebServiceRequest;") builder.

Definition buildOutput (endpoint : EndpointDefinition) (basePath : string)
  : option GeneratedOutput :=
  let mpn := getModelPathAndNameWith (ed_path endpoint) "/" in
  let epPath := modelPath mpn in
  let className := modelName mpn in
  let builder := CodeBuilder.create indentSize in
  let isPdf := BaseGenerator.isPdfResponse (head (ed_responseType endpoint)) in
  let builder := BaseGenerator.addFileHeader builder in
  let imports := generateImports endpoint isPdf in
  let builder := BaseGenerator.addImportStatements builder imports className in
  let builder :=
    if hasParameters endpoint
    then generateQueryParamsInterface builder endpoint className
    else builder in
  let builder := generateRequestClass builder endpoint className basePath isPdf in
  Some (mkOutput (fst (CodeBuilder.build builder))
          (RequestCommon.requestFilePath basePath epPath className)
          (className +:+ "WebServiceRequest")).

Definition generate (paths : list string) : Outcome (list GeneratedOutput) :=
  flatMapM
    (fun pathPattern =>
       endpoints ←! resolveEntities pathPattern;
       Done (omap (fun endpoint =>
                     buildOutput endpoint (BaseGenerator.getApiBasePath apiSpec))
               endpoints))
    paths.

End Instance.

End GETRequestGenerator.

(** ** class POSTRequestGenerator (src/builder/generators/POSTRequestGenerator.ts) *)

Module POSTRequestGenerator.

Section Instance.

Variable apiSpec : OpenAPIDocument.
Variable options : ConfigOptions.
Variable indentSize : nat.

Definition extractResponseTypes := RequestCommon.extractResponseTypes apiSpec.

(** The first schema with a [$ref] among the given ones *)
Fixpoint firstRef (schemas : list (option SchemaObject)) : option string :=
  match schemas with
  | [] => None
  | schema :: rest =>
      if JsString.truthy (schema ≫= s_ref)
      then Some (afterLastSlash (default "" (schema ≫= s_ref)))
      else firstRef rest
  end.

Definition extractRequestBodyType (operation : OperationObject) : option string :=
  let fromBody :=
    match op_requestBody operation with
    | Some requestBody =>
        if BaseGenerator.isOpenApi3 apiSpec
        then firstRef (map (fun kv => media_schema (snd kv)) (rb_content requestBody))
        else None
    | None => None
    end in
  match fromBody with
  | Some name => Some name
  | None =>
      if negb (BaseGenerator.isOpenApi3 apiSpec)
      then firstRef
             (map par_schema
                (List.filter (fun param => String.eqb (par_in param) "body")
                   (default [] (op_parameters operation))))
      else None
  end.

Definition resolveEntities (pathPattern : string) : Outcome (list EndpointDefinition) :=
  flatMapM
    (fun entry =>
       let path := fst entry in
       let item := snd entry in
       match pi_post item with
       | None => Done []
       | Some operation =>
           selected ←! regexFilter path pathPattern;
           if selected
           then Done [mkEndpoint path "post" []
                        (extractResponseTypes operation)
                        (op_operationId operation) (op_summary operation)
                        (op_description operation)
                        (extractRequestBodyType operation)]
           else Done []
       end)
    (paths apiSpec).

Definition generateImportsWithPayload (endpoint : EndpointDefinition) (isPdf : bool)
  : list ImportStatement :=
  let imports := [RequestCommon.baseImport isPdf] in
  let imports :=
    if JsString.truthy (ed_requestBody endpoint)
    then imports ++ [DTOGenerator.dtoImport (default "" (ed_requestBody endpoint))]
    else imports in
  let respType := head (ed_responseType endpoint) in
  if RequestCommon.isModelType respType then
    let resName := modelName (getModelPathAndName (default "" respType)) in
    if negb (JsString.truthy (ed_requestBody endpoint))
       || negb (String.eqb
                  (modelName (getModelPathAndName
                                (default "" (ed_requestBody endpoint))))
                  resName)
    then imports ++ [DTOGenerator.dtoImport (default "" respType)]
    else imports
  else imports.

Definition setupBodyLine (propName : string) : string :=
  "this.setIfNotEmpty(body, '" +:+ propName +:+ "', this.data." +:+ propName +:+ ");".

(** [Object.keys(schema.properties)] when the body type has a dictionary
    entry with properties, nothing otherwise *)
Definition bodyPropertyNames (requestBodyType : string) : list string :=
  match BaseGenerator.getDefinitions apiSpec !! requestBodyType with
  | Some schema =>
      match s_properties schema with
      | Some props => map fst props
      | None => []
      end
  | None => []
  end.

Definition setupBodyOptions : CodeBuilder.MethodOptions :=
  CodeBuilder.mkMethodOptions "setupBody"
    (Some [CodeBuilder.mkParam "body" "Record<string, any>" None None])
    (Some "void") None None None None None (Some "Sets up request body") None None.

Definition generateSetupBodyMethod (builder : CodeBuilder.t)
  (requestBodyType : string) : CodeBuilder.t :=
  CodeBuilder.createMethod setupBodyOptions
    (Some (fun builder =>
             fold_left
               (fun builder propName =>
                  CodeBuilder.appendLine (setupBodyLine propName) builder)
               (bodyPropertyNames requestBodyType) builder))
    builder.

Definition generateWithPayloadClass (builder : CodeBuilder.t)
  (endpoint : EndpointDefinition) (className basePath : string) (isPdf : bool)
  : CodeBuilder.t :=
  let respType := head (ed_responseType endpoint) in
  let requestBody := default "" (ed_requestBody endpoint) in
  let reqName := modelName (getModelPathAndName requestBody) in
  let baseClass := RequestCommon.baseClass isPdf respType in
  let builder :=
    CodeBuilder.createClass
      (CodeBuilder.mkClassOptions (className +:+ "WebServiceRequest") (Some true)
         (Some baseClass) None None None
         (Some ("Request class for " +:+ ed_path endpoint)) None)
      (Some (fun builder =>
               let builder :=
                 CodeBuilder.createProperty
                   (CodeBuilder.mkPropertyOptions "data" reqName None None None
                      (Some (negb (useStrictTypes options))) None
                      (Some "Request data") None)
                   builder in
               let builder := CodeBuilder.appendEmptyLine builder in
               let builder :=
                 RequestCommon.constructorMethod "POST" basePath (ed_path endpoint)
                   builder in
               let builder := CodeBuilder.appendEmptyLine builder in
               generateSetupBodyMethod builder requestBody))
      builder in
  let builder := CodeBuilder.appendEmptyLine builder in
  CodeBuilder.appendLine
    ("export default " +:+ className +:+ "WebServiceRequest;") builder.

Definition buildEndpointWithPayload (endpoint : EndpointDefinition)
  (basePath : string) : GeneratedOutput :=
  let mpn := getModelPathAndNameWith (ed_path endpoint) "/" in
  let epPath := modelPath mpn in
  let className := modelName mpn in
  let builder := CodeBuilder.create indentSize in
  let isPdf := BaseGenerator.isPdfResponse (head (ed_responseType endpoint)) in
  let builder := BaseGenerator.addFileHeader builder in
  let imports := generateImportsWithPayload endpoint isPdf in
  let builder := BaseGenerator.addImportStatements builder imports className in
  let builder := generateWithPayloadClass builder endpoint className basePath isPdf in
  mkOutput (fst (CodeBuilder.build builder))
    (RequestCommon.requestFilePath basePath epPath className)
    (className +:+ "WebServiceRequest").

Definition buildSimpleEndpoint (endpoint : EndpointDefinition)
  (basePath : string) : GeneratedOutput :=
  let mpn := getModelPathAndNameWith (ed_path endpoint) "/" in
  let epPath := modelPath mpn in
  let className := modelName mpn in
  let builder := CodeBuilder.create indentSize in
  let isPdf := BaseGenerator.isPdfResponse (head (ed_responseType endpoint)) in
  let builder := BaseGenerator.addFileHeader builder in
  let baseImport := RequestCommon.baseImportName isPdf in
  let builder :=
    CodeBuilder.createImports
      [CodeBuilder.mkImportSpec baseImport
         ("data-access/data-service/" +:+ baseImport) (Some true) None]
      builder in
  let baseClass :=
    if isPdf then baseImport
    else baseImport +:+ "<"
           +:+ BaseGenerator.orElse (head (ed_responseType endpoint)) "any" +:+ ">" in
  let builder :=
    CodeBuilder.createClass
      (CodeBuilder.mkClassOptions (className +:+ "WebServiceRequest") (Some true)
         (Some baseClass) None None None
         (Some ("Request class for " +:+ ed_path endpoint)) None)
      (Some (fun builder =>
               let builder :=
                 RequestCommon.constructorMethod "POST" basePath (ed_path endpoint)
                   builder in
               let builder := CodeBuilder.appendEmptyLine builder in
               CodeBuilder.createMethod setupBodyOptions (Some (fun builder => builder))
                 builder))
      builder in
  let builder := CodeBuilder.appendEmptyLine builder in
  let builder :=
    CodeBuilder.appendLine
      ("export default " +:+ className +:+ "WebServiceRequest;") builder in
  mkOutput (fst (CodeBuilder.build builder))
    (RequestCommon.requestFilePath basePath epPath className)
    (className +:+ "WebServiceRequest").

Definition buildOutput (endpoint : EndpointDefinition) (basePath : string)
  : option GeneratedOutput :=
  if JsString.truthy (ed_requestBody endpoint)
  then Some (buildEndpointWithPayload endpoint basePath)
  else Some (buildSimpleEndpoint endpoint basePath).

Definition generate (paths : list string) : Outcome (list GeneratedOutput) :=
  flatMapM
    (fun pathPattern =>
       endpoints ←! resolveEntities pathPattern;
       Done (omap (fun endpoint =>
                     buildOutput endpoint (BaseGenerator.getApiBasePath apiSpec))
               endpoints))
    paths.

End Instance.

End POSTRequestGenerator.

(** ** src/OpenAPICodeGenerator.ts: the outputs of one path pattern

    [generateForPathPattern] up to the point where the records are handed to
    the file writer; the constructor has stored
    [Math.max(1, options.indentation)] as the builders' indentation. *)

Module OpenAPICodeGenerator.

Section Instance.

Variable options : ConfigOptions.

Definition indentSize : nat := CodeBuilder.defaultIndentSize (indentation options).

Definition generateForPathPattern (apiSpec : OpenAPIDocument) (pathPattern : string)
  : Outcome (list GeneratedOutput) :=
  let isOpenAPI3 := JsString.truthy (openapi apiSpec) in
  let definitions :=
    if isOpenAPI3
    then default ∅ (components apiSpec ≫= schemas)
    else default ∅ (definitions apiSpec) in
  modelPaths ←! APISpecParser.discoverModelPaths apiSpec (Some pathPattern);
  dto ←! DTOGenerator.generate definitions options indentSize modelPaths;
  let dtoOutputs := fst (fst dto) in
  getOutputs ←! GETRequestGenerator.generate apiSpec options indentSize [pathPattern];
  postOutputs ←! POSTRequestGenerator.generate apiSpec options indentSize [pathPattern];
  Done (dtoOutputs ++ getOutputs ++ postOutputs).

End Instance.

End OpenAPICodeGenerator.

(** ** src/OpenAPICodeGenerator.ts: a run

    [generate], [generateForEndpoint], [cleanOutputDirectory] and
    [writeOutputs] act on the file system and the network.  Both are part of
    a world that is threaded through the run; what [writeToFile],
    [fetchAPISpec] and [deleteAllFiles] do to it is not looked into, only
    whether they return or throw ([fetchAPISpec] returns a document when it
    returns).  What is written to the console is left out, except that the
    counters of [writeOutputs] and the number of endpoints [generate]
    reports as failed are kept. *)

Module GeneratorRun.

Inductive Completion : Type := Returned | Threw.

Section Instance.

Variable World : Type.
Variable writeToFile : string → string → World → World * Completion.
Variable fetchAPISpec : string → World → World * option OpenAPIDocument.
Variable deleteAllFiles : string → list string → World → World * Completion.

(** [constructor(private readonly config: CodegenConfig)] *)
Variable config : CodegenConfig.

Record Written : Type := mkWritten {
  world : World;
  successCount : nat;
  errorCount : nat
}.

(** One turn of the loop of [writeOutputs]: the [try] and its [catch] *)
Definition writeOutput (acc : Written) (output : GeneratedOutput) : Written :=
  match writeToFile (out_path output) (out_content output) (world acc) with
  | (w, Returned) => mkWritten w (S (successCount acc)) (errorCount acc)
  | (w, Threw) => mkWritten w (successCount acc) (S (errorCount acc))
  end.

Definition writeOutputs (outputs : list GeneratedOutput) (w : World) : Written :=
  fold_left writeOutput outputs (mkWritten w 0 0).

(** [generateForPathPattern]: the records are computed and then written;
    an error of the computation is thrown again as a [GenerationError]. *)
Definition generateForPathPattern (apiSpec : OpenAPIDocument) (pathPattern : string)
  (w : World) : Outcome (World * Completion) :=
  match OpenAPICodeGenerator.generateForPathPattern (cfg_options config) apiSpec
          pathPattern with
  | Done outputs => Done (world (writeOutputs outputs w), Returned)
  | SyntaxError => Done (w, Threw)
  | OutsideFragment => OutsideFragment
  | OutOfFuel => OutOfFuel
  end.

(** The loop over [endpoint.paths] in [generateForEndpoint]: what a pattern
    throws ends the loop. *)
Fixpoint generateForPatterns (apiSpec : OpenAPIDocument) (patterns : list string)
  (w : World) : Outcome (World * Completion) :=
  match patterns with
  | [] => Done (w, Returned)
  | pathPattern :: rest =>
      r ←! generateForPathPattern apiSpec pathPattern w;
      match snd r with
      | Returned => generateForPatterns apiSpec rest (fst r)
      | Threw => Done (fst r, Threw)
      end
  end.

Definition generateForEndpoint (endpoint : EndpointConfig) (w : World)
  : Outcome (World * Completion) :=
  match fetchAPISpec (ec_url endpoint) w with
  | (w, Some apiSpec) => generateForPatterns apiSpec (ec_paths endpoint) w
  | (w, None) => Done (w, Threw)
  end.

(** The loop of [generate]: what an endpoint throws is caught and reported,
    and the loop goes on.  The number counts the reports. *)
Fixpoint generateForEndpoints (endpoints : list EndpointConfig) (w : World)
  : Outcome (World * nat) :=
  match endpoints with
  | [] => Done (w, 0)
  | endpoint :: rest =>
      r ←! generateForEndpoint endpoint w;
      more ←! generateForEndpoints rest (fst r);
      Done (fst more,
            match snd r with Threw => S (snd more) | Returned => snd more end)
  end.

Definition cleanOutputDirectory (w : World) : World * Completion :=
  deleteAllFiles (API_OUTPUT_PATH +:+ "/") (filesToKeep (cfg_options config)) w.

(** [generate]: the cleaning is outside the [try] of the loop, so what it
    throws ends the run. *)
Definition generate (w : World) : Outcome (World * Completion * nat) :=
  let cleaned :=
    if cleanOutputDir (cfg_options config) then cleanOutputDirectory w
    else (w, Returned) in
  match snd cleaned with
  | Threw => Done (fst cleaned, Threw, 0)
  | Returned =>
      r ←! generateForEndpoints (cfg_endpoints config) (fst cleaned);
      Done (fst r, Returned, snd r)
  end.

End Instance.

End GeneratorRun.

(** ** Notions used to state the properties *)

(** A line (or any piece of text) occurs in a generated file. *)
Definition occursIn (piece text : string) : bool := JsString.includes text piece.

(** The pattern, compiled as it is written, matches the text from its first
    character to its last: what "the whole path string matches the pattern"
    means. *)
Definition wholeStringMatch (text pattern : string) : Outcome bool :=
  regex ←! RegExp.compile pattern;
  Done (RegExp.matchesWhole regex text).

(** The names a schema refers to before any reference is followed: the
    [$ref] of the schema itself, or those of its item, members, map values
    and properties. *)
Fixpoint directRefs (schema : SchemaObject) : list string :=
  if JsString.truthy (s_ref schema) then [afterLastSlash (default "" (s_ref schema))]
  else
    let composite :=
      match s_allOf schema with Some l => flat_map directRefs l | None => [] end
      ++ match s_oneOf schema with Some l => flat_map directRefs l | None => [] end
      ++ match s_anyOf schema with Some l => flat_map directRefs l | None => [] end
      ++ match s_additionalProperties schema with
         | Some (inl additional) => directRefs additional
         | _ => []
         end
      ++ match s_properties schema with
         | Some props => flat_map (fun kv => directRefs (snd kv)) props
         | None => []
         end in
    match s_items schema with
    | Some items => if isArrayType schema then directRefs items else composite
    | None => composite
    end.

(** The schemas an endpoint carries: parameters, request body, responses. *)
Section EndpointSchemas.

Variable apiSpec : OpenAPIDocument.

Definition contentSchemas (content : list (string * MediaTypeObject))
  : list SchemaObject :=
  omap (fun kv => media_schema (snd kv)) content.

Definition responseSchemas (response : ResponseObject) : list SchemaObject :=
  match resp_content response with
  | Some content =>
      if APISpecParser.isOpenApi3 apiSpec then contentSchemas content
      else option_list (resp_schema response)
  | None => option_list (resp_schema response)
  end.

Definition operationSchemas (pathItem : PathItemObject) (operation : OperationObject)
  : list SchemaObject :=
  omap par_schema
    (default [] (pi_parameters pathItem) ++ default [] (op_parameters operation))
  ++ match op_requestBody operation with
     | Some requestBody =>
         if APISpecParser.isOpenApi3 apiSpec
         then contentSchemas (rb_content requestBody)
         else []
     | None => []
     end
  ++ flat_map (fun kv => responseSchemas (snd kv)) (op_responses operation).

Definition pathItemSchemas (pathItem : PathItemObject) : list SchemaObject :=
  flat_map (operationSchemas pathItem) (APISpecParser.definedOperations pathItem).

Definition endpointSchemas (selected : list (string * PathItemObject))
  : list SchemaObject :=
  flat_map (fun kv => pathItemSchemas (snd kv)) selected.

End EndpointSchemas.

(** A model name is referenced from the names in [start], directly or
    through the dictionary entries of referenced names. *)
Inductive ReferencedFrom (dictionary : gmap string SchemaObject)
  (start : string → Prop) : string → Prop :=
| referenced_start name :
    start name → ReferencedFrom dictionary start name
| referenced_step parent definition name :
    ReferencedFrom dictionary start parent →
    dictionary !! parent = Some definition →
    name ∈ directRefs definition →
    ReferencedFrom dictionary start name.

(** The names the given schemas refer to directly *)
Definition rootRefs (roots : list SchemaObject) (name : string) : Prop :=
  ∃ root, root ∈ roots ∧ name ∈ directRefs root.

Definition Referenced (dictionary : gmap string SchemaObject)
  (roots : list SchemaObject) : string → Prop :=
  ReferencedFrom dictionary (rootRefs roots).

(** The bookkeeping of the walker, for a given schema dictionary *)
Section WalkerNotions.

Variable dictionary : gmap string SchemaObject.

(** Dictionary entries that were not expanded yet: what bounds the nesting
    of the expansions still to come *)
Definition unexpanded (st : APISpecParser.State) : nat :=
  size (dom dictionary ∖ APISpecParser.processedRefs st).

(** Between two visits, the recorded names are the expanded names. *)
Definition consistent (st : APISpecParser.State) : Prop :=
  NoDup (APISpecParser.modelRefs st) ∧
  ∀ n, n ∈ APISpecParser.modelRefs st ↔ n ∈ APISpecParser.processedRefs st.

(** What a visit that starts from the names [start] achieves *)
Definition visited (start : string → Prop) (st st' : APISpecParser.State) : Prop :=
  consistent st' ∧
  APISpecParser.processedRefs st ⊆ APISpecParser.processedRefs st' ∧
  (∀ n, start n → n ∈ APISpecParser.processedRefs st') ∧
  (∀ n d m,
      n ∈ APISpecParser.processedRefs st' → n ∉ APISpecParser.processedRefs st →
      dictionary !! n = Some d → m ∈ directRefs d →
      m ∈ APISpecParser.processedRefs st') ∧
  (∀ n,
      n ∈ APISpecParser.processedRefs st' → n ∉ APISpecParser.processedRefs st →
      ReferencedFrom dictionary start n).

(** A step of the traversal returns, with [bound] levels of expansion, and
    visits the names [start]. *)
Definition Visits (bound : nat) (step : APISpecParser.State → Outcome APISpecParser.State)
  (start : string → Prop) : Prop :=
  ∀ st, unexpanded st < bound → consistent st →
    ∃ st', step st = Done st' ∧ visited start st st'.

End WalkerNotions.

(** A response that carries no schema at all: none of its own, none under
    any media type. *)
Definition carriesNoSchema (response : ResponseObject) : Prop :=
  resp_schema response = None ∧
  ∀ content, resp_content response = Some content →
    Forall (fun kv => media_schema (snd kv) = None) content.

(** The bookkeeping of the model emitter, for a given schema dictionary *)
Section EmitterNotions.

Variable definitions : gmap string SchemaObject.

(** Dictionary entries not emitted yet: what bounds the nesting of the
    emissions still to come *)
Definition unemitted (st : DTOGenerator.State) : nat :=
  size (dom definitions ∖ DTOGenerator.processedRefs st).

(** How the fields can differ after a call: names were added to the
    emitted ones, all of them dictionary entries or names in progress, and
    the names in progress are the same. *)
Definition emittedWithin (st st' : DTOGenerator.State) : Prop :=
  DTOGenerator.processedRefs st ⊆ DTOGenerator.processedRefs st'
  ∧ DTOGenerator.processingStack st' = DTOGenerator.processingStack st
  ∧ DTOGenerator.processedRefs st'
    ⊆ DTOGenerator.processedRefs st ∪ dom definitions
      ∪ DTOGenerator.processingStack st.

End EmitterNotions.


(** What the model emitter makes of one entry of [properties] *)
Definition propertyOf (definition : SchemaObject) (entry : string * SchemaObject)
  : ModelProperty :=
  mkModelProperty (sanitizePropertyName (fst entry))
    (DTOGenerator.resolvePropertyType (snd entry))
    (negb (DTOGenerator.isRequired definition (fst entry))
     || default false (s_nullable (snd entry)))
    (s_description (snd entry)).

(** The imports one entry of [properties] asks for *)
Definition importsOf (entry : string * SchemaObject) : list ImportStatement :=
  if JsString.truthy (s_ref (snd entry))
  then [DTOGenerator.dtoImport (afterLastSlash (default "" (s_ref (snd entry))))]
  else if JsString.truthy (DTOGenerator.itemsRef (snd entry))
  then [DTOGenerator.dtoImport
          (afterLastSlash (default "" (DTOGenerator.itemsRef (snd entry))))]
  else [].

(** The declaration of a member of a model: [name: type;] or [name?: type;] *)
Definition memberLine (name : string) (optional : bool) (type : string) : string :=
  name +:+ (if optional then "?" else "") +:+ ": " +:+ type +:+ ";".

(** The text has an import statement that brings in the model [target] from
    the file of that model. *)
Definition importsModel (text target : string) : Prop :=
  ∃ items,
    occursIn
      (CodeBuilder.importStatement (imp_path (DTOGenerator.dtoImport target)) items)
      text = true
    ∧ modelName (getModelPathAndName target) ∈ map CodeBuilder.ii_name items.

(** The text of [b] is the text of [b0] with more text after it. *)
Definition extends (b0 b : CodeBuilder.t) : Prop :=
  ∃ more, CodeBuilder.content b = CodeBuilder.content b0 +:+ more.

(** Between [b0] and [b] the piece of text was written. *)
Definition wrote (piece : string) (b0 b : CodeBuilder.t) : Prop :=
  ∃ pre post,
    CodeBuilder.content b = CodeBuilder.content b0 +:+ (pre +:+ (piece +:+ post)).

(** ** Further notions: characters, builders, batches, wrappers *)

(** Replacing one character by another *)
Definition replaceChar (c d x : ascii) : ascii := if Ascii.eqb x c then d else x.


(** The indentation of [b] is that of [b0]: the level and the unit. *)
Definition sameIndentation (b0 b : CodeBuilder.t) : Prop :=
  CodeBuilder.indentLevel b = CodeBuilder.indentLevel b0
  ∧ CodeBuilder.indentString b = CodeBuilder.indentString b0.

(** A step of a builder leaves the indentation as it found it. *)
Definition keepsIndentation (step : CodeBuilder.t → CodeBuilder.t) : Prop :=
  ∀ b, sameIndentation b (step b).

(** A step of a builder keeps the text written so far and writes after it. *)
Definition onlyAppends (step : CodeBuilder.t → CodeBuilder.t) : Prop :=
  ∀ b, extends b (step b).

(** The same of a body callback, when there is one *)
Definition bodyKeepsIndentation (bodyContent : option CodeBuilder.Body) : Prop :=
  ∀ body, bodyContent = Some body → keepsIndentation body.

Definition bodyOnlyAppends (bodyContent : option CodeBuilder.Body) : Prop :=
  ∀ body, bodyContent = Some body → onlyAppends body.

(** One line of text at the given indentation level *)
Definition lineAt (b : CodeBuilder.t) (level : nat) (line : string) : string :=
  JsString.repeat (CodeBuilder.indentString b) level +:+ line +:+ String "010" "".

(** What identifies an import: the module path and the imported name *)
Definition importKey (imp : ImportStatement) : string * string :=
  (imp_path imp, imp_name imp).





(** The paths of a document that define the operation [method] and that the
    compiled pattern accepts *)
Definition selectedWith (apiSpec : OpenAPIDocument)
  (method : PathItemObject → option OperationObject) (regex : RegExp.Regex)
  : list (string * PathItemObject) :=
  List.filter
    (fun entry => bool_decide (is_Some (method (snd entry)))
                  && RegExp.test regex (fst entry))
    (paths apiSpec).

(** The name of the file and of the class of the wrapper of a path *)
Definition wrapperName (path : string) : string :=
  modelName (getModelPathAndNameWith path "/") +:+ "WebServiceRequest".



(** The notice every generated file starts with: the block of
    [createFileHeader] at level 0 and the empty line after it *)
Definition fileHeader : string :=
  String.concat (String "010" "")
    ["/**";
     " * This code was generated using a code generation tool.";
     " * ";
     " * Manual changes to this file may cause unexpected behavior.";
     " * Manual changes will be overwritten if the code is regenerated.";
     " */";
     "";
     ""].

(** The models an [allOf] refers to, in its order: the names after the last
    slash of the references, and their leaf names *)
Definition parentRefs (definition : SchemaObject) : list string :=
  omap (fun item =>
          if JsString.truthy (s_ref item)
          then Some (afterLastSlash (default "" (s_ref item)))
          else None)
    (default [] (s_allOf definition)).

Definition parentNames (definition : SchemaObject) : list string :=
  map (fun refPath => modelName (getModelPathAndName refPath)) (parentRefs definition).

(** ** Sample documents *)

Definition getOperation (responses : list (string * ResponseObject)) : OperationObject :=
  mkOperation None None None None None responses.

Definition getPath (operation : OperationObject) : PathItemObject :=
  mkPathItem (Some operation) None None None None.

Definition legacyDocument (paths : list (string * PathItemObject))
  (definitions : gmap string SchemaObject) : OpenAPIDocument :=
  mkDocument (Some "2.0") None paths None None (Some definitions) None.

(** [A → { prop: $ref B }], [B → { prop: $ref A }], and an endpoint that
    returns [A] *)
Definition cyclicDefinitions : gmap string SchemaObject :=
  {[ "A" := objectSchema [("prop", refSchema "#/definitions/B")];
     "B" := objectSchema [("prop", refSchema "#/definitions/A")] ]}.

Definition cyclicDocument : OpenAPIDocument :=
  legacyDocument
    [("/pets",
      getPath (getOperation
                 [("200", mkResponse "ok" None (Some (refSchema "#/definitions/A")))]))]
    cyclicDefinitions.

(** A model whose property points at a name the dictionary does not have *)
Definition danglingDocument : OpenAPIDocument :=
  legacyDocument
    [("/pets",
      getPath (getOperation
                 [("200", mkResponse "ok" None (Some (refSchema "#/definitions/A")))]))]
    {[ "A" := objectSchema [("owner", refSchema "#/definitions/Missing")] ]}.

(** A text given by its lines, each ended by a line feed *)
Definition textOf (lines : list string) : string :=
  fold_right (λ line rest, line +:+ String "010" rest) "" lines.

(** [Child] is [Base] and an inline member that adds [x] *)
Definition childSchema (ref : string) : SchemaObject :=
  allOfSchema [refSchema ref; objectSchema [("x", typedSchema "string")]].

Definition inheritanceDefinitions : gmap string SchemaObject :=
  {[ "Base" := objectSchema [("id", typedSchema "integer")];
     "Child" := childSchema "#/definitions/Base" ]}.

(** The file the emitter writes for that [Child] *)
Definition childAlias : GeneratedOutput :=
  mkOutput
    (textOf
       ["/**";
        " * This code was generated using a code generation tool.";
        " * ";
        " * Manual changes to this file may cause unexpected behavior.";
        " * Manual changes will be overwritten if the code is regenerated.";
        " */";
        "";
        "import { Base } from 'data-access/web-service/dto//Base';";
        "";
        "/**";
        " * Type representing a Child model";
        " */";
        "export type Child = Base;";
        ""])
    "data-access/web-service/dto/Child.ts"
    "Child".

(** Two endpoints, one returning [Child] and one returning [Base], listed in
    either order *)
Definition returning (ref : string) : PathItemObject :=
  getPath (getOperation [("200", mkResponse "ok" None (Some (refSchema ref)))]).

Definition baseFirstDocument : OpenAPIDocument :=
  legacyDocument
    [("/shop/Base", returning "#/definitions/Base");
     ("/shop/Child", returning "#/definitions/Child")]
    inheritanceDefinitions.

Definition childFirstDocument : OpenAPIDocument :=
  legacyDocument
    [("/shop/Child", returning "#/definitions/Child");
     ("/shop/Base", returning "#/definitions/Base")]
    inheritanceDefinitions.

(** The file names of the records a generation produced *)
Definition fileNamesOf (result : Outcome (list GeneratedOutput)) : Outcome (list string) :=
  outputs ←! result;
  Done (map out_filename outputs).

Definition recordsOf (result : Outcome (list GeneratedOutput * DTOGenerator.State * list string))
  : Outcome (list GeneratedOutput) :=
  r ←! result;
  Done (fst (fst r)).

(** The scenario of the specification: one legacy-dialect path
    [/auth/Login] (POST), request body [LoginRequest], response
    [LoginResponse] *)
Definition loginDocument : OpenAPIDocument :=
  legacyDocument
    [("/auth/Login",
      mkPathItem None
        (Some (mkOperation None None None
                 (Some [mkParameter "body" "body" None (Some true)
                          (Some (refSchema "#/definitions/LoginRequest")) None None])
                 None
                 [("200",
                   mkResponse "ok" None (Some (refSchema "#/definitions/LoginResponse")))]))
        None None None)]
    {[ "LoginRequest" :=
         mkSchema (Some "object") None None (Some ["username"; "password"])
           (Some [("username", typedSchema "string");
                  ("password", typedSchema "string")])
           None None None None None None None;
       "LoginResponse" := objectSchema [("token", typedSchema "string")] ]}.

(** The optionality rule speaks of these two conditions. *)
Definition listedAsRequired (definition : SchemaObject) (propName : string) : Prop :=
  ∃ required, s_required definition = Some required ∧ propName ∈ required.

Definition markedNullable (schema : SchemaObject) : Prop :=
  s_nullable schema = Some true.

(** A model with a required, a required and nullable, and a free property *)
Definition accountSchema : SchemaObject :=
  mkSchema (Some "object") None None (Some ["id"; "nickname"])
    (Some [("id", typedSchema "integer");
           ("nickname",
            mkSchema (Some "string") None (Some true) None None None None None
              None None None None);
           ("note", typedSchema "string")])
    None None None None None None None.

(** The line that opens a class declaration *)
Definition classOpening (name baseClass : string) : string :=
  "export class " +:+ name +:+ " extends " +:+ baseClass +:+ " {".

(** A read-style endpoint whose only response has no schema *)
Definition pingOperation : OperationObject :=
  getOperation [("204", mkResponse "No Content" None None)].

Definition pingDocument : OpenAPIDocument :=
  legacyDocument [("/auth/Ping", getPath pingOperation)] ∅.

(** A current-dialect operation whose first response has an empty content
    map and whose second response has a schema *)
Definition emptyContentOperation : OperationObject :=
  getOperation
    [("200", mkResponse "ok" (Some []) None);
     ("default",
      mkResponse "error"
        (Some [("application/json",
                mkMedia (Some (refSchema "#/components/schemas/Problem")))])
        None)].

Definition emptyContentDocument : OpenAPIDocument :=
  mkDocument None (Some "3.0.0") [("/auth/Ping", getPath emptyContentOperation)]
    None None None None.

(** A write-style endpoint whose payload has a property with a dot in its
    name *)
Definition dottedSchema : SchemaObject :=
  objectSchema [("user.name", typedSchema "string")].

Definition dottedDocument : OpenAPIDocument :=
  legacyDocument
    [("/users/Create",
      mkPathItem None
        (Some (mkOperation None None None
                 (Some [mkParameter "payload" "body" None (Some true)
                          (Some (refSchema "#/definitions/NewUser")) None None])
                 None
                 [("200", mkResponse "ok" None None)]))
        None None None)]
    {[ "NewUser" := dottedSchema ]}.

(** Paths for the filter *)
Definition usersDocument : OpenAPIDocument :=
  legacyDocument
    [("/users/123", getPath pingOperation);
     ("/admin/users/123", getPath pingOperation);
     ("/admin", getPath pingOperation)]
    ∅.

(** * Properties *)

(** ** Strings *)

Lemma append_cons (x : ascii) (a b : string) :
  String x a +:+ b = String x (a +:+ b).
Proof. reflexivity. Qed.

Lemma append_nil (b : string) : "" +:+ b = b.
Proof. reflexivity. Qed.

Lemma append_assoc (a b c : string) : (a +:+ b) +:+ c = a +:+ (b +:+ c).
Proof.
  induction a as [|x a IH]; [reflexivity |].
  by rewrite !append_cons, IH.
Qed.

Lemma append_empty_r (a : string) : a +:+ "" = a.
Proof.
  induction a as [|x a IH]; [reflexivity |].
  by rewrite append_cons, IH.
Qed.

Lemma prefix_append (a b : string) : String.prefix a (a +:+ b) = true.
Proof.
  induction a as [|x a IH]; [by destruct b |].
  rewrite append_cons. simpl.
  destruct (ascii_dec x x); [exact IH | congruence].
Qed.

Lemma firstIndexFrom_unfold (piece s : string) (i : nat) :
  JsString.firstIndexFrom piece s i =
  if String.prefix piece s then Some i
  else match s with
       | EmptyString => None
       | String _ s' => JsString.firstIndexFrom piece s' (S i)
       end.
Proof. destruct s; reflexivity. Qed.

Lemma firstIndexFrom_append (piece pre post : string) (i : nat) :
  is_Some (JsString.firstIndexFrom piece (pre +:+ (piece +:+ post)) i).
Proof.
  revert i. induction pre as [|x pre IH]; intros i.
  - rewrite append_nil, firstIndexFrom_unfold, prefix_append. eauto.
  - rewrite append_cons, firstIndexFrom_unfold.
    destruct (String.prefix piece (String x (pre +:+ (piece +:+ post)))); eauto.
Qed.

(** A piece of text occurs in whatever is written around it. *)
Lemma occursIn_intro (piece pre post : string) :
  occursIn piece (pre +:+ (piece +:+ post)) = true.
Proof.
  unfold occursIn, JsString.includes.
  by destruct (firstIndexFrom_append piece pre post 0) as [j ->].
Qed.

(** ** The reference walker *)

Lemma ReferencedFrom_mono (dictionary : gmap string SchemaObject)
  (start start' : string → Prop) (name : string) :
  (∀ n, start n → start' n) →
  ReferencedFrom dictionary start name → ReferencedFrom dictionary start' name.
Proof.
  intros Hsub Href. induction Href as [n Hn | parent d n _ IH Hd Hn].
  - apply referenced_start. auto.
  - eapply referenced_step; eauto.
Qed.

Lemma ReferencedFrom_entry (dictionary : gmap string SchemaObject)
  (parent : string) (d : SchemaObject) (name : string) :
  dictionary !! parent = Some d →
  ReferencedFrom dictionary (λ n, n ∈ directRefs d) name →
  ReferencedFrom dictionary (eq parent) name.
Proof.
  intros Hd Href. induction Href as [n Hn | p d' n _ IH Hd' Hn].
  - eapply referenced_step; [apply referenced_start; reflexivity | exact Hd | exact Hn].
  - eapply referenced_step; eauto.
Qed.

Section WalkerFacts.

Variable apiSpec : OpenAPIDocument.

Abbreviation dictionary := (APISpecParser.schemaDictionary apiSpec).
Abbreviation State := APISpecParser.State.
Abbreviation processedRefs := APISpecParser.processedRefs.
Abbreviation modelRefs := APISpecParser.modelRefs.

Lemma unexpanded_mono (st st' : State) :
  processedRefs st ⊆ processedRefs st' →
  unexpanded dictionary st' ≤ unexpanded dictionary st.
Proof. intros Hsub. apply subseteq_size. set_solver. Qed.

Lemma unexpanded_mark (name : string) (d : SchemaObject) (st : State) :
  dictionary !! name = Some d → name ∉ processedRefs st →
  unexpanded dictionary (APISpecParser.markProcessed name st)
  < unexpanded dictionary st.
Proof.
  intros Hd Hn. apply subset_size.
  assert (name ∈ dom dictionary) by (apply elem_of_dom; eauto).
  unfold APISpecParser.markProcessed; simpl. set_solver.
Qed.

Lemma visited_refl (start : string → Prop) (st : State) :
  consistent st → (∀ n, start n → n ∈ processedRefs st) →
  visited dictionary start st st.
Proof. intros Hc Hs. repeat split; try apply Hc; auto; intros; contradiction. Qed.

Lemma visited_trans (R1 R2 : string → Prop) (st st1 st2 : State) :
  visited dictionary R1 st st1 → visited dictionary R2 st1 st2 →
  visited dictionary (λ n, R1 n ∨ R2 n) st st2.
Proof.
  intros (_ & Hsub1 & Hr1 & Hcl1 & Hs1) (Hc2 & Hsub2 & Hr2 & Hcl2 & Hs2).
  split; [exact Hc2 |]. split; [set_solver |]. split; [| split].
  - intros n [Hn | Hn]; [apply Hsub2, Hr1, Hn | apply Hr2, Hn].
  - intros n d m Hn2 Hn0 Hd Hm.
    destruct (decide (n ∈ processedRefs st1)) as [Hn1 | Hn1].
    + apply Hsub2. eapply Hcl1; eauto.
    + eapply Hcl2; eauto.
  - intros n Hn2 Hn0.
    destruct (decide (n ∈ processedRefs st1)) as [Hn1 | Hn1].
    + eapply ReferencedFrom_mono; [| apply Hs1; auto]. auto.
    + eapply ReferencedFrom_mono; [| apply Hs2; auto]. auto.
Qed.

Lemma visited_equiv (R R' : string → Prop) (st st' : State) :
  (∀ n, R n ↔ R' n) → visited dictionary R st st' → visited dictionary R' st st'.
Proof.
  intros Heq (Hc & Hsub & Hr & Hcl & Hs).
  repeat split; try apply Hc; auto.
  - intros n Hn. apply Hr, Heq, Hn.
  - intros n Hn Hn0. eapply ReferencedFrom_mono; [| apply Hs; auto].
    intros; by apply Heq.
Qed.

Lemma Visits_done (bound : nat) : Visits dictionary bound Done (λ _, False).
Proof.
  intros st _ Hc. exists st. split; [reflexivity |].
  apply visited_refl; [exact Hc | contradiction].
Qed.

Lemma Visits_bind (bound : nat) (c1 c2 : State → Outcome State)
  (R1 R2 : string → Prop) :
  Visits dictionary bound c1 R1 → Visits dictionary bound c2 R2 →
  Visits dictionary bound (λ st, st' ←! c1 st; c2 st') (λ n, R1 n ∨ R2 n).
Proof.
  intros H1 H2 st Hb Hc.
  destruct (H1 st Hb Hc) as (st1 & E1 & V1).
  destruct (H2 st1) as (st2 & E2 & V2).
  - pose proof (unexpanded_mono st st1 (proj1 (proj2 V1))). lia.
  - apply V1.
  - exists st2. rewrite E1; simpl. split; [exact E2 |].
    eapply visited_trans; eauto.
Qed.

Lemma Visits_equiv (bound : nat) (c c' : State → Outcome State)
  (R R' : string → Prop) :
  (∀ st, c st = c' st) → (∀ n, R n ↔ R' n) →
  Visits dictionary bound c R → Visits dictionary bound c' R'.
Proof.
  intros Hc HR H st Hb Hcons.
  destruct (H st Hb Hcons) as (st' & E & V).
  exists st'. rewrite <- Hc. split; [exact E |].
  eapply visited_equiv; eauto.
Qed.

Lemma Visits_forEach {A : Type} (bound : nat) (f : A → State → Outcome State)
  (g : A → string → Prop) (l : list A) :
  Forall (λ x, Visits dictionary bound (f x) (g x)) l →
  Visits dictionary bound (forEach f l) (λ n, ∃ x, x ∈ l ∧ g x n).
Proof.
  induction 1 as [| x l Hx _ IH].
  - eapply Visits_equiv; [| | apply Visits_done]; [reflexivity |].
    intros n; split; [contradiction | intros (x & Hx & _); inversion Hx].
  - eapply Visits_equiv; [| | exact (Visits_bind _ _ _ _ _ Hx IH)].
    + reflexivity.
    + intros n; split.
      * intros [Hn | (y & Hy & Hn)]; [exists x | exists y]; split; auto;
          [left | by right].
      * intros (y & Hy & Hn). apply elem_of_cons in Hy as [-> | Hy];
          [by left | right; eauto].
Qed.

(** *** One schema *)

Lemma addModelReference_known (name : string) (st : State) :
  consistent st → name ∈ processedRefs st →
  APISpecParser.addModelReference name st = st.
Proof.
  intros [_ Hc] Hn. unfold APISpecParser.addModelReference.
  rewrite bool_decide_eq_true_2; [reflexivity | by apply Hc].
Qed.

Lemma addModelReference_new (name : string) (st : State) :
  consistent st → name ∉ processedRefs st →
  APISpecParser.addModelReference name st
  = APISpecParser.mkState (modelRefs st ++ [name]) (processedRefs st).
Proof.
  intros [_ Hc] Hn. unfold APISpecParser.addModelReference.
  rewrite bool_decide_eq_false_2; [reflexivity |].
  intros Hin. by apply Hn, Hc.
Qed.

Lemma consistent_expanded (name : string) (st : State) :
  consistent st → name ∉ processedRefs st →
  consistent (APISpecParser.markProcessed name
                (APISpecParser.mkState (modelRefs st ++ [name]) (processedRefs st))).
Proof.
  intros [Hnd Hc] Hn. split; simpl.
  - apply NoDup_app. split; [exact Hnd |]. split; [| apply NoDup_singleton].
    intros x Hx Hx'. apply list_elem_of_singleton in Hx' as ->. by apply Hn, Hc.
  - intros n. rewrite elem_of_app, list_elem_of_singleton, Hc. set_solver.
Qed.

Section WithExpansion.

Variable expand : string → State → Outcome State.
Variable bound : nat.

Hypothesis expand_visits :
  ∀ name st,
    unexpanded dictionary st < bound → consistent st →
    name ∉ processedRefs st →
    ∃ st', expand name (APISpecParser.addModelReference name st) = Done st'
           ∧ visited dictionary (eq name) st st'.

Lemma processSchemaWith_visits (schema : SchemaObject) :
  Visits dictionary bound
    (APISpecParser.processSchemaWith expand schema)
    (λ n, n ∈ directRefs schema).
Proof.
  induction schema
    as [ty fmt nul req props ap items ref allOf oneOf anyOf desc
          IHprops IHap IHitems IHall IHone IHany]
    using SchemaObject_nested_ind.
  set (schema := mkSchema ty fmt nul req props ap items ref allOf oneOf anyOf desc).
  assert (Hlist : ∀ o : option (list SchemaObject),
             PList (λ s, Visits dictionary bound
                           (APISpecParser.processSchemaWith expand s)
                           (λ n, n ∈ directRefs s)) o →
             Visits dictionary bound
               (λ st, match o with
                      | Some members =>
                          forEach (APISpecParser.processSchemaWith expand) members st
                      | None => Done st
                      end)
               (λ n, n ∈ match o with
                         | Some l => flat_map directRefs l
                         | None => []
                         end)).
  { intros [l |] Hl; simpl in Hl.
    - eapply Visits_equiv; [| | exact (Visits_forEach _ _ _ _ Hl)]; [reflexivity |].
      intros n. rewrite list_elem_of_In, in_flat_map.
      split; intros (x & Hx & Hn); exists x;
        rewrite ?list_elem_of_In in *; auto.
    - eapply Visits_equiv; [| | apply Visits_done]; [reflexivity |].
      intros n; split; [contradiction | inversion 1]. }
  assert (Hcomposite :
    Visits dictionary bound
      (λ st,
         st ←! match allOf with
                | Some members =>
                    forEach (APISpecParser.processSchemaWith expand) members st
                | None => Done st
                end;
         st ←! match oneOf with
                | Some members =>
                    forEach (APISpecParser.processSchemaWith expand) members st
                | None => Done st
                end;
         st ←! match anyOf with
                | Some members =>
                    forEach (APISpecParser.processSchemaWith expand) members st
                | None => Done st
                end;
         st ←! match ap with
                | Some (inl additional) =>
                    APISpecParser.processSchemaWith expand additional st
                | _ => Done st
                end;
         match props with
         | Some props =>
             forEach (λ kv, APISpecParser.processSchemaWith expand (snd kv)) props st
         | None => Done st
         end)
      (λ n, n ∈
         match allOf with Some l => flat_map directRefs l | None => [] end
         ++ match oneOf with Some l => flat_map directRefs l | None => [] end
         ++ match anyOf with Some l => flat_map directRefs l | None => [] end
         ++ match ap with Some (inl additional) => directRefs additional | _ => [] end
         ++ match props with
            | Some props => flat_map (λ kv, directRefs (snd kv)) props
            | None => []
            end)).
  { assert (Hap :
      Visits dictionary bound
        (λ st, match ap with
               | Some (inl additional) =>
                   APISpecParser.processSchemaWith expand additional st
               | _ => Done st
               end)
        (λ n, n ∈ match ap with
                  | Some (inl additional) => directRefs additional
                  | _ => []
                  end)).
    { destruct ap as [[additional | b] |]; simpl in IHap.
      - exact IHap.
      - eapply Visits_equiv; [| | apply Visits_done]; [reflexivity |].
        intros n; split; [contradiction | inversion 1].
      - eapply Visits_equiv; [| | apply Visits_done]; [reflexivity |].
        intros n; split; [contradiction | inversion 1]. }
    assert (Hprops :
      Visits dictionary bound
        (λ st, match props with
               | Some props =>
                   forEach (λ kv, APISpecParser.processSchemaWith expand (snd kv))
                     props st
               | None => Done st
               end)
        (λ n, n ∈ match props with
                  | Some props => flat_map (λ kv, directRefs (snd kv)) props
                  | None => []
                  end)).
    { destruct props as [l |]; simpl in IHprops.
      - eapply Visits_equiv;
          [| | exact (Visits_forEach _ _ (λ kv n, n ∈ directRefs (snd kv)) _ IHprops)];
          [reflexivity |].
        intros n. rewrite list_elem_of_In, in_flat_map.
        split; intros (x & Hx & Hn); exists x;
          rewrite ?list_elem_of_In in *; auto.
      - eapply Visits_equiv; [| | apply Visits_done]; [reflexivity |].
        intros n; split; [contradiction | inversion 1]. }
    eapply Visits_equiv;
      [| | exact (Visits_bind _ _ _ _ _ (Hlist allOf IHall)
                    (Visits_bind _ _ _ _ _ (Hlist oneOf IHone)
                       (Visits_bind _ _ _ _ _ (Hlist anyOf IHany)
                          (Visits_bind _ _ _ _ _ Hap Hprops))))].
    - reflexivity.
    - intros n. rewrite !elem_of_app. reflexivity. }
  intros st Hb Hc. simpl.
  destruct (JsString.truthy ref) eqn:Href.
  - set (name := APISpecParser.extractRefName (default "" ref)).
    destruct (decide (name ∈ processedRefs st)) as [Hin | Hout].
    + rewrite (addModelReference_known name st Hc Hin).
      rewrite bool_decide_eq_true_2 by exact Hin.
      exists st. split; [reflexivity |].
      apply visited_refl; [exact Hc |].
      intros n Hn. apply list_elem_of_singleton in Hn. by subst n.
    + destruct (expand_visits name st Hb Hc Hout) as (st' & E & V).
      rewrite bool_decide_eq_false_2;
        [| by rewrite (addModelReference_new name st Hc Hout)].
      exists st'. split; [exact E |].
      eapply visited_equiv; [| exact V].
      intros n. rewrite list_elem_of_singleton.
      unfold name, APISpecParser.extractRefName. split; congruence.
  - destruct items as [i |]; [destruct (isArrayType schema) eqn:Harr |].
    + simpl in IHitems. unfold schema in Harr. rewrite Harr.
      exact (IHitems st Hb Hc).
    + unfold schema in Harr. rewrite Harr. exact (Hcomposite st Hb Hc).
    + exact (Hcomposite st Hb Hc).
Qed.

End WithExpansion.

(** *** [processSchema]: enough fuel, and what it records *)

Lemma processSchema_visits (fuel : nat) (schema : SchemaObject) :
  Visits dictionary fuel
    (APISpecParser.processSchema apiSpec fuel schema)
    (λ n, n ∈ directRefs schema).
Proof.
  revert schema. induction fuel as [| fuel IH]; intros schema.
  - intros st Hb. lia.
  - simpl. apply processSchemaWith_visits.
    intros name st Hb Hc Hout.
    rewrite (addModelReference_new name st Hc Hout).
    pose proof (consistent_expanded name st Hc Hout) as Hc'.
    set (st1 := APISpecParser.markProcessed name _) in *.
    assert (Hsub : processedRefs st ⊆ processedRefs st1) by (simpl; set_solver).
    assert (Hname : name ∈ processedRefs st1) by (simpl; set_solver).
    destruct (dictionary !! name) as [d |] eqn:Hd.
    + destruct (IH d st1) as (st' & E & (Hc2 & Hsub2 & Hr2 & Hcl2 & Hs2)).
      * pose proof (unexpanded_mark name d
                      (APISpecParser.mkState (modelRefs st ++ [name]) (processedRefs st))
                      Hd Hout) as Hlt.
        unfold unexpanded in *. simpl in *. lia.
      * exact Hc'.
      * exists st'. split; [exact E |].
        split; [exact Hc2 |]. split; [set_solver |]. split; [| split].
        -- intros n <-. auto.
        -- intros n d' m Hn Hn0 Hd' Hm.
           destruct (decide (n = name)) as [-> | Hne].
           ++ rewrite Hd in Hd'. injection Hd' as <-. by apply Hr2.
           ++ eapply Hcl2; eauto. simpl. set_solver.
        -- intros n Hn Hn0.
           destruct (decide (n = name)) as [-> | Hne].
           ++ by apply referenced_start.
           ++ eapply ReferencedFrom_entry; [exact Hd |].
              apply Hs2; [exact Hn |]. simpl. set_solver.
    + exists st1. split; [reflexivity |].
      split; [exact Hc' |]. split; [exact Hsub |]. split; [| split].
      * intros n <-. exact Hname.
      * intros n d' m Hn Hn0 Hd' _.
        assert (n = name) as -> by (simpl in Hn; set_solver).
        congruence.
      * intros n Hn Hn0.
        assert (n = name) as -> by (simpl in Hn; set_solver).
        by apply referenced_start.
Qed.

(** *** The traversal of the selected endpoints *)

Lemma rootRefs_app (l1 l2 : list SchemaObject) (n : string) :
  rootRefs (l1 ++ l2) n ↔ rootRefs l1 n ∨ rootRefs l2 n.
Proof.
  unfold rootRefs. split.
  - intros (r & Hr & Hn). apply elem_of_app in Hr as [Hr | Hr]; eauto.
  - intros [(r & Hr & Hn) | (r & Hr & Hn)]; exists r; rewrite elem_of_app; auto.
Qed.

Lemma rootRefs_nil (n : string) : rootRefs [] n ↔ False.
Proof. split; [intros (r & Hr & _); inversion Hr | contradiction]. Qed.

Lemma rootRefs_flat_map {A : Type} (f : A → list SchemaObject) (l : list A)
  (n : string) :
  rootRefs (flat_map f l) n ↔ ∃ x, x ∈ l ∧ rootRefs (f x) n.
Proof.
  unfold rootRefs. split.
  - intros (r & Hr & Hn). apply list_elem_of_In, in_flat_map in Hr as (x & Hx & Hr).
    exists x. rewrite list_elem_of_In. split; [exact Hx |].
    exists r. by rewrite list_elem_of_In.
  - intros (x & Hx & r & Hr & Hn). exists r. split; [| exact Hn].
    apply list_elem_of_In, in_flat_map. exists x. by rewrite <- !list_elem_of_In.
Qed.

Lemma rootRefs_omap {A : Type} (f : A → option SchemaObject) (l : list A)
  (n : string) :
  rootRefs (omap f l) n ↔ ∃ x, x ∈ l ∧ rootRefs (option_list (f x)) n.
Proof.
  unfold rootRefs. split.
  - intros (r & Hr & Hn). apply list_elem_of_omap in Hr as (x & Hx & Hf).
    exists x. split; [exact Hx |]. exists r. rewrite Hf. split; [by left | exact Hn].
  - intros (x & Hx & r & Hr & Hn). exists r. split; [| exact Hn].
    apply list_elem_of_omap. exists x. split; [exact Hx |].
    destruct (f x); simpl in Hr; [| inversion Hr].
    by apply list_elem_of_singleton in Hr as ->.
Qed.

Lemma Visits_forEach_roots {A : Type} (bound : nat)
  (f : A → State → Outcome State) (g : A → list SchemaObject) (l : list A) :
  (∀ x, Visits dictionary bound (f x) (rootRefs (g x))) →
  Visits dictionary bound (forEach f l) (rootRefs (flat_map g l)).
Proof.
  intros H.
  eapply Visits_equiv;
    [| | apply (Visits_forEach bound f (λ x, rootRefs (g x)) l)].
  - reflexivity.
  - intros n. by rewrite rootRefs_flat_map.
  - apply Forall_forall. intros x _. apply H.
Qed.

Lemma Visits_forEach_omap {A : Type} (bound : nat)
  (f : A → State → Outcome State) (g : A → option SchemaObject) (l : list A) :
  (∀ x, Visits dictionary bound (f x) (rootRefs (option_list (g x)))) →
  Visits dictionary bound (forEach f l) (rootRefs (omap g l)).
Proof.
  intros H.
  eapply Visits_equiv;
    [| | apply (Visits_forEach bound f (λ x, rootRefs (option_list (g x))) l)].
  - reflexivity.
  - intros n. by rewrite rootRefs_omap.
  - apply Forall_forall. intros x _. apply H.
Qed.

Lemma Visits_nothing (bound : nat) : Visits dictionary bound Done (rootRefs []).
Proof.
  eapply Visits_equiv; [| | apply Visits_done]; [reflexivity |].
  intros n. by rewrite rootRefs_nil.
Qed.

Lemma Visits_then (bound : nat) (c1 c2 : State → Outcome State)
  (l1 l2 : list SchemaObject) :
  Visits dictionary bound c1 (rootRefs l1) →
  Visits dictionary bound c2 (rootRefs l2) →
  Visits dictionary bound (λ st, st' ←! c1 st; c2 st') (rootRefs (l1 ++ l2)).
Proof.
  intros H1 H2.
  eapply Visits_equiv; [| | exact (Visits_bind _ _ _ _ _ H1 H2)]; [reflexivity |].
  intros n. by rewrite rootRefs_app.
Qed.

Section Traversal.

Variable fuel : nat.

Lemma processOptionalSchema_visits (o : option SchemaObject) :
  Visits dictionary fuel (APISpecParser.processOptionalSchema apiSpec fuel o)
    (rootRefs (option_list o)).
Proof.
  destruct o as [s |]; simpl; [| apply Visits_nothing].
  eapply Visits_equiv; [| | apply (processSchema_visits fuel s)]; [reflexivity |].
  intros n. unfold rootRefs. split.
  - intros Hn. exists s. split; [by left | exact Hn].
  - intros (r & Hr & Hn). by apply list_elem_of_singleton in Hr as ->.
Qed.

Lemma processContent_visits (content : list (string * MediaTypeObject)) :
  Visits dictionary fuel (APISpecParser.processContent apiSpec fuel content)
    (rootRefs (contentSchemas content)).
Proof.
  apply (Visits_forEach_omap fuel
           (λ kv st, APISpecParser.processOptionalSchema apiSpec fuel
                       (media_schema (snd kv)) st)
           (λ kv, media_schema (snd kv))).
  intros kv. apply processOptionalSchema_visits.
Qed.

Lemma processResponse_visits (response : ResponseObject) :
  Visits dictionary fuel (APISpecParser.processResponse apiSpec fuel response)
    (rootRefs (responseSchemas apiSpec response)).
Proof.
  unfold APISpecParser.processResponse, responseSchemas.
  destruct (resp_content response) as [content |];
    [destruct (APISpecParser.isOpenApi3 apiSpec) |].
  - apply processContent_visits.
  - apply processOptionalSchema_visits.
  - apply processOptionalSchema_visits.
Qed.

Lemma processOperation_visits (pathItem : PathItemObject)
  (operation : OperationObject) :
  Visits dictionary fuel
    (APISpecParser.processOperation apiSpec fuel pathItem operation)
    (rootRefs (operationSchemas apiSpec pathItem operation)).
Proof.
  unfold APISpecParser.processOperation, APISpecParser.processRequestModels,
    APISpecParser.processResponseModels, operationSchemas.
  rewrite app_assoc.
  apply Visits_then; [apply Visits_then |].
  - apply (Visits_forEach_omap fuel (APISpecParser.processParameter apiSpec fuel)
             par_schema).
    intros param. apply processOptionalSchema_visits.
  - destruct (op_requestBody operation) as [requestBody |];
      [destruct (APISpecParser.isOpenApi3 apiSpec) |].
    + apply processContent_visits.
    + apply Visits_nothing.
    + apply Visits_nothing.
  - apply (Visits_forEach_roots fuel
             (λ kv st, APISpecParser.processResponse apiSpec fuel (snd kv) st)
             (λ kv, responseSchemas apiSpec (snd kv))).
    intros kv. apply processResponse_visits.
Qed.

Lemma processPathOperations_visits (pathItem : PathItemObject) :
  Visits dictionary fuel
    (APISpecParser.processPathOperations apiSpec fuel pathItem)
    (rootRefs (pathItemSchemas apiSpec pathItem)).
Proof.
  apply (Visits_forEach_roots fuel
           (APISpecParser.processOperation apiSpec fuel pathItem)
           (operationSchemas apiSpec pathItem)).
  intros operation. apply processOperation_visits.
Qed.

Lemma processSelected_visits (selected : list (string * PathItemObject)) :
  Visits dictionary fuel
    (forEach (λ kv st, APISpecParser.processPathOperations apiSpec fuel (snd kv) st)
       selected)
    (rootRefs (endpointSchemas apiSpec selected)).
Proof.
  apply (Visits_forEach_roots fuel
           (λ kv st, APISpecParser.processPathOperations apiSpec fuel (snd kv) st)
           (λ kv, pathItemSchemas apiSpec (snd kv))).
  intros kv. apply processPathOperations_visits.
Qed.

End Traversal.

Lemma cleared_consistent : consistent APISpecParser.cleared.
Proof. split; [apply NoDup_nil_2 | intros n; simpl; set_solver]. Qed.

Lemma cleared_unexpanded :
  unexpanded dictionary APISpecParser.cleared < APISpecParser.discoverFuel apiSpec.
Proof.
  unfold unexpanded, APISpecParser.discoverFuel; simpl.
  rewrite difference_empty_L, size_dom. lia.
Qed.

(** What discovery returns once the paths are selected: every referenced
    name, each once *)
Lemma discoverModelPaths_selected (pathPattern : option string)
  (selected : list (string * PathItemObject)) :
  APISpecParser.pathsToProcess apiSpec pathPattern = Done selected →
  ∃ names,
    APISpecParser.discoverModelPaths apiSpec pathPattern = Done names
    ∧ NoDup names
    ∧ ∀ n, n ∈ names ↔ Referenced dictionary (endpointSchemas apiSpec selected) n.
Proof.
  intros Hsel.
  destruct (processSelected_visits (APISpecParser.discoverFuel apiSpec) selected
              APISpecParser.cleared cleared_unexpanded cleared_consistent)
    as (st & E & ([Hnd Hc] & _ & Hr & Hcl & Hs)).
  exists (modelRefs st).
  unfold APISpecParser.discoverModelPaths, APISpecParser.discoverModelPathsWith,
    APISpecParser.processMatchingPaths.
  rewrite Hsel; simpl. rewrite E; simpl.
  split; [reflexivity |]. split; [exact Hnd |].
  intros n. rewrite Hc. split.
  - intros Hn. apply Hs; [exact Hn | simpl; set_solver].
  - intros Href. induction Href as [n Hn | parent d n _ IH Hd Hn].
    + by apply Hr.
    + eapply Hcl; eauto. simpl. set_solver.
Qed.

End WalkerFacts.

(** ** The pattern compiler and the filter never hit the recursion bound *)

Lemma parseLoop_bounded (n : nat) :
  ∀ cs top stack, length cs ≤ n → RegExp.parseLoop cs top stack ≠ OutOfFuel.
Proof.
  induction n as [| n IH]; intros cs top stack Hlen.
  - destruct cs; [| simpl in Hlen; lia]. simpl. by destruct stack.
  - destruct cs as [| c rest]; [simpl; by destruct stack |].
    simpl in Hlen. simpl.
    repeat case_match; try discriminate; subst;
      try (apply IH; simpl in *; lia).
Qed.

Lemma regexFilter_not_out_of_fuel (text pattern : string) :
  regexFilter text pattern ≠ OutOfFuel.
Proof.
  unfold regexFilter, RegExp.compile.
  pose proof (parseLoop_bounded _ (list_ascii_of_string ("^" +:+ pattern +:+ "$"))
                RegExp.emptyFrame [] (le_n _)) as H.
  destruct (RegExp.parseLoop _ _ _); simpl; congruence.
Qed.

Lemma filterM_not_out_of_fuel {A : Type} (p : A → Outcome bool) (l : list A) :
  (∀ x, p x ≠ OutOfFuel) → filterM p l ≠ OutOfFuel.
Proof.
  intros Hp. induction l as [| x l IH]; simpl; [discriminate |].
  specialize (Hp x). destruct (p x); simpl; try congruence.
  destruct (filterM p l); simpl; congruence.
Qed.

Lemma pathsToProcess_not_out_of_fuel (apiSpec : OpenAPIDocument)
  (pathPattern : option string) :
  APISpecParser.pathsToProcess apiSpec pathPattern ≠ OutOfFuel.
Proof.
  unfold APISpecParser.pathsToProcess.
  destruct (JsString.truthy pathPattern); [| discriminate].
  apply filterM_not_out_of_fuel. intros kv. apply regexFilter_not_out_of_fuel.
Qed.

Lemma directRefs_property (p ref : string) :
  ref ≠ "" → directRefs (objectSchema [(p, refSchema ref)]) = [afterLastSlash ref].
Proof. intros Href. destruct ref; [congruence | reflexivity]. Qed.

(** ** Discovery (C3, C10) *)

(** C3.  Discovery never exhausts its recursion bound, however cyclic the
    schema dictionary is; once the paths are selected it returns, without
    repetition, exactly the model names referenced from the selected
    endpoints.  In particular, when [A → { p: $ref B }] and
    [B → { q: $ref A }] are referenced from a selected endpoint, [A] and [B]
    are in the result exactly once each. *)
Theorem discover_terminates_each_name_once (apiSpec : OpenAPIDocument)
  (pathPattern : option string) :
  APISpecParser.discoverModelPaths apiSpec pathPattern ≠ OutOfFuel
  ∧ ∀ selected,
      APISpecParser.pathsToProcess apiSpec pathPattern = Done selected →
      ∃ names,
        APISpecParser.discoverModelPaths apiSpec pathPattern = Done names
        ∧ NoDup names
        ∧ (∀ n, n ∈ names ↔
                Referenced (APISpecParser.schemaDictionary apiSpec)
                  (endpointSchemas apiSpec selected) n)
        ∧ ∀ A B refA refB p q,
            Referenced (APISpecParser.schemaDictionary apiSpec)
              (endpointSchemas apiSpec selected) A →
            APISpecParser.schemaDictionary apiSpec !! A
              = Some (objectSchema [(p, refSchema refB)]) →
            APISpecParser.schemaDictionary apiSpec !! B
              = Some (objectSchema [(q, refSchema refA)]) →
            afterLastSlash refA = A → afterLastSlash refB = B → refB ≠ "" →
            count_occ string_dec names A = 1 ∧ count_occ string_dec names B = 1.
Proof.
  split.
  - destruct (APISpecParser.pathsToProcess apiSpec pathPattern) as [selected | | |] eqn:Hsel.
    + destruct (discoverModelPaths_selected apiSpec pathPattern selected Hsel)
        as (names & -> & _). discriminate.
    + unfold APISpecParser.discoverModelPaths, APISpecParser.discoverModelPathsWith,
        APISpecParser.processMatchingPaths. by rewrite Hsel.
    + unfold APISpecParser.discoverModelPaths, APISpecParser.discoverModelPathsWith,
        APISpecParser.processMatchingPaths. by rewrite Hsel.
    + by apply pathsToProcess_not_out_of_fuel in Hsel.
  - intros selected Hsel.
    destruct (discoverModelPaths_selected apiSpec pathPattern selected Hsel)
      as (names & E & Hnd & Href).
    exists names. repeat split; try assumption; try apply Href.
    + apply NoDup_count_occ'; [by apply NoDup_ListNoDup |].
      apply list_elem_of_In, Href. assumption.
    + apply NoDup_count_occ'; [by apply NoDup_ListNoDup |].
      apply list_elem_of_In, Href.
      eapply referenced_step; [eassumption | eassumption |].
      rewrite directRefs_property by assumption. subst B. by left.
Qed.

Lemma discover_terminates_each_name_once_witness :
  ∃ names,
    APISpecParser.discoverModelPaths cyclicDocument (Some "/pets") = Done names
    ∧ count_occ string_dec names "A" = 1 ∧ count_occ string_dec names "B" = 1.
Proof.
  destruct (proj2 (discover_terminates_each_name_once cyclicDocument (Some "/pets"))
              (paths cyclicDocument) eq_refl)
    as (names & E & _ & _ & Hcycle).
  exists names. split; [exact E |].
  apply (Hcycle "A" "B" "#/definitions/A" "#/definitions/B" "prop" "prop");
    try reflexivity; [| discriminate].
  apply referenced_start. exists (refSchema "#/definitions/A").
  split; [| by left]. by left.
Defined.

(** C10.  A name that a schema reachable from a selected endpoint refers to
    is in the result of discovery even when the schema dictionary has no
    entry for it. *)
Theorem discover_keeps_dangling_reference (apiSpec : OpenAPIDocument)
  (pathPattern : option string) (selected : list (string * PathItemObject))
  (names : list string) (name : string) :
  APISpecParser.pathsToProcess apiSpec pathPattern = Done selected →
  APISpecParser.discoverModelPaths apiSpec pathPattern = Done names →
  Referenced (APISpecParser.schemaDictionary apiSpec)
    (endpointSchemas apiSpec selected) name →
  APISpecParser.schemaDictionary apiSpec !! name = None →
  name ∈ names ∧ count_occ string_dec names name = 1.
Proof.
  intros Hsel Hdisc Href _.
  destruct (discoverModelPaths_selected apiSpec pathPattern selected Hsel)
    as (names' & E & Hnd & Hiff).
  rewrite Hdisc in E. injection E as <-.
  assert (name ∈ names) by by apply Hiff.
  split; [assumption |].
  apply NoDup_count_occ'; [by apply NoDup_ListNoDup | by apply list_elem_of_In].
Qed.

Lemma discover_keeps_dangling_reference_witness :
  APISpecParser.schemaDictionary danglingDocument !! "Missing" = None
  ∧ "Missing" ∈ ["A"; "Missing"]
  ∧ count_occ string_dec ["A"; "Missing"] "Missing" = 1.
Proof.
  split; [reflexivity |].
  apply (discover_keeps_dangling_reference danglingDocument (Some "/pets")
           (paths danglingDocument) ["A"; "Missing"] "Missing").
  - reflexivity.
  - vm_compute. reflexivity.
  - eapply referenced_step.
    + apply referenced_start. exists (refSchema "#/definitions/A").
      split; [by left | by left].
    + reflexivity.
    + by left.
  - reflexivity.
Defined.

(** ** The source assembly service only ever appends *)

Create HintDb builder.

Lemma extends_refl (b : CodeBuilder.t) : extends b b.
Proof. exists "". by rewrite append_empty_r. Qed.

Lemma extends_trans (b0 b1 b2 : CodeBuilder.t) :
  extends b0 b1 → extends b1 b2 → extends b0 b2.
Proof.
  intros [s1 E1] [s2 E2]. exists (s1 +:+ s2). by rewrite E2, E1, append_assoc.
Qed.

Lemma wrote_extends (piece : string) (b0 b : CodeBuilder.t) :
  wrote piece b0 b → extends b0 b.
Proof. intros (pre & post & E). by eexists. Qed.

Lemma wrote_later (piece : string) (b0 b1 b2 : CodeBuilder.t) :
  wrote piece b0 b1 → extends b1 b2 → wrote piece b0 b2.
Proof.
  intros (pre & post & E1) [s E2]. exists pre, (post +:+ s).
  by rewrite E2, E1, !append_assoc.
Qed.

Lemma wrote_earlier (piece : string) (b0 b1 b2 : CodeBuilder.t) :
  extends b0 b1 → wrote piece b1 b2 → wrote piece b0 b2.
Proof.
  intros [s E1] (pre & post & E2). exists (s +:+ pre), post.
  by rewrite E2, E1, !append_assoc.
Qed.

Lemma wrote_occursIn (piece : string) (b0 b : CodeBuilder.t) :
  wrote piece b0 b → occursIn piece (CodeBuilder.content b) = true.
Proof.
  intros (pre & post & ->). rewrite <- append_assoc. apply occursIn_intro.
Qed.

Lemma extends_appendLine (line : string) (b0 b : CodeBuilder.t) :
  extends b0 b → extends b0 (CodeBuilder.appendLine line b).
Proof. intros H. eapply extends_trans; [exact H |]. by eexists. Qed.

Lemma extends_appendEmptyLine (b0 b : CodeBuilder.t) :
  extends b0 b → extends b0 (CodeBuilder.appendEmptyLine b).
Proof. intros H. eapply extends_trans; [exact H |]. by eexists. Qed.

Lemma extends_indentBy (count : Z) (b0 b : CodeBuilder.t) :
  extends b0 b → extends b0 (CodeBuilder.indentBy count b).
Proof. intros H. exact H. Qed.

Lemma extends_fold_left {A : Type} (f : CodeBuilder.t → A → CodeBuilder.t)
  (l : list A) (b0 b : CodeBuilder.t) :
  (∀ x b', extends b0 b' → extends b0 (f b' x)) →
  extends b0 b → extends b0 (fold_left f l b).
Proof.
  intros Hf. revert b. induction l as [| x l IH]; intros b Hb; simpl; auto.
Qed.

#[export] Hint Resolve extends_refl extends_appendLine extends_appendEmptyLine
  extends_indentBy : builder.

Lemma extends_appendLines (lines : list string) (b0 b : CodeBuilder.t) :
  extends b0 b → extends b0 (CodeBuilder.appendLines lines b).
Proof. intros H. apply extends_fold_left; auto with builder. Qed.

Lemma extends_createJSDocBlock (description : CodeBuilder.Description)
  (tags : option (list CodeBuilder.Tag)) (b0 b : CodeBuilder.t) :
  extends b0 b → extends b0 (CodeBuilder.createJSDocBlock description tags b).
Proof.
  intros H. unfold CodeBuilder.createJSDocBlock.
  apply extends_appendLine.
  repeat case_match; repeat (apply extends_fold_left; [auto with builder |]);
    auto 6 with builder;
    repeat (apply extends_appendLine || (apply extends_fold_left; [auto with builder |]));
    auto with builder.
Qed.

#[export] Hint Resolve extends_createJSDocBlock extends_appendLines : builder.

Lemma extends_describe (description : option string) (b0 b : CodeBuilder.t) :
  extends b0 b → extends b0 (CodeBuilder.describe description b).
Proof. intros H. unfold CodeBuilder.describe. case_match; auto with builder. Qed.

Lemma extends_decorate (decorators : option (list string)) (b0 b : CodeBuilder.t) :
  extends b0 b → extends b0 (CodeBuilder.decorate decorators b).
Proof.
  intros H. unfold CodeBuilder.decorate.
  repeat case_match; auto with builder; apply extends_fold_left; auto with builder.
Qed.

Lemma extends_createFileHeader (b0 b : CodeBuilder.t) :
  extends b0 b → extends b0 (CodeBuilder.createFileHeader b).
Proof. intros H. unfold CodeBuilder.createFileHeader. auto with builder. Qed.

Lemma extends_createImports (imports : list CodeBuilder.ImportSpec)
  (b0 b : CodeBuilder.t) :
  extends b0 b → extends b0 (CodeBuilder.createImports imports b).
Proof.
  intros H. unfold CodeBuilder.createImports. destruct imports; [exact H |].
  apply extends_appendEmptyLine, extends_fold_left; auto with builder.
Qed.

Lemma extends_createBlock (openingLine : string) (bodyContent : option CodeBuilder.Body)
  (b0 b : CodeBuilder.t) :
  (∀ body b', bodyContent = Some body → extends b0 b' → extends b0 (body b')) →
  extends b0 b → extends b0 (CodeBuilder.createBlock openingLine bodyContent b).
Proof.
  intros Hbody H. unfold CodeBuilder.createBlock.
  apply extends_appendLine, extends_indentBy.
  destruct bodyContent as [body |]; [apply (Hbody body); [reflexivity |] |];
    auto with builder.
Qed.

#[export] Hint Resolve extends_describe extends_decorate extends_createFileHeader
  extends_createImports : builder.

Lemma extends_createClass (options : CodeBuilder.ClassOptions)
  (bodyContent : option CodeBuilder.Body) (b0 b : CodeBuilder.t) :
  (∀ body b', bodyContent = Some body → extends b0 b' → extends b0 (body b')) →
  extends b0 b → extends b0 (CodeBuilder.createClass options bodyContent b).
Proof.
  intros Hbody H. unfold CodeBuilder.createClass.
  apply extends_createBlock; auto with builder.
Qed.

Lemma extends_createInterface (options : CodeBuilder.InterfaceOptions)
  (bodyContent : option CodeBuilder.Body) (b0 b : CodeBuilder.t) :
  (∀ body b', bodyContent = Some body → extends b0 b' → extends b0 (body b')) →
  extends b0 b → extends b0 (CodeBuilder.createInterface options bodyContent b).
Proof.
  intros Hbody H. unfold CodeBuilder.createInterface.
  apply extends_createBlock; auto with builder.
Qed.

Lemma extends_createMethod (options : CodeBuilder.MethodOptions)
  (bodyContent : option CodeBuilder.Body) (b0 b : CodeBuilder.t) :
  (∀ body b', bodyContent = Some body → extends b0 b' → extends b0 (body b')) →
  extends b0 b → extends b0 (CodeBuilder.createMethod options bodyContent b).
Proof.
  intros Hbody H. unfold CodeBuilder.createMethod.
  repeat case_match; try apply extends_createBlock; auto with builder.
Qed.

Lemma extends_createProperty (options : CodeBuilder.PropertyOptions)
  (b0 b : CodeBuilder.t) :
  extends b0 b → extends b0 (CodeBuilder.createProperty options b).
Proof. intros H. unfold CodeBuilder.createProperty. auto with builder. Qed.

Lemma extends_createInterfaceProperty (options : CodeBuilder.InterfacePropertyOptions)
  (b0 b : CodeBuilder.t) :
  extends b0 b → extends b0 (CodeBuilder.createInterfaceProperty options b).
Proof. intros H. unfold CodeBuilder.createInterfaceProperty. auto with builder. Qed.

Lemma extends_createTypeAlias (options : CodeBuilder.TypeAliasOptions)
  (b0 b : CodeBuilder.t) :
  extends b0 b → extends b0 (CodeBuilder.createTypeAlias options b).
Proof. intros H. unfold CodeBuilder.createTypeAlias. auto with builder. Qed.

#[export] Hint Resolve extends_createProperty extends_createInterfaceProperty
  extends_createTypeAlias : builder.

(** Where a line is written *)

Lemma wrote_appendLine (line : string) (b0 b : CodeBuilder.t) :
  extends b0 b → wrote line b0 (CodeBuilder.appendLine line b).
Proof.
  intros H. eapply wrote_earlier; [exact H |].
  by exists (JsString.repeat (CodeBuilder.indentString b) (CodeBuilder.indentLevel b)),
    (String "010" "").
Qed.

Lemma wrote_then_appendLine (piece line : string) (b0 b : CodeBuilder.t) :
  wrote piece b0 b → wrote piece b0 (CodeBuilder.appendLine line b).
Proof. intros H. eapply wrote_later; [exact H | auto with builder]. Qed.

Lemma wrote_then_appendEmptyLine (piece : string) (b0 b : CodeBuilder.t) :
  wrote piece b0 b → wrote piece b0 (CodeBuilder.appendEmptyLine b).
Proof. intros H. eapply wrote_later; [exact H | auto with builder]. Qed.

Lemma wrote_then_indentBy (piece : string) (count : Z) (b0 b : CodeBuilder.t) :
  wrote piece b0 b → wrote piece b0 (CodeBuilder.indentBy count b).
Proof. intros H. exact H. Qed.

Lemma wrote_fold_left {A : Type} (piece : string)
  (f : CodeBuilder.t → A → CodeBuilder.t) (l : list A) (x : A)
  (b0 b : CodeBuilder.t) :
  x ∈ l →
  (∀ y b1 b', extends b1 b' → extends b1 (f b' y)) →
  (∀ b', wrote piece b' (f b' x)) →
  extends b0 b → wrote piece b0 (fold_left f l b).
Proof.
  intros Hx Hext Hw. revert b.
  induction l as [| y l IH]; intros b Hb; [inversion Hx |].
  simpl. apply elem_of_cons in Hx as [<- | Hx].
  - eapply wrote_later; [eapply wrote_earlier; [exact Hb | apply Hw] |].
    apply extends_fold_left; [| apply extends_refl]. intros; by apply Hext.
  - apply IH; [exact Hx |]. by apply Hext.
Qed.

Lemma wrote_createBlock_opening (openingLine : string)
  (bodyContent : option CodeBuilder.Body) (b0 b : CodeBuilder.t) :
  (∀ body b1 b', bodyContent = Some body → extends b1 b' → extends b1 (body b')) →
  extends b0 b →
  wrote (openingLine +:+ " {") b0 (CodeBuilder.createBlock openingLine bodyContent b).
Proof.
  intros Hbody H. unfold CodeBuilder.createBlock.
  eapply wrote_later; [apply wrote_appendLine, H |].
  apply extends_appendLine, extends_indentBy.
  destruct bodyContent as [body |]; [apply (Hbody body); [reflexivity |] |];
    auto with builder.
Qed.

Lemma wrote_createBlock_body (piece openingLine : string) (body : CodeBuilder.Body)
  (b0 b : CodeBuilder.t) :
  (∀ b1 b', extends b1 b' → wrote piece b1 (body b')) →
  extends b0 b →
  wrote piece b0 (CodeBuilder.createBlock openingLine (Some body) b).
Proof.
  intros Hbody H. unfold CodeBuilder.createBlock.
  apply wrote_then_appendLine, wrote_then_indentBy, Hbody.
  auto with builder.
Qed.

(** ** The model emitter *)

Section EmitterFacts.

Variable definitions : gmap string SchemaObject.
Variable options : ConfigOptions.
Variable indentSize : nat.

Abbreviation DState := DTOGenerator.State.
Abbreviation buildOutput := (DTOGenerator.buildOutput definitions options indentSize).
Abbreviation generateFrom := (DTOGenerator.generateFrom definitions options indentSize).
Abbreviation emitted := DTOGenerator.processedRefs.
Abbreviation inProgress := DTOGenerator.processingStack.

Lemma emittedWithin_refl (st : DState) : emittedWithin definitions st st.
Proof. unfold emittedWithin. set_solver. Qed.

Lemma emittedWithin_trans (st0 st1 st2 : DState) :
  emittedWithin definitions st0 st1 → emittedWithin definitions st1 st2 →
  emittedWithin definitions st0 st2.
Proof.
  unfold emittedWithin. intros (H1 & E1 & B1) (H2 & E2 & B2).
  rewrite E1 in *. split; [set_solver |]. split; [congruence | set_solver].
Qed.

Lemma unemitted_mono (st st' : DState) :
  emitted st ⊆ emitted st' → unemitted definitions st' ≤ unemitted definitions st.
Proof. intros H. apply subseteq_size. set_solver. Qed.

Lemma unemitted_add (name : string) (d : SchemaObject) (st : DState)
  (stack : gset string) :
  definitions !! name = Some d → name ∉ emitted st →
  unemitted definitions (DTOGenerator.mkState ({[ name ]} ∪ emitted st) stack)
  < unemitted definitions st.
Proof.
  intros Hd Hn. apply subset_size.
  assert (name ∈ dom definitions) by (apply elem_of_dom; eauto).
  simpl. set_solver.
Qed.

(** One call, unfolded *)
Lemma buildOutput_unfold (fuel : nat) (modelRef : string) (st : DState) :
  buildOutput fuel modelRef st =
  if bool_decide (modelRef ∈ emitted st) then Done (DTOGenerator.mkBuilt None st [])
  else if bool_decide (modelRef ∈ inProgress st) then
    Done (DTOGenerator.mkBuilt None
            (DTOGenerator.mkState ({[ modelRef ]} ∪ emitted st) (inProgress st)) [])
  else
    match definitions !! modelRef with
    | None =>
        Done (DTOGenerator.mkBuilt None st
                ["Definition not found for model: " +:+ modelRef])
    | Some definition =>
        match fuel with
        | O => OutOfFuel
        | S fuel' =>
            let st1 := DTOGenerator.mkState ({[ modelRef ]} ∪ emitted st)
                         ({[ modelRef ]} ∪ inProgress st) in
            let inheritance :=
              match s_allOf definition with
              | Some _ => DTOGenerator.processInheritance definition
              | None => DTOGenerator.mkInheritance [] ""
              end in
            after ←! DTOGenerator.buildParents (buildOutput fuel')
                       (DTOGenerator.inh_imports inheritance) st1 [];
            Done (DTOGenerator.mkBuilt
                    (Some (DTOGenerator.modelOutput options indentSize
                             modelRef definition))
                    (DTOGenerator.mkState (emitted (fst after))
                       (inProgress (fst after) ∖ {[ modelRef ]}))
                    (snd after))
        end
    end.
Proof. destruct fuel; reflexivity. Qed.

Lemma buildParents_total (build : string → DState → Outcome DTOGenerator.Built)
  (bound : nat) (parents : list ImportStatement) :
  (∀ name st, unemitted definitions st < bound →
      ∃ b, build name st = Done b
           ∧ emittedWithin definitions st (DTOGenerator.built_state b)) →
  ∀ st warnings, unemitted definitions st < bound →
    ∃ st' warnings',
      DTOGenerator.buildParents build parents st warnings = Done (st', warnings')
      ∧ emittedWithin definitions st st'.
Proof.
  intros Hbuild. induction parents as [| imp rest IH]; intros st warnings Hb; simpl.
  - exists st, warnings. split; [reflexivity | apply emittedWithin_refl].
  - destruct (Hbuild (imp_name imp) st Hb) as (b & -> & Hw). simpl.
    destruct (IH (DTOGenerator.built_state b)
                (warnings ++ DTOGenerator.built_warnings b))
      as (st' & w' & E & Hw').
    + pose proof (unemitted_mono _ _ (proj1 Hw)). lia.
    + exists st', w'. split; [exact E |]. eapply emittedWithin_trans; eauto.
Qed.

(** Emission returns whenever the fuel exceeds the number of entries that
    are still to be emitted. *)
Lemma buildOutput_total (fuel : nat) :
  ∀ modelRef st, unemitted definitions st < fuel →
    ∃ b, buildOutput fuel modelRef st = Done b
         ∧ emittedWithin definitions st (DTOGenerator.built_state b).
Proof.
  induction fuel as [| fuel IH]; intros modelRef st Hb; [lia |].
  rewrite buildOutput_unfold.
  destruct (bool_decide (modelRef ∈ emitted st)) eqn:Hdone.
  { eexists. split; [reflexivity | apply emittedWithin_refl]. }
  apply bool_decide_eq_false in Hdone.
  destruct (bool_decide (modelRef ∈ inProgress st)) eqn:Hstack.
  { apply bool_decide_eq_true in Hstack.
    eexists. split; [reflexivity |]. unfold emittedWithin; simpl. set_solver. }
  apply bool_decide_eq_false in Hstack.
  destruct (definitions !! modelRef) as [definition |] eqn:Hdef.
  2: { eexists. split; [reflexivity | apply emittedWithin_refl]. }
  cbv zeta.
  set (st1 := DTOGenerator.mkState ({[ modelRef ]} ∪ emitted st)
                ({[ modelRef ]} ∪ inProgress st)).
  destruct (buildParents_total (buildOutput fuel) fuel
              (DTOGenerator.inh_imports
                 match s_allOf definition with
                 | Some _ => DTOGenerator.processInheritance definition
                 | None => DTOGenerator.mkInheritance [] ""
                 end) IH st1 [])
    as (st' & w' & -> & (Hsub & Hst & Hbnd)).
  { pose proof (unemitted_add modelRef definition st
                  ({[ modelRef ]} ∪ inProgress st) Hdef Hdone).
    unfold st1. lia. }
  simpl. eexists. split; [reflexivity |].
  assert (modelRef ∈ dom definitions) by (apply elem_of_dom; eauto).
  unfold emittedWithin; simpl in *. rewrite Hst.
  split; [set_solver |]. split; [set_solver | set_solver].
Qed.

Lemma generateFuel_enough (st : DState) :
  unemitted definitions st < DTOGenerator.generateFuel definitions.
Proof.
  unfold unemitted, DTOGenerator.generateFuel.
  rewrite <- (size_dom (D := gset string) definitions).
  assert (size (dom definitions ∖ emitted st) ≤ size (dom definitions))
    by (apply subseteq_size; set_solver).
  lia.
Qed.

Lemma generateFrom_cons (path : string) (rest : list string) (st : DState) :
  generateFrom (path :: rest) st =
  built ←! buildOutput (DTOGenerator.generateFuel definitions) path st;
  more ←! generateFrom rest (DTOGenerator.built_state built);
  Done (option_list (DTOGenerator.built_output built) ++ fst (fst more),
        snd (fst more),
        DTOGenerator.built_warnings built ++ snd more).
Proof. reflexivity. Qed.

(** [generate] returns, from whatever the fields hold. *)
Lemma generateFrom_total (paths : list string) :
  ∀ st, ∃ outputs st' warnings,
    generateFrom paths st = Done (outputs, st', warnings)
    ∧ emittedWithin definitions st st'.
Proof.
  induction paths as [| path rest IH]; intros st.
  - exists [], st, []. split; [reflexivity | apply emittedWithin_refl].
  - rewrite generateFrom_cons.
    destruct (buildOutput_total _ path st (generateFuel_enough st))
      as (b & -> & Hw).
    destruct (IH (DTOGenerator.built_state b)) as (outs & st' & w & E & Hw').
    unfold obind at 1. rewrite E. simpl. do 3 eexists. split; [reflexivity |].
    eapply emittedWithin_trans; eauto.
Qed.



(** A model that is not composed and was not met before: its record is
    returned and its name is marked as emitted. *)
Lemma buildOutput_plain (fuel : nat) (modelRef : string) (definition : SchemaObject)
  (st : DState) :
  definitions !! modelRef = Some definition → s_allOf definition = None →
  modelRef ∉ emitted st → modelRef ∉ inProgress st →
  buildOutput (S fuel) modelRef st
  = Done (DTOGenerator.mkBuilt
            (Some (DTOGenerator.modelOutput options indentSize modelRef definition))
            (DTOGenerator.mkState ({[ modelRef ]} ∪ emitted st) (inProgress st))
            []).
Proof.
  intros Hdef Hall Hdone Hstack. rewrite buildOutput_unfold.
  rewrite !bool_decide_eq_false_2 by assumption. rewrite Hdef, Hall. simpl.
  do 3 f_equal. set_solver.
Qed.

End EmitterFacts.

(** ** What the emitter collects from a definition *)

Lemma collectProperties_fold (definition : SchemaObject)
  (props : list (string * SchemaObject)) (acc : DTOGenerator.Collected) :
  fold_left (DTOGenerator.collectProperty definition) props acc
  = DTOGenerator.mkCollected
      (DTOGenerator.col_properties acc ++ map (propertyOf definition) props)
      (DTOGenerator.col_imports acc ++ flat_map importsOf props).
Proof.
  revert acc. induction props as [| entry props IH]; intros acc; simpl.
  - destruct acc. by rewrite !app_nil_r.
  - rewrite IH. unfold DTOGenerator.collectProperty, importsOf, propertyOf,
      DTOGenerator.addReferenceImport; simpl.
    destruct (JsString.truthy (s_ref entry.2)); simpl;
      [| destruct (JsString.truthy (DTOGenerator.itemsRef entry.2)); simpl];
      by rewrite <- ?app_assoc.
Qed.

Lemma collectProperties_properties (definition : SchemaObject)
  (props : list (string * SchemaObject)) :
  s_properties definition = Some props →
  DTOGenerator.col_properties (DTOGenerator.collectProperties definition)
  = map (propertyOf definition) props.
Proof.
  intros H. unfold DTOGenerator.collectProperties. rewrite H.
  by rewrite collectProperties_fold.
Qed.


Lemma interfacePropertyDeclaration_member (name type : string) (optional : bool)
  (description : option string) :
  CodeBuilder.interfacePropertyDeclaration
    (CodeBuilder.mkInterfacePropertyOptions name type (Some optional) None description)
  = memberLine name optional type.
Proof.
  unfold CodeBuilder.interfacePropertyDeclaration, memberLine; simpl.
  destruct optional; simpl; by rewrite ?append_nil, ?append_assoc.
Qed.

Lemma typeMemberLine_member (prop : ModelProperty) :
  DTOGenerator.typeMemberLine prop
  = memberLine (propertyName prop) (isOptional prop) (mp_type prop).
Proof. reflexivity. Qed.

(** ** Import statements *)

Lemma sameImport_true (a b : ImportStatement) :
  BaseGenerator.sameImport a b = true ↔ imp_path a = imp_path b ∧ imp_name a = imp_name b.
Proof.
  unfold BaseGenerator.sameImport. rewrite andb_true_iff, !String.eqb_eq. tauto.
Qed.

(** The first occurrence of an import that is not a self-import is kept. *)
Lemma uniqueImportsFrom_keeps (currentName : string) (imp : ImportStatement)
  (imports : list ImportStatement) :
  ∀ seen,
    imp ∈ imports → imp_name imp ≠ currentName →
    (∀ s, s ∈ seen → BaseGenerator.sameImport imp s = false) →
    ∃ imp', imp' ∈ BaseGenerator.uniqueImportsFrom currentName seen imports
            ∧ imp_path imp' = imp_path imp ∧ imp_name imp' = imp_name imp.
Proof.
  induction imports as [| x rest IH]; intros seen Hin Hname Hseen; [inversion Hin |].
  simpl. destruct (BaseGenerator.sameImport imp x) eqn:Hsame.
  - apply sameImport_true in Hsame as [Hp Hn].
    exists x. split; [| by rewrite Hp, Hn].
    apply elem_of_app. left.
    assert (Hkeep : negb (String.eqb (imp_name x) currentName)
                    && negb (existsb (BaseGenerator.sameImport x) seen) = true).
    { apply andb_true_iff. split.
      - apply negb_true_iff, String.eqb_neq. congruence.
      - apply negb_true_iff. destruct (existsb _ seen) eqn:Hex; [| reflexivity].
        apply existsb_exists in Hex as (s & Hs & Hxs).
        apply sameImport_true in Hxs as [Hp' Hn'].
        assert (BaseGenerator.sameImport imp s = true)
          by (apply sameImport_true; split; congruence).
        rewrite Hseen in H; [discriminate | by apply list_elem_of_In]. }
    rewrite Hkeep. by left.
  - apply elem_of_cons in Hin as [-> | Hin].
    { assert (BaseGenerator.sameImport x x = true) by by apply sameImport_true.
      congruence. }
    destruct (IH (seen ++ [x]) Hin Hname) as (imp' & Himp' & Hp & Hn).
    + intros s Hs. apply elem_of_app in Hs as [Hs | Hs]; [by apply Hseen |].
      by apply list_elem_of_singleton in Hs as ->.
    + exists imp'. split; [| by split]. apply elem_of_app. by right.
Qed.

Lemma groupInsert_here (path : string) (item : CodeBuilder.ImportItem)
  (groups : list (string * list CodeBuilder.ImportItem)) :
  ∃ items, (path, items) ∈ CodeBuilder.groupInsert path item groups ∧ item ∈ items.
Proof.
  induction groups as [| [p items] rest (items' & Hin & Hitem)]; simpl.
  - exists [item]. split; by left.
  - destruct (String.eqb p path) eqn:E.
    + apply String.eqb_eq in E as ->. exists (items ++ [item]).
      split; [by left | apply elem_of_app; right; by left].
    + exists items'. split; [by right | exact Hitem].
Qed.

Lemma groupInsert_keeps (path : string) (item : CodeBuilder.ImportItem)
  (groups : list (string * list CodeBuilder.ImportItem))
  (p : string) (x : CodeBuilder.ImportItem) :
  (∃ items, (p, items) ∈ groups ∧ x ∈ items) →
  ∃ items, (p, items) ∈ CodeBuilder.groupInsert path item groups ∧ x ∈ items.
Proof.
  intros (items & Hin & Hx).
  induction groups as [| [q its] rest IH]; [inversion Hin |]. simpl.
  apply elem_of_cons in Hin as [[= <- <-] | Hin].
  - destruct (String.eqb p path).
    + exists (items ++ [item]). split; [by left | apply elem_of_app; by left].
    + exists items. split; [by left | exact Hx].
  - destruct (IH Hin) as (items' & Hin' & Hx').
    destruct (String.eqb q path).
    + exists items. split; [by right | exact Hx].
    + exists items'. split; [by right | exact Hx'].
Qed.

Lemma importsByPath_groups (spec : CodeBuilder.ImportSpec)
  (imports : list CodeBuilder.ImportSpec) :
  spec ∈ imports →
  ∃ items, (CodeBuilder.is_path spec, items) ∈ CodeBuilder.importsByPath imports
           ∧ CodeBuilder.is_name spec ∈ map CodeBuilder.ii_name items.
Proof.
  unfold CodeBuilder.importsByPath.
  set (step := λ groups imp,
         CodeBuilder.groupInsert (CodeBuilder.is_path imp)
           (CodeBuilder.mkImportItem (CodeBuilder.is_name imp)
              (default false (CodeBuilder.is_isDefault imp))
              (default false (CodeBuilder.is_isTypeOnly imp))) groups).
  set (item := CodeBuilder.mkImportItem (CodeBuilder.is_name spec)
                 (default false (CodeBuilder.is_isDefault spec))
                 (default false (CodeBuilder.is_isTypeOnly spec))).
  assert (Hkeep : ∀ l groups,
             (∃ items, (CodeBuilder.is_path spec, items) ∈ groups ∧ item ∈ items) →
             ∃ items, (CodeBuilder.is_path spec, items) ∈ fold_left step l groups
                      ∧ item ∈ items).
  { induction l as [| y l IH]; intros groups H; simpl; [exact H |].
    apply IH. unfold step. by apply groupInsert_keeps. }
  assert (Hfind : ∀ l groups, spec ∈ l →
             ∃ items, (CodeBuilder.is_path spec, items) ∈ fold_left step l groups
                      ∧ item ∈ items).
  { induction l as [| y l IH]; intros groups Hin; [inversion Hin |]. simpl.
    apply elem_of_cons in Hin as [<- | Hin]; [| by apply IH].
    apply Hkeep. unfold step. apply groupInsert_here. }
  intros Hin. destruct (Hfind imports [] Hin) as (items & Hg & Hitem).
  exists items. split; [exact Hg |].
  apply list_elem_of_fmap. by exists item.
Qed.

Lemma wrote_createImports (imports : list CodeBuilder.ImportSpec) (path : string)
  (items : list CodeBuilder.ImportItem) (b0 b : CodeBuilder.t) :
  (path, items) ∈ CodeBuilder.importsByPath imports → extends b0 b →
  wrote (CodeBuilder.importStatement path items) b0
    (CodeBuilder.createImports imports b).
Proof.
  intros Hin Hb. unfold CodeBuilder.createImports.
  destruct imports as [| first rest] eqn:E; [inversion Hin |]. rewrite <- E in *.
  apply wrote_then_appendEmptyLine.
  apply (wrote_fold_left _ _ _ (path, items)); [exact Hin | | | exact Hb].
  - intros; auto with builder.
  - intros b'. apply wrote_appendLine, extends_refl.
Qed.

(** An import that is asked for, other than of the file's own model, is in
    an import statement of the file. *)
Lemma wrote_addImportStatements (imports : list ImportStatement) (currentName : string)
  (imp : ImportStatement) (b0 b : CodeBuilder.t) :
  imp ∈ imports → imp_name imp ≠ currentName → extends b0 b →
  ∃ items,
    wrote (CodeBuilder.importStatement (imp_path imp) items) b0
      (BaseGenerator.addImportStatements b imports currentName)
    ∧ imp_name imp ∈ map CodeBuilder.ii_name items.
Proof.
  intros Hin Hname Hb.
  destruct (uniqueImportsFrom_keeps currentName imp imports [] Hin Hname)
    as (imp' & Hin' & Hp & Hn); [intros s Hs; inversion Hs |].
  fold (BaseGenerator.uniqueImports imports currentName) in Hin'.
  assert (Hspec : BaseGenerator.toImportSpec imp'
                  ∈ map BaseGenerator.toImportSpec
                      (BaseGenerator.uniqueImports imports currentName))
    by (apply list_elem_of_fmap; eauto).
  destruct (importsByPath_groups _ _ Hspec) as (items & Hg & Hitem).
  simpl in Hg, Hitem. rewrite Hp in Hg. rewrite Hn in Hitem.
  exists items. split; [| exact Hitem].
  unfold BaseGenerator.addImportStatements.
  destruct (BaseGenerator.uniqueImports imports currentName); [inversion Hin' |].
  by apply wrote_createImports.
Qed.

(** ** The text of a model file *)

Section ModelText.

Variable options : ConfigOptions.
Variable indentSize : nat.

Lemma wrote_interface_member (modelName : string) (properties : list ModelProperty)
  (prop : ModelProperty) (b0 b : CodeBuilder.t) :
  prop ∈ properties → extends b0 b →
  wrote (memberLine (propertyName prop) (isOptional prop) (mp_type prop)) b0
    (DTOGenerator.generateInterfaceDefinition b modelName properties).
Proof.
  intros Hin Hb. unfold DTOGenerator.generateInterfaceDefinition,
    CodeBuilder.createInterface.
  apply wrote_createBlock_body; [| auto with builder].
  intros b1 b' Hb'.
  apply (wrote_fold_left _ _ _ prop); [exact Hin | | | exact Hb'].
  - intros; auto with builder.
  - intros b2. unfold CodeBuilder.createInterfaceProperty.
    rewrite interfacePropertyDeclaration_member.
    apply wrote_appendLine. auto with builder.
Qed.

Lemma wrote_type_member (modelName baseType : string) (properties : list ModelProperty)
  (prop : ModelProperty) (b0 b : CodeBuilder.t) :
  prop ∈ properties → extends b0 b →
  wrote (memberLine (propertyName prop) (isOptional prop) (mp_type prop)) b0
    (DTOGenerator.generateTypeDefinition options b modelName properties baseType).
Proof.
  intros Hin Hb. unfold DTOGenerator.generateTypeDefinition.
  destruct properties as [| first rest] eqn:E; [inversion Hin |]. rewrite <- E in *.
  apply wrote_then_appendEmptyLine, wrote_then_appendLine, wrote_then_indentBy.
  apply (wrote_fold_left _ _ _ prop); [exact Hin | | | auto with builder].
  - intros y b1 b' Hb'. case_match; auto with builder.
  - intros b2. rewrite <- typeMemberLine_member.
    apply wrote_appendLine. case_match; auto with builder.
Qed.

Lemma extends_addImportStatements (imports : list ImportStatement) (currentName : string)
  (b0 b : CodeBuilder.t) :
  extends b0 b → extends b0 (BaseGenerator.addImportStatements b imports currentName).
Proof.
  intros H. unfold BaseGenerator.addImportStatements. case_match; auto with builder.
Qed.

Lemma extends_addFileHeader (b0 b : CodeBuilder.t) :
  extends b0 b → extends b0 (BaseGenerator.addFileHeader b).
Proof. intros H. unfold BaseGenerator.addFileHeader. auto with builder. Qed.

(** Every property of a definition has its member line in the model file. *)
Lemma modelContent_member (modelName : string) (definition : SchemaObject)
  (props : list (string * SchemaObject)) (entry : string * SchemaObject) :
  s_properties definition = Some props → entry ∈ props →
  occursIn
    (memberLine (sanitizePropertyName (fst entry))
       (negb (DTOGenerator.isRequired definition (fst entry))
        || default false (s_nullable (snd entry)))
       (DTOGenerator.resolvePropertyType (snd entry)))
    (DTOGenerator.modelContent options indentSize modelName definition) = true.
Proof.
  intros Hprops Hin. unfold DTOGenerator.modelContent.
  rewrite (collectProperties_properties definition props Hprops).
  assert (Hprop : propertyOf definition entry ∈ map (propertyOf definition) props)
    by (apply list_elem_of_fmap; eauto).
  cbv zeta. simpl fst.
  eapply (wrote_occursIn _ (CodeBuilder.create indentSize)).
  destruct (s_allOf definition).
  - apply (wrote_type_member _ _ _ (propertyOf definition entry)); [exact Hprop |].
    apply extends_addImportStatements, extends_addFileHeader, extends_refl.
  - apply (wrote_interface_member _ _ (propertyOf definition entry)); [exact Hprop |].
    apply extends_addImportStatements, extends_addFileHeader, extends_refl.
Qed.

Lemma extends_generateInterfaceDefinition (modelName : string)
  (properties : list ModelProperty) (b0 b : CodeBuilder.t) :
  extends b0 b →
  extends b0 (DTOGenerator.generateInterfaceDefinition b modelName properties).
Proof.
  intros H. unfold DTOGenerator.generateInterfaceDefinition.
  apply extends_createInterface; [| exact H].
  intros body b' [= <-] Hb'. apply extends_fold_left; auto with builder.
Qed.

Lemma extends_generateTypeDefinition (modelName baseType : string)
  (properties : list ModelProperty) (b0 b : CodeBuilder.t) :
  extends b0 b →
  extends b0 (DTOGenerator.generateTypeDefinition options b modelName properties baseType).
Proof.
  intros H. unfold DTOGenerator.generateTypeDefinition.
  destruct properties; [auto with builder |].
  apply extends_appendEmptyLine, extends_appendLine, extends_indentBy.
  apply extends_fold_left; [| auto with builder].
  intros x b' Hb'. case_match; auto with builder.
Qed.


End ModelText.

(** ** Emission of a batch of models (C9, C4, C1, C2) *)

Ltac step_bind :=
  cbn [obind fst snd DTOGenerator.built_state DTOGenerator.built_output
         DTOGenerator.built_warnings].






Lemma processInheritance_child (ref : string) :
  afterLastSlash ref = "Base" →
  DTOGenerator.processInheritance (childSchema ref)
  = DTOGenerator.mkInheritance [DTOGenerator.dtoImport "Base"] "Base".
Proof.
  intros Href. destruct ref as [| c ref]; [discriminate |].
  unfold DTOGenerator.processInheritance, childSchema, allOfSchema, refSchema.
  cbn [s_allOf default from_option id fold_left s_ref JsString.truthy
         DTOGenerator.inh_imports DTOGenerator.typeDef objectSchema].
  rewrite Href. reflexivity.
Qed.

Lemma modelOutput_child (options : ConfigOptions) (indentSize : nat) (ref : string) :
  afterLastSlash ref = "Base" →
  DTOGenerator.modelOutput options indentSize "Child" (childSchema ref) = childAlias.
Proof.
  intros Href. unfold DTOGenerator.modelOutput, DTOGenerator.modelContent.
  change (s_allOf (childSchema ref)) with (Some [refSchema ref;
                                                 objectSchema [("x", typedSchema "string")]]).
  cbv iota beta. rewrite (processInheritance_child ref Href).
  change (DTOGenerator.collectProperties (childSchema ref))
    with (DTOGenerator.mkCollected [] []).
  vm_compute. reflexivity.
Qed.

Lemma size_of_inhabited (definitions : gmap string SchemaObject) (name : string)
  (definition : SchemaObject) :
  definitions !! name = Some definition → ∃ n, size definitions = S n.
Proof.
  intros H. destruct (size definitions) eqn:E; [| eauto].
  apply map_size_empty_inv in E. subst. by rewrite lookup_empty in H.
Qed.

(** C1, as the code has it.  With [Base] a model that is not composed and
    [Child = { allOf: [ {$ref: Base}, {properties: {x: string}} ] }], the
    declaration emitted for [Child] is the alias [export type Child = Base;]
    in a file that imports [Base]; the property [x] of the inline member is
    not part of it.  This holds whichever of the two names is requested
    first; when [Base] is requested first, the records are the one of [Base]
    and then the one of [Child]. *)
Theorem allOf_child_is_alias_of_base (definitions : gmap string SchemaObject)
  (options : ConfigOptions) (indentSize : nat) (base : SchemaObject) (ref : string) :
  definitions !! "Base" = Some base → s_allOf base = None →
  definitions !! "Child" = Some (childSchema ref) → afterLastSlash ref = "Base" →
  (∃ st, DTOGenerator.generate definitions options indentSize ["Base"; "Child"]
         = Done ([DTOGenerator.modelOutput options indentSize "Base" base; childAlias],
                 st, []))
  ∧ (∃ outputs st warnings,
        DTOGenerator.generate definitions options indentSize ["Child"; "Base"]
        = Done (outputs, st, warnings)
        ∧ childAlias ∈ outputs)
  ∧ occursIn "export type Child = Base;" (out_content childAlias) = true
  ∧ occursIn "import { Base } from" (out_content childAlias) = true
  ∧ occursIn "x:" (out_content childAlias) = false
  ∧ occursIn "x?:" (out_content childAlias) = false.
Proof.
  intros HBase Hplain HChild Href.
  assert (HnotBase : "Child" ∉ ({[ "Base" ]} ∪ ∅ : gset string)).
  { rewrite elem_of_union, elem_of_singleton. intros [? | ?]; [discriminate | set_solver]. }
  assert (HnotChild : "Base" ∉ ({[ "Child" ]} ∪ ∅ : gset string)).
  { rewrite elem_of_union, elem_of_singleton. intros [? | ?]; [discriminate | set_solver]. }
  split; [| split; [| repeat split; vm_compute; reflexivity]].
  - eexists. unfold DTOGenerator.generate.
    rewrite generateFrom_cons. unfold DTOGenerator.generateFuel at 1.
    rewrite (buildOutput_plain definitions options indentSize _ "Base" base
               DTOGenerator.fresh HBase Hplain) by (simpl; set_solver).
    step_bind. rewrite generateFrom_cons. unfold DTOGenerator.generateFuel at 1.
    rewrite buildOutput_unfold.
    rewrite !bool_decide_eq_false_2 by (simpl; set_solver).
    rewrite HChild. cbv zeta.
    change (s_allOf (childSchema ref)) with (Some [refSchema ref;
                                                   objectSchema [("x", typedSchema "string")]]).
    cbv iota beta. rewrite (processInheritance_child ref Href).
    cbn [DTOGenerator.inh_imports DTOGenerator.buildParents].
    change (imp_name (DTOGenerator.dtoImport "Base")) with "Base".
    rewrite buildOutput_unfold.
    rewrite bool_decide_eq_true_2 by (simpl; set_solver).
    step_bind. rewrite (modelOutput_child options indentSize ref Href).
    reflexivity.
  - unfold DTOGenerator.generate.
    destruct (size_of_inhabited definitions "Base" base HBase) as [n Hsize].
    rewrite generateFrom_cons. unfold DTOGenerator.generateFuel at 1.
    rewrite buildOutput_unfold.
    rewrite !bool_decide_eq_false_2 by (simpl; set_solver).
    rewrite HChild. cbv zeta.
    change (s_allOf (childSchema ref)) with (Some [refSchema ref;
                                                   objectSchema [("x", typedSchema "string")]]).
    cbv iota beta. rewrite (processInheritance_child ref Href).
    cbn [DTOGenerator.inh_imports DTOGenerator.buildParents].
    change (imp_name (DTOGenerator.dtoImport "Base")) with "Base".
    rewrite Hsize.
    rewrite (buildOutput_plain definitions options indentSize n "Base" base _
               HBase Hplain) by (simpl; set_solver).
    step_bind. rewrite (modelOutput_child options indentSize ref Href).
    match goal with
    | |- context [DTOGenerator.generateFrom _ _ _ ["Base"] ?st] =>
        destruct (generateFrom_total definitions options indentSize ["Base"] st)
          as (outs & st' & w & E & _)
    end.
    rewrite E. step_bind. do 3 eexists. split; [reflexivity |]. by left.
Qed.

Lemma allOf_child_is_alias_of_base_witness :
  ∃ st, DTOGenerator.generate inheritanceDefinitions DEFAULT_CONFIG 2 ["Base"; "Child"]
        = Done ([DTOGenerator.modelOutput DEFAULT_CONFIG 2 "Base"
                   (objectSchema [("id", typedSchema "integer")]);
                 childAlias],
                st, []).
Proof.
  exact (proj1 (allOf_child_is_alias_of_base inheritanceDefinitions DEFAULT_CONFIG 2
                  (objectSchema [("id", typedSchema "integer")]) "#/definitions/Base"
                  eq_refl eq_refl eq_refl eq_refl)).
Defined.

(** C1, as the specification has it, fails on the sample dictionary: the
    file of [Child] has no intersection with an object type and no member
    [x]; and when [Child] is requested before [Base], the batch has no
    record for [Base]. *)
Lemma inline_allOf_member_is_dropped :
  recordsOf (DTOGenerator.generate inheritanceDefinitions DEFAULT_CONFIG 2 ["Base"; "Child"])
  = Done [DTOGenerator.modelOutput DEFAULT_CONFIG 2 "Base"
            (objectSchema [("id", typedSchema "integer")]);
          childAlias]
  ∧ occursIn "&" (out_content childAlias) = false
  ∧ occursIn "x:" (out_content childAlias) = false
  ∧ occursIn "x?:" (out_content childAlias) = false
  ∧ recordsOf (DTOGenerator.generate inheritanceDefinitions DEFAULT_CONFIG 2
                 ["Child"; "Base"])
    = Done [childAlias].
Proof. repeat split; vm_compute; reflexivity. Qed.

(** C2 fails on the code.  The parent of a composed model is emitted inside
    the emission of the child, its record is dropped there and its name is
    marked as emitted: the records of a batch depend on whether the child
    or the parent comes first, and with them the output of a path pattern
    depends on the order of the paths. *)
Theorem emitted_records_depend_on_order :
  fileNamesOf (recordsOf (DTOGenerator.generate inheritanceDefinitions DEFAULT_CONFIG 2
                            ["Base"; "Child"]))
  = Done ["Base"; "Child"]
  ∧ fileNamesOf (recordsOf (DTOGenerator.generate inheritanceDefinitions DEFAULT_CONFIG 2
                              ["Child"; "Base"]))
    = Done ["Child"]
  ∧ APISpecParser.discoverModelPaths baseFirstDocument (Some "/shop/.*")
    = Done ["Base"; "Child"]
  ∧ APISpecParser.discoverModelPaths childFirstDocument (Some "/shop/.*")
    = Done ["Child"; "Base"]
  ∧ fileNamesOf (OpenAPICodeGenerator.generateForPathPattern DEFAULT_CONFIG
                   baseFirstDocument "/shop/.*")
    = Done ["Base"; "Child"; "BaseWebServiceRequest"; "ChildWebServiceRequest"]
  ∧ fileNamesOf (OpenAPICodeGenerator.generateForPathPattern DEFAULT_CONFIG
                   childFirstDocument "/shop/.*")
    = Done ["Child"; "ChildWebServiceRequest"; "BaseWebServiceRequest"].
Proof. repeat split; vm_compute; reflexivity. Qed.

(** ** Optionality of properties (C6) *)

Lemma isRequired_listed (definition : SchemaObject) (propName : string) :
  DTOGenerator.isRequired definition propName = true
  ↔ listedAsRequired definition propName.
Proof.
  unfold DTOGenerator.isRequired, listedAsRequired.
  destruct (s_required definition) as [required |].
  - rewrite existsb_exists. split.
    + intros (x & Hx & Heq). apply String.eqb_eq in Heq as <-.
      exists required. split; [reflexivity | by apply list_elem_of_In].
    + intros (req & [= <-] & Hin). exists propName.
      split; [by apply list_elem_of_In | apply String.eqb_refl].
  - split; [discriminate | intros (req & [=] & _)].
Qed.

(** C6.  A property of a model's schema is emitted as optional when it is
    listed in [required] and marked nullable, and when it is not listed in
    [required] (nullable or not); it is emitted as non-optional when it is
    listed in [required] and not marked nullable.  "Emitted": the property
    record the emitter collects carries the flag, and the member line with
    or without the question mark is in the text of the model file. *)
Theorem property_optionality (options : ConfigOptions) (indentSize : nat)
  (fileName : string) (definition : SchemaObject)
  (props : list (string * SchemaObject)) (entry : string * SchemaObject) :
  s_properties definition = Some props → entry ∈ props →
  let prop := propertyOf definition entry in
  prop ∈ DTOGenerator.col_properties (DTOGenerator.collectProperties definition)
  ∧ occursIn (memberLine (propertyName prop) (isOptional prop) (mp_type prop))
      (DTOGenerator.modelContent options indentSize fileName definition) = true
  ∧ memberLine (propertyName prop) true (mp_type prop)
    = propertyName prop +:+ "?: " +:+ mp_type prop +:+ ";"
  ∧ memberLine (propertyName prop) false (mp_type prop)
    = propertyName prop +:+ ": " +:+ mp_type prop +:+ ";"
  ∧ (listedAsRequired definition (fst entry) → markedNullable (snd entry) →
     isOptional prop = true)
  ∧ (¬ listedAsRequired definition (fst entry) → isOptional prop = true)
  ∧ (listedAsRequired definition (fst entry) → ¬ markedNullable (snd entry) →
     isOptional prop = false).
Proof.
  intros Hprops Hin prop. subst prop.
  split; [| split; [| split; [| split; [| split; [| split]]]]].
  - rewrite (collectProperties_properties definition props Hprops).
    apply list_elem_of_fmap. eauto.
  - apply (modelContent_member options indentSize fileName definition props entry
             Hprops Hin).
  - reflexivity.
  - reflexivity.
  - intros Hreq Hnull. apply isRequired_listed in Hreq.
    unfold propertyOf, markedNullable in *; simpl. rewrite Hreq, Hnull. reflexivity.
  - intros Hreq. unfold propertyOf; simpl.
    destruct (DTOGenerator.isRequired definition entry.1) eqn:E; [| reflexivity].
    by apply isRequired_listed in E.
  - intros Hreq Hnull. apply isRequired_listed in Hreq.
    unfold propertyOf, markedNullable in *; simpl. rewrite Hreq.
    destruct (s_nullable entry.2) as [[|] |]; [congruence | reflexivity | reflexivity].
Qed.

Lemma property_optionality_witness :
  occursIn "id: number;" (DTOGenerator.modelContent DEFAULT_CONFIG 2 "Account" accountSchema)
  = true
  ∧ occursIn "nickname?: string;"
      (DTOGenerator.modelContent DEFAULT_CONFIG 2 "Account" accountSchema) = true.
Proof.
  set (nickname := mkSchema (Some "string") None (Some true) None None None None None
                     None None None None).
  set (props := [("id", typedSchema "integer"); ("nickname", nickname);
                 ("note", typedSchema "string")]).
  assert (Hid : ("id", typedSchema "integer") ∈ props) by by left.
  assert (Hnick : ("nickname", nickname) ∈ props) by (right; by left).
  split.
  - exact (proj1 (proj2 (property_optionality DEFAULT_CONFIG 2 "Account" accountSchema
                           props ("id", typedSchema "integer") eq_refl Hid))).
  - exact (proj1 (proj2 (property_optionality DEFAULT_CONFIG 2 "Account" accountSchema
                           props ("nickname", nickname) eq_refl Hnick))).
Defined.

(** ** The response type of a read-style endpoint (C5) *)

Section RequestText.

Variable apiSpec : OpenAPIDocument.
Variable options : ConfigOptions.
Variable indentSize : nat.

Lemma classDeclaration_extends (name baseClass : string)
  (description : option string) :
  baseClass ≠ "" →
  CodeBuilder.classDeclaration
    (CodeBuilder.mkClassOptions name (Some true) (Some baseClass) None None None
       description None) +:+ " {"
  = classOpening name baseClass.
Proof.
  intros Hne. unfold CodeBuilder.classDeclaration, classOpening.
  destruct baseClass as [| c baseClass]; [congruence |].
  cbn [CodeBuilder.co_abstract CodeBuilder.co_exported CodeBuilder.co_name
         CodeBuilder.co_typeParams CodeBuilder.co_extends CodeBuilder.co_implements
         CodeBuilder.flag CodeBuilder.exportPrefix CodeBuilder.typeParamsSuffix
         JsString.truthy default from_option id].
  rewrite !append_nil, !append_empty_r, !append_assoc. reflexivity.
Qed.

Lemma extends_constructorMethod (verb basePath path : string) (b0 b : CodeBuilder.t) :
  extends b0 b → extends b0 (RequestCommon.constructorMethod verb basePath path b).
Proof.
  intros H. unfold RequestCommon.constructorMethod.
  apply extends_createMethod; [| exact H].
  intros body b' [= <-] Hb'. auto with builder.
Qed.

Lemma extends_generateSetupUrlMethod (endpoint : EndpointDefinition)
  (b0 b : CodeBuilder.t) :
  extends b0 b → extends b0 (GETRequestGenerator.generateSetupUrlMethod b endpoint).
Proof.
  intros H. unfold GETRequestGenerator.generateSetupUrlMethod.
  apply extends_createMethod; [| exact H].
  intros body b' [= <-] Hb'. apply extends_fold_left; [| exact Hb'].
  intros x b1 Hb1. case_match; auto with builder.
Qed.

(** The class of a read-style wrapper opens with the base class that
    [baseClass] computes. *)
Lemma wrote_generateRequestClass (endpoint : EndpointDefinition)
  (className basePath : string) (isPdf : bool) (b0 b : CodeBuilder.t) :
  extends b0 b →
  wrote
    (classOpening (className +:+ "WebServiceRequest")
       (RequestCommon.baseClass isPdf (head (ed_responseType endpoint))))
    b0
    (GETRequestGenerator.generateRequestClass options b endpoint className basePath isPdf).
Proof.
  intros Hb. unfold GETRequestGenerator.generateRequestClass. cbv zeta.
  apply wrote_then_appendLine, wrote_then_appendEmptyLine.
  unfold CodeBuilder.createClass.
  rewrite <- classDeclaration_extends
    with (description := Some ("Request class for " +:+ ed_path endpoint)).
  2: { unfold RequestCommon.baseClass. by destruct isPdf. }
  apply wrote_createBlock_opening.
  - intros body b1 b' [= <-] Hb'.
    destruct (GETRequestGenerator.hasParameters endpoint).
    + apply extends_generateSetupUrlMethod, extends_appendEmptyLine,
        extends_constructorMethod. auto with builder.
    + apply extends_appendEmptyLine, extends_constructorMethod. exact Hb'.
  - auto with builder.
Qed.

Lemma extends_generateQueryParamsInterface (endpoint : EndpointDefinition)
  (className : string) (b0 b : CodeBuilder.t) :
  extends b0 b →
  extends b0 (GETRequestGenerator.generateQueryParamsInterface b endpoint className).
Proof.
  intros H. unfold GETRequestGenerator.generateQueryParamsInterface.
  apply extends_appendEmptyLine, extends_createInterface; [| exact H].
  intros body b' [= <-] Hb'. apply extends_fold_left; [| exact Hb'].
  intros x b1 Hb1. case_match; auto with builder.
Qed.

Lemma buildOutput_class_opening (endpoint : EndpointDefinition) (basePath : string) :
  let className := modelName (getModelPathAndNameWith (ed_path endpoint) "/") in
  let isPdf := BaseGenerator.isPdfResponse (head (ed_responseType endpoint)) in
  ∃ output,
    GETRequestGenerator.buildOutput options indentSize endpoint basePath = Some output
    ∧ out_filename output = className +:+ "WebServiceRequest"
    ∧ occursIn
        (classOpening (className +:+ "WebServiceRequest")
           (RequestCommon.baseClass isPdf (head (ed_responseType endpoint))))
        (out_content output) = true.
Proof.
  intros className isPdf. eexists. split; [reflexivity |]. split; [reflexivity |].
  cbn [out_content CodeBuilder.build fst].
  eapply (wrote_occursIn _ (CodeBuilder.create indentSize)).
  apply wrote_generateRequestClass.
  destruct (GETRequestGenerator.hasParameters endpoint).
  - apply extends_generateQueryParamsInterface, extends_addImportStatements,
      extends_addFileHeader, extends_refl.
  - apply extends_addImportStatements, extends_addFileHeader, extends_refl.
Qed.

Lemma responseTypesOf_void (response : ResponseObject) :
  carriesNoSchema response →
  (BaseGenerator.isOpenApi3 apiSpec = true → resp_content response ≠ Some []) →
  head (RequestCommon.responseTypesOf apiSpec response) = Some "void".
Proof.
  intros [Hschema Hmedia] Hnonempty. unfold RequestCommon.responseTypesOf.
  rewrite Hschema.
  destruct (resp_content response) as [content |]; [| reflexivity].
  destruct (BaseGenerator.isOpenApi3 apiSpec); [| reflexivity].
  specialize (Hmedia content eq_refl).
  destruct content as [| [media schema] rest]; [by destruct Hnonempty |].
  apply Forall_cons in Hmedia as [Hfirst _]. simpl in *. by rewrite Hfirst.
Qed.

End RequestText.

(** C5, as the code has it.  When the first response of a read-style
    operation carries no schema (and, in a current-dialect document, its
    content map is not an empty object), the resolved response type is
    ["void"], and the wrapper class of the endpoint extends
    [JsonWebServiceRequest<any>]: the type parameter is there, set to
    [any]. *)
Theorem no_schema_response_is_void_and_any (apiSpec : OpenAPIDocument)
  (options : ConfigOptions) (indentSize : nat)
  (path basePath : string) (item : PathItemObject) (operation : OperationObject)
  (code : string) (response : ResponseObject) (rest : list (string * ResponseObject)) :
  op_responses operation = (code, response) :: rest →
  carriesNoSchema response →
  (BaseGenerator.isOpenApi3 apiSpec = true → resp_content response ≠ Some []) →
  let endpoint :=
    mkEndpoint path "get"
      (GETRequestGenerator.extractParameters apiSpec item operation)
      (GETRequestGenerator.extractResponseTypes apiSpec operation)
      (op_operationId operation) (op_summary operation) (op_description operation)
      None in
  let className := modelName (getModelPathAndNameWith path "/") in
  head (GETRequestGenerator.extractResponseTypes apiSpec operation) = Some "void"
  ∧ ∃ output,
      GETRequestGenerator.buildOutput options indentSize endpoint basePath = Some output
      ∧ out_filename output = className +:+ "WebServiceRequest"
      ∧ occursIn
          (classOpening (className +:+ "WebServiceRequest") "JsonWebServiceRequest<any>")
          (out_content output) = true.
Proof.
  intros Hresponses Hnone Hnonempty endpoint className.
  assert (Hvoid : head (GETRequestGenerator.extractResponseTypes apiSpec operation)
                  = Some "void").
  { unfold GETRequestGenerator.extractResponseTypes, RequestCommon.extractResponseTypes.
    rewrite Hresponses. cbn [flat_map snd].
    pose proof (responseTypesOf_void apiSpec response Hnone Hnonempty) as H.
    destruct (RequestCommon.responseTypesOf apiSpec response); [discriminate |].
    exact H. }
  split; [exact Hvoid |].
  destruct (buildOutput_class_opening options indentSize endpoint basePath)
    as (output & E & Hname & Hline).
  exists output. split; [exact E |]. split; [exact Hname |].
  cbn [ed_responseType ed_path endpoint] in Hline.
  subst endpoint. cbn [ed_responseType ed_path] in Hline.
  rewrite Hvoid in Hline. exact Hline.
Qed.

Lemma no_schema_response_is_void_and_any_witness :
  head (GETRequestGenerator.extractResponseTypes pingDocument pingOperation) = Some "void"
  ∧ ∃ output,
      GETRequestGenerator.buildOutput DEFAULT_CONFIG 2
        (mkEndpoint "/auth/Ping" "get"
           (GETRequestGenerator.extractParameters pingDocument (getPath pingOperation)
              pingOperation)
           (GETRequestGenerator.extractResponseTypes pingDocument pingOperation)
           None None None None)
        "/api" = Some output
      ∧ out_filename output = "PingWebServiceRequest"
      ∧ occursIn
          "export class PingWebServiceRequest extends JsonWebServiceRequest<any> {"
          (out_content output) = true.
Proof.
  apply (no_schema_response_is_void_and_any pingDocument DEFAULT_CONFIG 2
           "/auth/Ping" "/api" (getPath pingOperation) pingOperation
           "204" (mkResponse "No Content" None None) []).
  - reflexivity.
  - split; [reflexivity | discriminate].
  - discriminate.
Defined.

(** C5, as the specification has it, fails: the wrapper of an endpoint
    whose response has no schema does have a type parameter on its base
    class; and an empty content map in a current-dialect document makes the
    first response contribute no type at all, so that the type of a later
    response is taken. *)
Lemma void_response_keeps_type_parameter :
  fileNamesOf (GETRequestGenerator.generate pingDocument DEFAULT_CONFIG 2 ["/auth/Ping"])
  = Done ["PingWebServiceRequest"]
  ∧ (∀ output,
       GETRequestGenerator.generate pingDocument DEFAULT_CONFIG 2 ["/auth/Ping"]
       = Done [output] →
       occursIn "extends JsonWebServiceRequest<any> {" (out_content output) = true
       ∧ occursIn "extends JsonWebServiceRequest {" (out_content output) = false)
  ∧ Forall (λ kv, carriesNoSchema (snd kv)) (take 1 (op_responses emptyContentOperation))
  ∧ GETRequestGenerator.extractResponseTypes emptyContentDocument emptyContentOperation
    = ["Problem"].
Proof.
  split; [vm_compute; reflexivity |]. split; [| split].
  - intros output H. vm_compute in H. injection H as <-. split; vm_compute; reflexivity.
  - repeat constructor. intros content [= <-]. constructor.
  - vm_compute. reflexivity.
Qed.

(** ** The body-population routine of a write-style wrapper (C7) *)

Lemma appendLines_map {A : Type} (line : A → string) (items : list A)
  (b : CodeBuilder.t) :
  fold_left (λ b item, CodeBuilder.appendLine (line item) b) items b
  = CodeBuilder.appendLines (map line items) b.
Proof.
  unfold CodeBuilder.appendLines. revert b.
  induction items as [| item items IH]; intros b; simpl; [reflexivity | apply IH].
Qed.

(** The routine has one copy statement for each property of the payload
    schema, in the order of the schema, and none when the body type has no
    dictionary entry or no properties. *)
Lemma setupBody_statements (apiSpec : OpenAPIDocument) (requestBodyType : string)
  (b : CodeBuilder.t) :
  POSTRequestGenerator.generateSetupBodyMethod apiSpec b requestBodyType
  = CodeBuilder.createMethod POSTRequestGenerator.setupBodyOptions
      (Some (CodeBuilder.appendLines
               (map POSTRequestGenerator.setupBodyLine
                  (POSTRequestGenerator.bodyPropertyNames apiSpec requestBodyType))))
      b.
Proof.
  unfold POSTRequestGenerator.generateSetupBodyMethod, CodeBuilder.createMethod.
  cbn [CodeBuilder.mo_abstract POSTRequestGenerator.setupBodyOptions CodeBuilder.flag
         default from_option id].
  unfold CodeBuilder.createBlock. cbv beta.
  by rewrite appendLines_map.
Qed.

Lemma bodyPropertyNames_unresolved (apiSpec : OpenAPIDocument)
  (requestBodyType : string) :
  BaseGenerator.getDefinitions apiSpec !! requestBodyType = None →
  POSTRequestGenerator.bodyPropertyNames apiSpec requestBodyType = [].
Proof. intros H. unfold POSTRequestGenerator.bodyPropertyNames. by rewrite H. Qed.

(** C7 fails on the code.  The copy statement reads the field of the
    payload under the property's name as the schema spells it, while the
    model emitter declares the field under the sanitised name (and the
    read-style generator, in its URL routine, reads under the sanitised
    name): for a property with a dot in its name the two sets of names
    differ. *)
Theorem body_copy_reads_unsanitized_name :
  POSTRequestGenerator.bodyPropertyNames dottedDocument "NewUser" = ["user.name"]
  ∧ map propertyName
      (DTOGenerator.col_properties (DTOGenerator.collectProperties dottedSchema))
    = ["user_name"]
  ∧ occursIn "user_name?: string;"
      (DTOGenerator.modelContent DEFAULT_CONFIG 2 "NewUser" dottedSchema) = true
  ∧ fileNamesOf (POSTRequestGenerator.generate dottedDocument DEFAULT_CONFIG 2
                   ["/users/Create"])
    = Done ["CreateWebServiceRequest"]
  ∧ (∀ output,
       POSTRequestGenerator.generate dottedDocument DEFAULT_CONFIG 2 ["/users/Create"]
       = Done [output] →
       occursIn "this.setIfNotEmpty(body, 'user.name', this.data.user.name);"
         (out_content output) = true
       ∧ occursIn "this.data.user_name" (out_content output) = false)
  ∧ GETRequestGenerator.setupUrlLine
      (mkEndpointParameter "user.name" (inl "string") false None "query")
    = "this.appendIfNotEmpty(url, 'user.name', this.queryParams.user_name);".
Proof.
  repeat split; try (vm_compute; reflexivity);
    intros; match goal with H : _ = Done [_] |- _ =>
                vm_compute in H; injection H as <- end;
    vm_compute; reflexivity.
Qed.

(** ** The path filter (C8) *)

(** C8 fails on the code for patterns with an alternation at the top: the
    anchors are written around the text of the pattern, so [^] belongs to
    the first alternative and [$] to the last.  [/users/.*] selects
    [/users/123] and not [/admin/users/123], as the specification says; but
    [/users|/admin] selects [/users/123] and [/admin/users/123], which the
    pattern does not match as whole strings. *)
Theorem anchors_do_not_span_alternation :
  regexFilter "/users/123" "/users/.*" = Done true
  ∧ regexFilter "/admin/users/123" "/users/.*" = Done false
  ∧ wholeStringMatch "/users/123" "/users/.*" = Done true
  ∧ wholeStringMatch "/admin/users/123" "/users/.*" = Done false
  ∧ regexFilter "/users/123" "/users|/admin" = Done true
  ∧ wholeStringMatch "/users/123" "/users|/admin" = Done false
  ∧ regexFilter "/admin/users/123" "/users/123|/admin" = Done false
  ∧ regexFilter "/super/admin" "/users|/admin" = Done true
  ∧ wholeStringMatch "/super/admin" "/users|/admin" = Done false
  ∧ (selected ←! APISpecParser.pathsToProcess usersDocument (Some "/users|/admin");
     Done (map fst selected))
    = Done ["/users/123"; "/admin"].
Proof. repeat split; vm_compute; reflexivity. Qed.

(** ** The end-to-end scenario of the specification, as a check of the
    embedding *)

Example login_scenario :
  fileNamesOf (OpenAPICodeGenerator.generateForPathPattern DEFAULT_CONFIG
                 loginDocument "/auth/Login")
  = Done ["LoginRequest"; "LoginResponse"; "LoginWebServiceRequest"]
  ∧ POSTRequestGenerator.bodyPropertyNames loginDocument "LoginRequest"
    = ["username"; "password"]
  ∧ ∀ outputs,
      POSTRequestGenerator.generate loginDocument DEFAULT_CONFIG 2 ["/auth/Login"]
      = Done outputs →
      Forall (λ output,
                occursIn "this.setIfNotEmpty(body, 'username', this.data.username);"
                  (out_content output) = true
                ∧ occursIn "this.setIfNotEmpty(body, 'password', this.data.password);"
                    (out_content output) = true
                ∧ occursIn
                    "export class LoginWebServiceRequest extends JsonWebServiceRequest<LoginResponse> {"
                    (out_content output) = true)
        outputs.
Proof.
  split; [vm_compute; reflexivity |]. split; [vm_compute; reflexivity |].
  intros outputs H. vm_compute in H. injection H as <-.
  repeat constructor; vm_compute; reflexivity.
Qed.

(** The intersection with an object type is what the emitter writes when
    the composed schema declares the properties at its own top level. *)
Example sibling_properties_extend_the_intersection :
  let child :=
    mkSchema None None None None (Some [("x", typedSchema "string")]) None None None
      (Some [refSchema "#/definitions/Base"]) None None None in
  occursIn "export type Child = Base & {"
    (DTOGenerator.modelContent DEFAULT_CONFIG 2 "Child" child) = true
  ∧ occursIn "x?: string;" (DTOGenerator.modelContent DEFAULT_CONFIG 2 "Child" child) = true.
Proof. split; vm_compute; reflexivity. Qed.

(** * Further properties of the code *)

(** ** Single characters in strings *)

Lemma prefix_char (c x : ascii) (s : string) :
  String.prefix (String c "") (String x s) = Ascii.eqb c x.
Proof.
  cbn. destruct (ascii_dec c x) as [->|Hne].
  - rewrite Ascii.eqb_refl. by destruct s.
  - symmetry. by apply Ascii.eqb_neq.
Qed.

Lemma firstIndexFrom_shift (piece s : string) (i j : nat) :
  JsString.firstIndexFrom piece s j
  = option_map (λ k, k + j - i) (JsString.firstIndexFrom piece s i).
Proof.
  revert i j. induction s as [|x s IH]; intros i j.
  - rewrite !firstIndexFrom_unfold. destruct (String.prefix piece ""); cbn; f_equal; lia.
  - rewrite (firstIndexFrom_unfold piece (String x s) j),
      (firstIndexFrom_unfold piece (String x s) i).
    destruct (String.prefix piece (String x s)); cbn; [f_equal; lia|].
    rewrite (IH (S i) (S j)). destruct (JsString.firstIndexFrom piece s (S i)); cbn; f_equal; lia.
Qed.

Lemma includes_char_cons (c x : ascii) (s : string) :
  JsString.includes (String x s) (String c "")
  = Ascii.eqb c x || JsString.includes s (String c "").
Proof.
  unfold JsString.includes. rewrite firstIndexFrom_unfold, prefix_char.
  destruct (Ascii.eqb c x); [done|]. cbn.
  rewrite (firstIndexFrom_shift _ s 0 1).
  by destruct (JsString.firstIndexFrom (String c "") s 0).
Qed.



(** A string in which the character occurs splits at its last occurrence. *)
Lemma split_at_last_char (c : ascii) (s : string) :
  JsString.includes s (String c "") = true →
  ∃ pre post, s = pre +:+ String c post ∧ JsString.includes post (String c "") = false.
Proof.
  induction s as [|x s IH]; [done|].
  rewrite includes_char_cons. intros H.
  destruct (JsString.includes s (String c "")) eqn:Hs.
  - destruct (IH eq_refl) as (pre & post & -> & Hpost).
    exists (String x pre), post. by rewrite append_cons.
  - rewrite orb_false_r in H. apply Ascii.eqb_eq in H as <-.
    by exists "", s.
Qed.

Lemma lastIndexFrom_char_absent (c : ascii) (s : string) (i : nat) :
  JsString.includes s (String c "") = false →
  JsString.lastIndexFrom (String c "") s i = None.
Proof.
  revert i. induction s as [|x s IH]; intros i; [done|].
  rewrite includes_char_cons. intros [Hx Hs]%orb_false_iff.
  cbn [JsString.lastIndexFrom]. rewrite (IH _ Hs), prefix_char, Hx. done.
Qed.

Lemma lastIndexFrom_char_last (c : ascii) (pre post : string) (i : nat) :
  JsString.includes post (String c "") = false →
  JsString.lastIndexFrom (String c "") (pre +:+ String c post) i
  = Some (i + String.length pre).
Proof.
  intros Hpost. revert i. induction pre as [|x pre IH]; intros i.
  - rewrite append_nil. cbn [JsString.lastIndexFrom].
    rewrite (lastIndexFrom_char_absent _ _ _ Hpost), prefix_char, Ascii.eqb_refl.
    cbn. f_equal. lia.
  - rewrite append_cons. cbn [JsString.lastIndexFrom]. rewrite IH.
    cbn. f_equal. lia.
Qed.

Lemma length_append (a b : string) :
  String.length (a +:+ b) = String.length a + String.length b.
Proof.
  induction a as [|x a IH]; [by rewrite append_nil|].
  rewrite append_cons. cbn. by rewrite IH.
Qed.

Lemma substring_whole (s : string) : String.substring 0 (String.length s) s = s.
Proof. induction s as [|x s IH]; [done|]. cbn. by rewrite IH. Qed.

Lemma substring_tail (pre post : string) :
  String.substring (String.length pre) (String.length post) (pre +:+ post) = post.
Proof.
  induction pre as [|x pre IH].
  - rewrite append_nil. apply substring_whole.
  - rewrite append_cons. cbn. apply IH.
Qed.

Lemma substring_head (pre post : string) :
  String.substring 0 (String.length pre) (pre +:+ post) = pre.
Proof.
  induction pre as [|x pre IH].
  - rewrite append_nil. by destruct post.
  - rewrite append_cons. cbn. by rewrite IH.
Qed.

Lemma js_substring_from (pre post : string) :
  JsString.substring (pre +:+ post) (Z.of_nat (String.length pre)) None = post.
Proof.
  unfold JsString.substring. rewrite length_append.
  replace (Z.to_nat _) with (String.length pre) by lia.
  replace (Z.to_nat _) with (String.length post) by lia.
  apply substring_tail.
Qed.

Lemma js_substring_to (pre post : string) :
  JsString.substring (pre +:+ post) 0 (Some (Z.of_nat (String.length pre))) = pre.
Proof.
  unfold JsString.substring. rewrite length_append.
  replace (Z.to_nat _) with 0 by lia.
  replace (Z.to_nat _) with (String.length pre) by lia.
  apply substring_head.
Qed.

Lemma js_substring_all (s : string) : JsString.substring s 0 None = s.
Proof.
  unfold JsString.substring.
  replace (Z.to_nat _) with 0 by lia.
  replace (Z.to_nat _) with (String.length s) by lia.
  apply substring_whole.
Qed.

Lemma lastIndexOf_char_absent (c : ascii) (s : string) :
  JsString.includes s (String c "") = false →
  JsString.lastIndexOf s (String c "") = (-1)%Z.
Proof.
  intros H. unfold JsString.lastIndexOf. by rewrite lastIndexFrom_char_absent.
Qed.

Lemma lastIndexOf_char_last (c : ascii) (pre post : string) :
  JsString.includes post (String c "") = false →
  JsString.lastIndexOf (pre +:+ String c post) (String c "")
  = Z.of_nat (String.length pre).
Proof.
  intros H. unfold JsString.lastIndexOf. by rewrite lastIndexFrom_char_last.
Qed.

Lemma afterLastSlash_plain (name : string) :
  JsString.includes name "/" = false → afterLastSlash name = name.
Proof.
  intros H. unfold afterLastSlash. rewrite (lastIndexOf_char_absent "/" _ H).
  apply js_substring_all.
Qed.

Lemma afterLastSlash_leaf (pre name : string) :
  JsString.includes name "/" = false →
  afterLastSlash (pre +:+ "/" +:+ name) = name.
Proof.
  intros H. unfold afterLastSlash.
  change (pre +:+ "/" +:+ name) with (pre +:+ String "/" ("" +:+ name)).
  rewrite append_nil, (lastIndexOf_char_last "/" pre name H).
  replace (pre +:+ String "/" name) with ((pre +:+ "/") +:+ name).
  2:{ rewrite append_assoc. f_equal. }
  replace (Z.of_nat (String.length pre) + 1)%Z
    with (Z.of_nat (String.length (pre +:+ "/"))).
  2:{ rewrite length_append. cbn. lia. }
  apply js_substring_from.
Qed.

Lemma afterLastSlash_no_slash (ref : string) :
  JsString.includes (afterLastSlash ref) "/" = false.
Proof.
  destruct (JsString.includes ref "/") eqn:H.
  - destruct (split_at_last_char "/" ref H) as (pre & post & -> & Hpost).
    change (pre +:+ String "/" post) with (pre +:+ "/" +:+ ("" +:+ post)).
    rewrite append_nil. by rewrite afterLastSlash_leaf.
  - by rewrite afterLastSlash_plain.
Qed.

(** X2 (src/builder/APISpecParser.ts, [extractRefName]): the name taken out
    of a reference is what follows its last slash.  A reference without a
    slash is its own name, a reference that ends in [/name] with a
    slash-free [name] gives [name] back whatever precedes it, and the name
    never contains a slash. *)
Theorem extractRefName_is_the_leaf (ref pre name : string) :
  JsString.includes name "/" = false →
  APISpecParser.extractRefName name = name
  ∧ APISpecParser.extractRefName (pre +:+ "/" +:+ name) = name
  ∧ JsString.includes (APISpecParser.extractRefName ref) "/" = false.
Proof.
  intros H. unfold APISpecParser.extractRefName.
  auto using afterLastSlash_plain, afterLastSlash_leaf, afterLastSlash_no_slash.
Qed.

Lemma extractRefName_is_the_leaf_witness :
  APISpecParser.extractRefName "#/components/schemas/Ns.Model" = "Ns.Model".
Proof.
  exact (proj1 (proj2 (extractRefName_is_the_leaf "" "#/components/schemas" "Ns.Model"
                         eq_refl))).
Defined.

(** ** [getModelPathAndName] *)

(** X3 (src/utils/path.ts, [getModelPathAndName]): for a name that is not a
    collection type, the split is at the last divider.  Without a divider
    the path is empty and the name is the whole input; otherwise path,
    divider and name put together give the input back, and the name holds
    no divider. *)
Theorem getModelPathAndName_splits_at_last_divider (model : string) (divider : ascii) :
  JsString.includes model "System.Collections.Generic.IEnumerable" = false →
  let result := getModelPathAndNameWith model (String divider "") in
  JsString.includes (modelName result) (String divider "") = false
  ∧ (JsString.includes model (String divider "") = false →
     modelPath result = "" ∧ modelName result = model)
  ∧ (JsString.includes model (String divider "") = true →
     modelPath result +:+ String divider (modelName result) = model).
Proof.
  intros Hplain result. subst result. unfold getModelPathAndNameWith.
  rewrite Hplain.
  destruct (JsString.includes model (String divider "")) eqn:Hdiv.
  - destruct (split_at_last_char divider model Hdiv) as (pre & post & -> & Hpost).
    rewrite (lastIndexOf_char_last divider pre post Hpost).
    destruct (Z.eqb_spec (Z.of_nat (String.length pre)) (-1)) as [?|_]; [lia|].
    cbn [modelPath modelName].
    replace (JsString.substring (pre +:+ String divider post)
               (Z.of_nat (String.length pre) + 1) None) with post.
    2:{ replace (pre +:+ String divider post)
          with ((pre +:+ String divider "") +:+ post).
        2:{ rewrite append_assoc. f_equal. }
        replace (Z.of_nat (String.length pre) + 1)%Z
          with (Z.of_nat (String.length (pre +:+ String divider ""))).
        2:{ rewrite length_append. cbn. lia. }
        by rewrite js_substring_from. }
    rewrite js_substring_to. done.
  - rewrite (lastIndexOf_char_absent divider model Hdiv). cbn. done.
Qed.

Lemma getModelPathAndName_splits_at_last_divider_witness :
  modelPath (getModelPathAndName "Company.Sales.Order") +:+ "." +:+
    modelName (getModelPathAndName "Company.Sales.Order")
  = "Company.Sales.Order".
Proof.
  exact (proj2 (proj2 (getModelPathAndName_splits_at_last_divider
                         "Company.Sales.Order" "." eq_refl)) eq_refl).
Defined.

(** ** [replaceAll] of one character by another *)

Lemma rev_string_cons (c : ascii) (cur : list ascii) (s : string) :
  JsString.rev_string (c :: cur) +:+ s = JsString.rev_string cur +:+ String c s.
Proof.
  unfold JsString.rev_string. cbn [rev].
  induction (rev cur) as [|x l IH]; [done|].
  cbn [app string_of_list_ascii]. by rewrite !append_cons, IH.
Qed.

Lemma splitAux_nonempty (sep s : string) (skip : nat) (cur : list ascii) :
  JsString.splitAux sep s skip cur ≠ [].
Proof.
  revert skip cur. induction s as [|x s IH]; intros skip cur; [done|].
  cbn [JsString.splitAux]. destruct skip; [|apply IH].
  destruct (String.prefix sep (String x s)); [done|apply IH].
Qed.

Lemma concat_cons (sep x : string) (l : list string) :
  l ≠ [] → String.concat sep (x :: l) = x +:+ sep +:+ String.concat sep l.
Proof. by destruct l. Qed.

Lemma join_splitAux_char (c d : ascii) (s : string) (cur : list ascii) :
  JsString.join (JsString.splitAux (String c "") s 0 cur) (String d "")
  = JsString.rev_string cur +:+ JsString.mapChars (replaceChar c d) s.
Proof.
  revert cur. induction s as [|x s IH]; intros cur.
  - cbn. by rewrite append_empty_r.
  - cbn [JsString.splitAux JsString.mapChars]. rewrite prefix_char.
    unfold replaceChar at 1. rewrite (Ascii.eqb_sym x c).
    destruct (Ascii.eqb c x) eqn:Hx.
    + unfold JsString.join. rewrite concat_cons by apply splitAux_nonempty.
      cbn [String.length Nat.sub].
      fold (JsString.join (JsString.splitAux (String c "") s 0 []) (String d "")).
      rewrite IH. unfold JsString.rev_string at 2. cbn [rev string_of_list_ascii].
      rewrite append_nil. by rewrite append_cons, append_nil.
    + rewrite IH. apply rev_string_cons.
Qed.

Lemma replaceAll_char (c d : ascii) (text : string) :
  replaceAll text (String c "") (String d "")
  = JsString.mapChars (replaceChar c d) text.
Proof.
  unfold replaceAll, JsString.split. rewrite join_splitAux_char.
  apply append_nil.
Qed.

Lemma mapChars_length (f : ascii → ascii) (s : string) :
  String.length (JsString.mapChars f s) = String.length s.
Proof. induction s as [|x s IH]; [done|]. cbn. by rewrite IH. Qed.

Lemma mapChars_replaceChar_free (c d : ascii) (s : string) :
  c ≠ d → JsString.includes (JsString.mapChars (replaceChar c d) s) (String c "") = false.
Proof.
  intros Hne. induction s as [|x s IH]; [done|].
  cbn [JsString.mapChars]. rewrite includes_char_cons, IH, orb_false_r.
  unfold replaceChar. destruct (Ascii.eqb x c) eqn:Hx.
  - by apply Ascii.eqb_neq.
  - by rewrite Ascii.eqb_sym.
Qed.

Lemma mapChars_replaceChar_id (c d : ascii) (s : string) :
  JsString.includes s (String c "") = false →
  JsString.mapChars (replaceChar c d) s = s.
Proof.
  induction s as [|x s IH]; [done|].
  rewrite includes_char_cons. intros [Hx Hs]%orb_false_iff.
  cbn [JsString.mapChars]. rewrite (IH Hs). unfold replaceChar.
  by rewrite Ascii.eqb_sym, Hx.
Qed.

(** X1 (src/utils/string.ts, [sanitizePropertyName] and [replaceAll]): the
    sanitised name is the name with every dot turned into an underscore,
    character by character.  So it has the length of the name and no dot,
    sanitising twice changes nothing more, and a name without a dot is
    kept as it is. *)
Theorem sanitizePropertyName_replaces_each_dot (name : string) :
  sanitizePropertyName name
  = JsString.mapChars (λ c, if Ascii.eqb c "." then "_"%char else c) name
  ∧ String.length (sanitizePropertyName name) = String.length name
  ∧ JsString.includes (sanitizePropertyName name) "." = false
  ∧ sanitizePropertyName (sanitizePropertyName name) = sanitizePropertyName name
  ∧ (JsString.includes name "." = false → sanitizePropertyName name = name).
Proof.
  unfold sanitizePropertyName.
  rewrite !(replaceAll_char "." "_").
  split; [done|]. split; [apply mapChars_length|].
  split; [by apply mapChars_replaceChar_free|].
  split.
  - apply mapChars_replaceChar_id.
    by apply mapChars_replaceChar_free.
  - apply mapChars_replaceChar_id.
Qed.

(** ** Patterns made of plain characters, and the default pattern *)

Lemma list_ascii_of_string_append (a b : string) :
  list_ascii_of_string (a +:+ b) = list_ascii_of_string a ++ list_ascii_of_string b.
Proof.
  induction a as [|x a IH]; [by rewrite append_nil|].
  rewrite append_cons. cbn. by rewrite IH.
Qed.

Lemma parseLoop_plain (c : ascii) (rest : list ascii) (top : RegExp.Frame)
  (stack : list RegExp.Frame) :
  RegExp.isSyntaxChar c = false →
  RegExp.parseLoop (c :: rest) top stack
  = RegExp.parseLoop rest (RegExp.pushTerm top (RegExp.RChar c) RegExp.KAtom) stack.
Proof.
  unfold RegExp.isSyntaxChar. cbn [existsb]. intros H.
  repeat (apply orb_false_iff in H; destruct H as [? H]).
  cbn [RegExp.parseLoop existsb].
  repeat match goal with E : Ascii.eqb c _ = false |- _ => rewrite E; clear E end.
  reflexivity.
Qed.

Lemma parseLoop_plain_run (lits rest : list ascii) (top : RegExp.Frame)
  (stack : list RegExp.Frame) :
  Forall (λ c, RegExp.isSyntaxChar c = false) lits →
  RegExp.parseLoop (lits ++ rest) top stack
  = RegExp.parseLoop rest
      (RegExp.mkFrame (RegExp.alts top)
         (rev (map (λ c, (RegExp.RChar c, RegExp.KAtom)) lits) ++ RegExp.cur top))
      stack.
Proof.
  intros H. revert top. induction H as [|c lits Hc _ IH]; intros top.
  - by destruct top.
  - cbn [app]. rewrite (parseLoop_plain _ _ _ _ Hc), IH.
    cbn [RegExp.pushTerm RegExp.alts RegExp.cur map rev]. by rewrite <- app_assoc.
Qed.

Lemma closeAlternative_chars (lits : list ascii) (acc : RegExp.Regex) :
  acc ≠ RegExp.REmpty →
  fold_left (λ acc t, match acc with
                      | RegExp.REmpty => fst t
                      | _ => RegExp.RSeq (fst t) acc
                      end)
    (rev (map (λ c, (RegExp.RChar c, RegExp.KAtom)) lits)) acc
  = fold_right (λ c r, RegExp.RSeq (RegExp.RChar c) r) acc lits.
Proof.
  induction lits as [|c lits IH]; intros Hacc; [done|].
  cbn [map rev fold_right]. rewrite fold_left_app, IH by done. cbn.
  by destruct (fold_right _ acc lits) eqn:E; try done; destruct lits.
Qed.

Lemma matcher_chars (lits : list ascii) (i : nat) (s : list ascii) :
  RegExp.matcher (fold_right (λ c r, RegExp.RSeq (RegExp.RChar c) r) RegExp.REol lits)
    i s (λ _ _, true)
  = bool_decide (s = lits).
Proof.
  revert i s. induction lits as [|c lits IH]; intros i s.
  - by destruct s.
  - cbn [fold_right RegExp.matcher]. destruct s as [|x s]; [done|].
    destruct (Ascii.eqb x c) eqn:Hx.
    + apply Ascii.eqb_eq in Hx as ->. rewrite IH.
      apply bool_decide_ext. split; [by intros ->|by intros [= ->]].
    + apply Ascii.eqb_neq in Hx. symmetry. apply bool_decide_eq_false.
      by intros [= ? ?].
Qed.

Lemma searchFrom_anchored (r : RegExp.Regex) (i : nat) (s : list ascii) :
  RegExp.searchFrom (RegExp.RSeq RegExp.RBol r) (S i) s = false.
Proof.
  revert i. induction s as [|x s IH]; intros i; [done|].
  cbn [RegExp.searchFrom RegExp.matcher Nat.eqb orb]. apply IH.
Qed.

Lemma test_anchored (r : RegExp.Regex) (text : string) :
  RegExp.test (RegExp.RSeq RegExp.RBol r) text
  = RegExp.matcher r 0 (list_ascii_of_string text) (λ _ _, true).
Proof.
  unfold RegExp.test. destruct (list_ascii_of_string text) as [|x s].
  - cbn. apply orb_false_r.
  - cbn [RegExp.searchFrom RegExp.matcher Nat.eqb]. rewrite searchFrom_anchored.
    apply orb_false_r.
Qed.

Lemma compile_plain (pattern : string) :
  Forall (λ c, RegExp.isSyntaxChar c = false) (list_ascii_of_string pattern) →
  RegExp.compile ("^" +:+ pattern +:+ "$")
  = Done (RegExp.RSeq RegExp.RBol
            (fold_right (λ c r, RegExp.RSeq (RegExp.RChar c) r) RegExp.REol
               (list_ascii_of_string pattern))).
Proof.
  intros H. unfold RegExp.compile. rewrite !list_ascii_of_string_append.
  change (list_ascii_of_string "^") with ["^"%char].
  change (list_ascii_of_string "$") with ["$"%char].
  cbn [app]. cbn [RegExp.parseLoop Ascii.eqb Bool.eqb]. cbn [RegExp.pushTerm].
  rewrite (parseLoop_plain_run _ _ _ _ H).
  cbn [RegExp.parseLoop Ascii.eqb Bool.eqb existsb RegExp.alts RegExp.cur RegExp.emptyFrame
         RegExp.pushTerm].
  unfold RegExp.closeFrame, RegExp.closeAlternative.
  cbn [RegExp.pushTerm RegExp.alts RegExp.cur fold_left fst].
  rewrite fold_left_app, closeAlternative_chars by done.
  cbn [fold_left fst].
  by destruct (list_ascii_of_string pattern).
Qed.

Lemma list_ascii_of_string_inj (a b : string) :
  list_ascii_of_string a = list_ascii_of_string b → a = b.
Proof.
  intros H. rewrite <- (string_of_list_ascii_of_string a),
    <- (string_of_list_ascii_of_string b). by rewrite H.
Qed.

(** X4 (src/utils/string.ts, [regexFilter]): a pattern in which no
    character has a meaning in a regular expression selects the path that
    is equal to it and no other path. *)
Theorem plain_pattern_selects_the_equal_path (text pattern : string) :
  Forall (λ c, RegExp.isSyntaxChar c = false) (list_ascii_of_string pattern) →
  regexFilter text pattern = Done (String.eqb text pattern).
Proof.
  intros H. unfold regexFilter. rewrite (compile_plain _ H). cbn [obind].
  rewrite test_anchored, matcher_chars. f_equal.
  destruct (String.eqb_spec text pattern) as [->|Hne].
  - by apply bool_decide_eq_true.
  - apply bool_decide_eq_false. intros E. by apply Hne, list_ascii_of_string_inj.
Qed.

Lemma plain_pattern_selects_the_equal_path_witness :
  regexFilter "/users/GetUserById" "/users/GetUser" = Done false.
Proof.
  apply (plain_pattern_selects_the_equal_path "/users/GetUserById" "/users/GetUser").
  vm_compute. repeat constructor.
Defined.





(** ** The source assembly service: indentation and layout *)

Lemma sameIndentation_refl (b : CodeBuilder.t) : sameIndentation b b.
Proof. done. Qed.

Lemma sameIndentation_appendLine (line : string) (b0 b : CodeBuilder.t) :
  sameIndentation b0 b → sameIndentation b0 (CodeBuilder.appendLine line b).
Proof. done. Qed.

Lemma sameIndentation_appendEmptyLine (b0 b : CodeBuilder.t) :
  sameIndentation b0 b → sameIndentation b0 (CodeBuilder.appendEmptyLine b).
Proof. done. Qed.

Lemma sameIndentation_fold_left {A : Type} (f : CodeBuilder.t → A → CodeBuilder.t)
  (l : list A) (b0 b : CodeBuilder.t) :
  (∀ x b', sameIndentation b0 b' → sameIndentation b0 (f b' x)) →
  sameIndentation b0 b → sameIndentation b0 (fold_left f l b).
Proof. intros Hf. revert b. induction l as [|x l IH]; intros b Hb; cbn; auto. Qed.

Lemma sameIndentation_appendLines (lines : list string) (b0 b : CodeBuilder.t) :
  sameIndentation b0 b → sameIndentation b0 (CodeBuilder.appendLines lines b).
Proof.
  intros. apply sameIndentation_fold_left; auto using sameIndentation_appendLine.
Qed.

Lemma sameIndentation_createJSDocBlock (description : CodeBuilder.Description)
  (tags : option (list CodeBuilder.Tag)) (b0 b : CodeBuilder.t) :
  sameIndentation b0 b →
  sameIndentation b0 (CodeBuilder.createJSDocBlock description tags b).
Proof.
  intros H. unfold CodeBuilder.createJSDocBlock.
  apply sameIndentation_appendLine.
  assert (sameIndentation b0
            (if CodeBuilder.descriptionGiven description
             then
               if CodeBuilder.tagsGiven tags
                  && (0 <? length (CodeBuilder.descLines description))
               then CodeBuilder.appendLine " *"
                      (fold_left (λ b line, CodeBuilder.appendLine (" * " +:+ line) b)
                         (CodeBuilder.descLines description)
                         (CodeBuilder.appendLine "/**" b))
               else fold_left (λ b line, CodeBuilder.appendLine (" * " +:+ line) b)
                      (CodeBuilder.descLines description)
                      (CodeBuilder.appendLine "/**" b)
             else CodeBuilder.appendLine "/**" b)) as Hdesc.
  { destruct (CodeBuilder.descriptionGiven description);
      [|by apply sameIndentation_appendLine].
    destruct (_ && _); [apply sameIndentation_appendLine|];
      apply sameIndentation_fold_left; auto using sameIndentation_appendLine. }
  destruct (CodeBuilder.tagsGiven tags); [|exact Hdesc].
  apply sameIndentation_fold_left; auto using sameIndentation_appendLine.
Qed.

Lemma sameIndentation_describe (description : option string) (b0 b : CodeBuilder.t) :
  sameIndentation b0 b → sameIndentation b0 (CodeBuilder.describe description b).
Proof.
  intros. unfold CodeBuilder.describe.
  destruct (JsString.truthy _); auto using sameIndentation_createJSDocBlock.
Qed.

Lemma sameIndentation_decorate (decorators : option (list string)) (b0 b : CodeBuilder.t) :
  sameIndentation b0 b → sameIndentation b0 (CodeBuilder.decorate decorators b).
Proof.
  intros. unfold CodeBuilder.decorate. destruct decorators as [[|d l]|]; auto.
  apply sameIndentation_fold_left; auto using sameIndentation_appendLine.
Qed.

Lemma sameIndentation_createImports (imports : list CodeBuilder.ImportSpec)
  (b0 b : CodeBuilder.t) :
  sameIndentation b0 b → sameIndentation b0 (CodeBuilder.createImports imports b).
Proof.
  intros. unfold CodeBuilder.createImports. destruct imports; auto.
  apply sameIndentation_appendEmptyLine, sameIndentation_fold_left;
    auto using sameIndentation_appendLine.
Qed.

Lemma sameIndentation_createBlock (openingLine : string)
  (bodyContent : option CodeBuilder.Body) (b0 b : CodeBuilder.t) :
  bodyKeepsIndentation bodyContent →
  sameIndentation b0 b →
  sameIndentation b0 (CodeBuilder.createBlock openingLine bodyContent b).
Proof.
  intros Hbody [Hlevel Hstring]. unfold CodeBuilder.createBlock.
  set (b1 := CodeBuilder.indentBy 1 (CodeBuilder.appendLine (openingLine +:+ " {") b)).
  assert (sameIndentation b1
            (match bodyContent with Some body => body b1 | None => b1 end)) as [H1 H2].
  { destruct bodyContent as [body|]; [by apply Hbody|done]. }
  split; cbn; rewrite ?H1, ?H2; subst b1; cbn; [lia|done].
Qed.

(** X6 (src/builder/CodeBuilder.ts): the indentation is balanced.  Every
    method that writes text leaves the indentation level and the
    indentation unit as it found them; a block, class, method or interface
    does so whenever its body callback does, because the level it raises
    before the body is lowered again after it. *)
Theorem declarations_keep_the_indentation :
  (∀ line, keepsIndentation (CodeBuilder.appendLine line))
  ∧ (∀ lines, keepsIndentation (CodeBuilder.appendLines lines))
  ∧ keepsIndentation CodeBuilder.appendEmptyLine
  ∧ (∀ description tags, keepsIndentation (CodeBuilder.createJSDocBlock description tags))
  ∧ (∀ lines, keepsIndentation (CodeBuilder.createCommentBlock lines))
  ∧ (∀ text, keepsIndentation (CodeBuilder.createComment text))
  ∧ keepsIndentation CodeBuilder.createFileHeader
  ∧ (∀ imports, keepsIndentation (CodeBuilder.createImports imports))
  ∧ (∀ options, keepsIndentation (CodeBuilder.createProperty options))
  ∧ (∀ options, keepsIndentation (CodeBuilder.createInterfaceProperty options))
  ∧ (∀ options, keepsIndentation (CodeBuilder.createTypeAlias options))
  ∧ (∀ openingLine bodyContent, bodyKeepsIndentation bodyContent →
       keepsIndentation (CodeBuilder.createBlock openingLine bodyContent))
  ∧ (∀ options bodyContent, bodyKeepsIndentation bodyContent →
       keepsIndentation (CodeBuilder.createClass options bodyContent))
  ∧ (∀ options bodyContent, bodyKeepsIndentation bodyContent →
       keepsIndentation (CodeBuilder.createMethod options bodyContent))
  ∧ (∀ options bodyContent, bodyKeepsIndentation bodyContent →
       keepsIndentation (CodeBuilder.createInterface options bodyContent)).
Proof.
  repeat split_and; try (intros; intros b).
  - by apply sameIndentation_appendLine.
  - by apply sameIndentation_appendLines.
  - by apply sameIndentation_appendEmptyLine.
  - by apply sameIndentation_createJSDocBlock.
  - unfold CodeBuilder.createCommentBlock. destruct lines; [done|].
    apply sameIndentation_appendLine, sameIndentation_fold_left;
      auto using sameIndentation_appendLine, sameIndentation_refl.
  - unfold CodeBuilder.createComment. by apply sameIndentation_appendLine.
  - unfold CodeBuilder.createFileHeader. by apply sameIndentation_createJSDocBlock.
  - by apply sameIndentation_createImports.
  - unfold CodeBuilder.createProperty.
    by apply sameIndentation_appendLine, sameIndentation_decorate,
      sameIndentation_describe.
  - unfold CodeBuilder.createInterfaceProperty.
    by apply sameIndentation_appendLine, sameIndentation_describe.
  - unfold CodeBuilder.createTypeAlias.
    by apply sameIndentation_appendEmptyLine, sameIndentation_appendLine,
      sameIndentation_describe.
  - by apply sameIndentation_createBlock.
  - unfold CodeBuilder.createClass.
    by apply sameIndentation_createBlock, sameIndentation_decorate,
      sameIndentation_describe.
  - unfold CodeBuilder.createMethod.
    destruct (CodeBuilder.flag _); destruct (_ || _);
      auto using sameIndentation_appendLine, sameIndentation_createBlock,
        sameIndentation_createJSDocBlock, sameIndentation_refl.
  - unfold CodeBuilder.createInterface.
    by apply sameIndentation_createBlock, sameIndentation_describe.
Qed.

Lemma declarations_keep_the_indentation_witness :
  keepsIndentation
    (CodeBuilder.createClass
       (CodeBuilder.mkClassOptions "Order" None None None None None None None)
       (Some (CodeBuilder.appendLine "id: number;"))).
Proof.
  apply (proj1 (proj2 (proj2 (proj2 (proj2 (proj2 (proj2 (proj2 (proj2 (proj2 (proj2
           (proj2 (proj2 declarations_keep_the_indentation))))))))))))).
  intros body [= <-]. apply (proj1 declarations_keep_the_indentation).
Defined.

Lemma onlyAppends_body (bodyContent : option CodeBuilder.Body) (b0 : CodeBuilder.t) :
  bodyOnlyAppends bodyContent →
  ∀ body b', bodyContent = Some body → extends b0 b' → extends b0 (body b').
Proof.
  intros Hbody body b' Hsome Hb'. eapply extends_trans; [exact Hb'|].
  by apply Hbody.
Qed.

(** X7 (src/builder/CodeBuilder.ts): text that was written is never
    changed.  After any writing method the buffer is the buffer before
    with more text after it; a block, class, method or interface has this
    property whenever its body callback has it.  Only [reset], and [build]
    through it, empty the buffer. *)
Theorem builder_methods_only_append :
  (∀ line, onlyAppends (CodeBuilder.appendLine line))
  ∧ (∀ lines, onlyAppends (CodeBuilder.appendLines lines))
  ∧ onlyAppends CodeBuilder.appendEmptyLine
  ∧ (∀ count, onlyAppends (CodeBuilder.indentBy count))
  ∧ (∀ level, onlyAppends (CodeBuilder.setIndentLevel level))
  ∧ (∀ description tags, onlyAppends (CodeBuilder.createJSDocBlock description tags))
  ∧ (∀ lines, onlyAppends (CodeBuilder.createCommentBlock lines))
  ∧ (∀ text, onlyAppends (CodeBuilder.createComment text))
  ∧ onlyAppends CodeBuilder.createFileHeader
  ∧ (∀ imports, onlyAppends (CodeBuilder.createImports imports))
  ∧ (∀ options, onlyAppends (CodeBuilder.createProperty options))
  ∧ (∀ options, onlyAppends (CodeBuilder.createInterfaceProperty options))
  ∧ (∀ options, onlyAppends (CodeBuilder.createTypeAlias options))
  ∧ (∀ openingLine bodyContent, bodyOnlyAppends bodyContent →
       onlyAppends (CodeBuilder.createBlock openingLine bodyContent))
  ∧ (∀ options bodyContent, bodyOnlyAppends bodyContent →
       onlyAppends (CodeBuilder.createClass options bodyContent))
  ∧ (∀ options bodyContent, bodyOnlyAppends bodyContent →
       onlyAppends (CodeBuilder.createMethod options bodyContent))
  ∧ (∀ options bodyContent, bodyOnlyAppends bodyContent →
       onlyAppends (CodeBuilder.createInterface options bodyContent))
  ∧ (∀ b, fst (CodeBuilder.build b) = CodeBuilder.content b
          ∧ CodeBuilder.content (snd (CodeBuilder.build b)) = ""
          ∧ CodeBuilder.indentLevel (snd (CodeBuilder.build b)) = 0).
Proof.
  repeat split_and; try (intros; intros b); auto with builder.
  - exists "". by rewrite append_empty_r.
  - unfold CodeBuilder.createCommentBlock. destruct lines; [apply extends_refl|].
    apply extends_appendLine, extends_fold_left; auto with builder.
  - unfold CodeBuilder.createComment. auto with builder.
  - apply extends_createBlock; [by apply onlyAppends_body|apply extends_refl].
  - apply extends_createClass; [by apply onlyAppends_body|apply extends_refl].
  - apply extends_createMethod; [by apply onlyAppends_body|apply extends_refl].
  - apply extends_createInterface; [by apply onlyAppends_body|apply extends_refl].
Qed.

Lemma appendLines_content (lines : list string) (b : CodeBuilder.t) (level : nat) :
  CodeBuilder.indentLevel b = level →
  CodeBuilder.content (CodeBuilder.appendLines lines b)
  = CodeBuilder.content b +:+ String.concat "" (map (lineAt b level) lines).
Proof.
  intros <-. revert b. induction lines as [|line lines IH]; intros b.
  - cbn. by rewrite append_empty_r.
  - unfold CodeBuilder.appendLines in *. cbn [fold_left map].
    rewrite IH. cbn [CodeBuilder.appendLine CodeBuilder.content CodeBuilder.indentLevel
                        CodeBuilder.indentString].
    rewrite append_assoc. f_equal.
    unfold lineAt at 3. cbn [CodeBuilder.indentString CodeBuilder.indentLevel].
    destruct lines as [|l2 lines]; cbn [map String.concat].
    + by rewrite append_empty_r.
    + rewrite append_nil. reflexivity.
Qed.

(** X8 (src/builder/CodeBuilder.ts, [createBlock] with [appendLine],
    [appendLines] and [indentBy]): the layout of a block.  The opening line
    followed by an opening brace and the closing brace are written at the
    current level, each line of the body one level deeper, every line ends
    in a line feed, and the level afterwards is the level before. *)
Theorem block_body_is_one_level_deeper (openingLine : string) (lines : list string)
  (b : CodeBuilder.t) :
  let level := CodeBuilder.indentLevel b in
  let after :=
    CodeBuilder.createBlock openingLine (Some (CodeBuilder.appendLines lines)) b in
  CodeBuilder.content after
  = CodeBuilder.content b
      +:+ lineAt b level (openingLine +:+ " {")
      +:+ String.concat "" (map (lineAt b (S level)) lines)
      +:+ lineAt b level "}"
  ∧ CodeBuilder.indentLevel after = level.
Proof.
  intros level after. subst level after. unfold CodeBuilder.createBlock.
  set (b1 := CodeBuilder.indentBy 1 (CodeBuilder.appendLine (openingLine +:+ " {") b)).
  assert (Hlevel : CodeBuilder.indentLevel b1 = S (CodeBuilder.indentLevel b))
    by (subst b1; cbn; lia).
  pose proof (appendLines_content lines b1 _ Hlevel) as Hbody.
  destruct (sameIndentation_appendLines lines b1 b1 (sameIndentation_refl b1)) as [H1 H2].
  split.
  - cbn [CodeBuilder.appendLine CodeBuilder.indentBy CodeBuilder.content
           CodeBuilder.indentLevel CodeBuilder.indentString].
    rewrite Hbody, H1, H2, Hlevel.
    replace (Z.to_nat (Z.max 0 (Z.of_nat (S (CodeBuilder.indentLevel b)) + -1)))
      with (CodeBuilder.indentLevel b) by lia.
    subst b1. cbn [CodeBuilder.appendLine CodeBuilder.indentBy CodeBuilder.content
                     CodeBuilder.indentLevel CodeBuilder.indentString].
    unfold lineAt. cbn [CodeBuilder.indentString].
    rewrite !append_assoc. reflexivity.
  - cbn [CodeBuilder.appendLine CodeBuilder.indentBy CodeBuilder.indentLevel].
    rewrite H1, Hlevel. lia.
Qed.

(** ** Grouping of imports by module path *)

Lemma groupInsert_paths (path : string) (item : CodeBuilder.ImportItem)
  (groups : list (string * list CodeBuilder.ImportItem)) :
  map fst (CodeBuilder.groupInsert path item groups)
  = if bool_decide (path ∈ map fst groups) then map fst groups
    else map fst groups ++ [path].
Proof.
  induction groups as [|[p items] groups IH]; [done|].
  cbn [CodeBuilder.groupInsert map fst].
  destruct (String.eqb_spec p path) as [->|Hne].
  - cbn [map fst]. rewrite bool_decide_eq_true_2; [done|]. apply list_elem_of_here.
  - cbn [map fst]. rewrite IH. case_bool_decide as Hin.
    + rewrite bool_decide_eq_true_2; [done|]. by apply list_elem_of_further.
    + rewrite bool_decide_eq_false_2; [done|].
      intros [?|?]%elem_of_cons; congruence.
Qed.

Lemma groupInsert_count (path : string) (item : CodeBuilder.ImportItem)
  (groups : list (string * list CodeBuilder.ImportItem)) :
  length (concat (map snd (CodeBuilder.groupInsert path item groups)))
  = S (length (concat (map snd groups))).
Proof.
  induction groups as [|[p items] groups IH]; [done|].
  cbn [CodeBuilder.groupInsert]. destruct (String.eqb p path).
  - cbn [map snd concat]. rewrite !length_app. cbn. lia.
  - cbn [map snd concat]. rewrite !length_app, IH. lia.
Qed.

Lemma importsByPath_fold (imports : list CodeBuilder.ImportSpec)
  (groups : list (string * list CodeBuilder.ImportItem)) :
  let result :=
    fold_left
      (λ groups imp,
         CodeBuilder.groupInsert (CodeBuilder.is_path imp)
           (CodeBuilder.mkImportItem (CodeBuilder.is_name imp)
              (default false (CodeBuilder.is_isDefault imp))
              (default false (CodeBuilder.is_isTypeOnly imp)))
           groups)
      imports groups in
  NoDup (map fst groups) →
  NoDup (map fst result)
  ∧ (∀ p, p ∈ map fst result
          ↔ p ∈ map fst groups ∨ p ∈ map CodeBuilder.is_path imports)
  ∧ length (concat (map snd result))
    = length (concat (map snd groups)) + length imports.
Proof.
  revert groups. induction imports as [|imp imports IH]; intros groups result Hnd.
  - subst result. cbn. split; [done|]. split; [|lia].
    intros p. split; [by left|]. intros [?|H]; [done|]. by apply elem_of_nil in H.
  - subst result. cbn [fold_left].
    set (groups' := CodeBuilder.groupInsert _ _ groups).
    assert (Hnd' : NoDup (map fst groups')).
    { subst groups'. rewrite groupInsert_paths. case_bool_decide as Hin; [done|].
      apply NoDup_app. split; [done|]. split; [|apply NoDup_singleton].
      intros x Hx ->%list_elem_of_singleton. done. }
    destruct (IH groups' Hnd') as (H1 & H2 & H3).
    split; [exact H1|]. split.
    + intros p. rewrite H2. subst groups'. rewrite groupInsert_paths.
      cbn [map]. rewrite elem_of_cons.
      case_bool_decide as Hin.
      * split; [tauto|]. intros [?|[->|?]]; tauto.
      * rewrite elem_of_app, list_elem_of_singleton. tauto.
    + rewrite H3. subst groups'. rewrite groupInsert_count. cbn [length]. lia.
Qed.

(** X9 (src/builder/CodeBuilder.ts, [createImports]): imports are grouped by
    module path.  The groups have pairwise different paths, which are the
    paths of the given imports, every given import is an item of the group
    of its path, and the groups hold as many items as imports were given;
    one line is written per group, and nothing at all for an empty list. *)
Theorem imports_are_grouped_by_path (imports : list CodeBuilder.ImportSpec) :
  let groups := CodeBuilder.importsByPath imports in
  NoDup (map fst groups)
  ∧ (∀ p, p ∈ map fst groups ↔ p ∈ map CodeBuilder.is_path imports)
  ∧ (∀ spec, spec ∈ imports →
       ∃ items, (CodeBuilder.is_path spec, items) ∈ groups
                ∧ CodeBuilder.is_name spec ∈ map CodeBuilder.ii_name items)
  ∧ length (concat (map snd groups)) = length imports
  ∧ (∀ b, CodeBuilder.createImports [] b = b)
  ∧ (∀ b, imports ≠ [] →
       CodeBuilder.createImports imports b
       = CodeBuilder.appendEmptyLine
           (CodeBuilder.appendLines
              (map (λ g, CodeBuilder.importStatement (fst g) (snd g)) groups) b)).
Proof.
  intros groups. subst groups.
  destruct (importsByPath_fold imports [] (NoDup_nil_2)) as (H1 & H2 & H3).
  fold (CodeBuilder.importsByPath imports) in H1, H2, H3.
  split; [exact H1|]. split.
  { intros p. rewrite H2. split; [|tauto]. intros [H|?]; [|done]. by apply elem_of_nil in H. }
  split; [intros spec Hspec; by apply importsByPath_groups|].
  split; [exact H3|]. split; [done|].
  intros b Hne. unfold CodeBuilder.createImports. destruct imports as [|i l]; [done|].
  f_equal. apply (appendLines_map (λ g, CodeBuilder.importStatement g.1 g.2)).
Qed.

(** ** The imports a generator writes *)

Lemma sameImport_key (a b : ImportStatement) :
  BaseGenerator.sameImport a b = true ↔ importKey a = importKey b.
Proof.
  rewrite sameImport_true. unfold importKey. split; [by intros [-> ->]|by intros [= -> ->]].
Qed.

Lemma existsb_sameImport (imp : ImportStatement) (seen : list ImportStatement) :
  existsb (BaseGenerator.sameImport imp) seen = true
  ↔ importKey imp ∈ map importKey seen.
Proof.
  rewrite existsb_exists, list_elem_of_In, in_map_iff. split.
  - intros (x & Hx & Hsame). exists x. split; [|done]. symmetry. by apply sameImport_key.
  - intros (x & Hkey & Hx). exists x. split; [done|]. by apply sameImport_key.
Qed.

Lemma uniqueImportsFrom_spec (currentName : string) (imports : list ImportStatement) :
  ∀ seen,
    let unique := BaseGenerator.uniqueImportsFrom currentName seen imports in
    sublist unique imports
    ∧ Forall (λ imp, imp_name imp ≠ currentName ∧ importKey imp ∉ map importKey seen)
        unique
    ∧ NoDup (map importKey unique).
Proof.
  induction imports as [|imp imports IH]; intros seen unique; subst unique.
  - cbn. split; [constructor|]. split; constructor.
  - cbn [BaseGenerator.uniqueImportsFrom].
    destruct (IH (seen ++ [imp])) as (Hsub & Hall & Hnd).
    assert (Hrest : Forall (λ x, imp_name x ≠ currentName
                                 ∧ importKey x ∉ map importKey seen)
                      (BaseGenerator.uniqueImportsFrom currentName (seen ++ [imp]) imports)).
    { eapply Forall_impl; [exact Hall|]. intros x [Hname Hkey]. split; [done|].
      intros Hin. apply Hkey. rewrite map_app. apply elem_of_app. by left. }
    destruct (negb (imp_name imp =? currentName)%string
              && negb (existsb (BaseGenerator.sameImport imp) seen)) eqn:Hkeep.
    + apply andb_true_iff in Hkeep as [Hname Hseen].
      apply negb_true_iff in Hname, Hseen. apply String.eqb_neq in Hname.
      cbn [app]. split; [by constructor|]. split.
      * constructor; [|exact Hrest]. split; [done|].
        intros Hin. apply existsb_sameImport in Hin. congruence.
      * cbn [map]. constructor; [|exact Hnd].
        intros Hin. apply list_elem_of_In, in_map_iff in Hin as (x & Hkey & Hx).
        apply list_elem_of_In in Hx.
        rewrite Forall_forall in Hall. destruct (Hall x Hx) as [_ Hnot].
        apply Hnot. rewrite map_app, Hkey. apply elem_of_app. right.
        cbn. apply list_elem_of_here.
    + cbn [app]. split; [by constructor|]. done.
Qed.

(** X10 (class BaseGenerator, [addImportStatements]): the imports that are
    written are taken from the given ones in their order; none of them
    imports the declaration under its own name, no two of them have the
    same path and name, and every given import of another name is written,
    itself or an earlier one with the same path and name.  When nothing
    remains, nothing is written. *)
Theorem written_imports_are_unique (imports : list ImportStatement)
  (currentName : string) :
  let unique := BaseGenerator.uniqueImports imports currentName in
  sublist unique imports
  ∧ (∀ imp, imp ∈ unique → imp_name imp ≠ currentName)
  ∧ NoDup (map importKey unique)
  ∧ (∀ imp, imp ∈ imports → imp_name imp ≠ currentName →
       ∃ imp', imp' ∈ unique ∧ importKey imp' = importKey imp)
  ∧ (∀ builder, unique = [] →
       BaseGenerator.addImportStatements builder imports currentName = builder)
  ∧ (∀ builder,
       BaseGenerator.addImportStatements builder imports currentName
       = CodeBuilder.createImports (map BaseGenerator.toImportSpec unique) builder).
Proof.
  intros unique. subst unique. unfold BaseGenerator.uniqueImports.
  destruct (uniqueImportsFrom_spec currentName imports []) as (Hsub & Hall & Hnd).
  split; [exact Hsub|]. split.
  { intros imp Himp. rewrite Forall_forall in Hall. by destruct (Hall imp Himp). }
  split; [exact Hnd|]. split.
  { intros imp Himp Hname.
    destruct (uniqueImportsFrom_keeps currentName imp imports [] Himp Hname)
      as (imp' & Hin & Hpath & Hnm).
    - intros s Hs. by apply elem_of_nil in Hs.
    - exists imp'. split; [done|]. unfold importKey. by rewrite Hpath, Hnm. }
  split.
  - intros builder Hempty. unfold BaseGenerator.addImportStatements,
      BaseGenerator.uniqueImports. by rewrite Hempty.
  - intros builder. unfold BaseGenerator.addImportStatements,
      BaseGenerator.uniqueImports.
    by destruct (BaseGenerator.uniqueImportsFrom currentName [] imports).
Qed.

(** ** Batches of models *)

Section EmitterBatches.

Variable definitions : gmap string SchemaObject.
Variable options : ConfigOptions.
Variable indentSize : nat.

Abbreviation buildOutput' := (DTOGenerator.buildOutput definitions options indentSize).
Abbreviation generateFrom' := (DTOGenerator.generateFrom definitions options indentSize).
Abbreviation emitted' := DTOGenerator.processedRefs.
Abbreviation inProgress' := DTOGenerator.processingStack.

(** What a call returns and leaves behind, when the fuel is enough *)
Lemma buildOutput_result (fuel : nat) (modelRef : string) (st : DTOGenerator.State) :
  unemitted definitions st < fuel →
  ∃ b, buildOutput' fuel modelRef st = Done b
       ∧ emittedWithin definitions st (DTOGenerator.built_state b)
       ∧ (is_Some (definitions !! modelRef) →
          modelRef ∈ emitted' (DTOGenerator.built_state b))
       ∧ (∀ output, DTOGenerator.built_output b = Some output →
            ∃ definition,
              definitions !! modelRef = Some definition
              ∧ output = DTOGenerator.modelOutput options indentSize modelRef definition
              ∧ modelRef ∉ emitted' st).
Proof.
  intros Hb. destruct fuel as [|fuel]; [lia|].
  rewrite buildOutput_unfold.
  destruct (bool_decide (modelRef ∈ emitted' st)) eqn:Hdone.
  { apply bool_decide_eq_true in Hdone. eexists. split; [reflexivity|].
    split; [apply emittedWithin_refl|]. split; [done|]. by intros output [=]. }
  apply bool_decide_eq_false in Hdone.
  destruct (bool_decide (modelRef ∈ inProgress' st)) eqn:Hstack.
  { apply bool_decide_eq_true in Hstack. eexists. split; [reflexivity|].
    split; [unfold emittedWithin; cbn; set_solver|].
    split; [intros _; cbn; set_solver|]. by intros output [=]. }
  apply bool_decide_eq_false in Hstack.
  destruct (definitions !! modelRef) as [definition|] eqn:Hdef.
  2:{ eexists. split; [reflexivity|]. split; [apply emittedWithin_refl|].
      split; [by intros [? [=]]|]. by intros output [=]. }
  cbv zeta.
  set (st1 := DTOGenerator.mkState ({[ modelRef ]} ∪ emitted' st)
                ({[ modelRef ]} ∪ inProgress' st)).
  destruct (buildParents_total definitions (buildOutput' fuel) fuel
              (DTOGenerator.inh_imports
                 match s_allOf definition with
                 | Some _ => DTOGenerator.processInheritance definition
                 | None => DTOGenerator.mkInheritance [] ""
                 end)
              (buildOutput_total definitions options indentSize fuel) st1 [])
    as (st' & w' & -> & (Hsub & Hst & Hbnd)).
  { pose proof (unemitted_add definitions modelRef definition st
                  ({[ modelRef ]} ∪ inProgress' st) Hdef Hdone).
    unfold st1. lia. }
  cbn [obind fst snd]. eexists. split; [reflexivity|].
  assert (modelRef ∈ dom definitions) by (apply elem_of_dom; eauto).
  cbn [DTOGenerator.built_state DTOGenerator.built_output] in *.
  split.
  { unfold emittedWithin; cbn in *. rewrite Hst.
    split; [set_solver|]. split; [set_solver|set_solver]. }
  split; [intros _; cbn in *; set_solver|].
  intros output [= <-]. by exists definition.
Qed.

(** X11 (class DTOGenerator, [buildOutput]): emission of a model that has a
    dictionary entry is idempotent.  The call returns, marks the name as
    emitted, leaves the names in progress as they were, and from then on
    every call for that name returns no record, writes no warning and
    changes nothing. *)
Theorem emission_is_idempotent (modelRef : string) (definition : SchemaObject)
  (st : DTOGenerator.State) :
  definitions !! modelRef = Some definition →
  ∃ b,
    buildOutput' (DTOGenerator.generateFuel definitions) modelRef st = Done b
    ∧ modelRef ∈ emitted' (DTOGenerator.built_state b)
    ∧ emitted' st ⊆ emitted' (DTOGenerator.built_state b)
    ∧ inProgress' (DTOGenerator.built_state b) = inProgress' st
    ∧ ∀ fuel,
        buildOutput' fuel modelRef (DTOGenerator.built_state b)
        = Done (DTOGenerator.mkBuilt None (DTOGenerator.built_state b) []).
Proof.
  intros Hdef.
  destruct (buildOutput_result _ modelRef st (generateFuel_enough definitions st))
    as (b & E & (Hsub & Hstack & _) & Hin & _).
  exists b. split; [exact E|]. split; [apply Hin; eauto|].
  split; [exact Hsub|]. split; [exact Hstack|].
  intros fuel. rewrite buildOutput_unfold.
  rewrite bool_decide_eq_true_2; [done|]. apply Hin; eauto.
Qed.





End EmitterBatches.

Lemma emission_is_idempotent_witness :
  ∃ b,
    DTOGenerator.buildOutput inheritanceDefinitions DEFAULT_CONFIG 2
      (DTOGenerator.generateFuel inheritanceDefinitions) "Child" DTOGenerator.fresh
    = Done b
    ∧ "Child" ∈ DTOGenerator.processedRefs (DTOGenerator.built_state b).
Proof.
  destruct (emission_is_idempotent inheritanceDefinitions DEFAULT_CONFIG 2 "Child"
              (childSchema "#/definitions/Base") DTOGenerator.fresh eq_refl)
    as (b & E & Hin & _).
  exists b. by split.
Defined.


(** ** Discovery and the selected paths *)

Lemma filterM_subset {A : Type} (p : A → Outcome bool) (l selected : list A) :
  filterM p l = Done selected → selected ⊆ l.
Proof.
  revert selected. induction l as [|x l IH]; intros selected.
  - intros [= <-]. done.
  - cbn [filterM]. destruct (p x) as [keep| | |]; try done. cbn [obind].
    destruct (filterM p l) as [rest| | |]; try done. cbn [obind].
    intros [= <-]. specialize (IH rest eq_refl). destruct keep; set_solver.
Qed.

Lemma Referenced_mono (dictionary : gmap string SchemaObject)
  (roots roots' : list SchemaObject) (name : string) :
  roots ⊆ roots' → Referenced dictionary roots name → Referenced dictionary roots' name.
Proof.
  intros Hsub. apply ReferencedFrom_mono. intros n (root & Hroot & Hn).
  exists root. split; [by apply Hsub|done].
Qed.

Lemma endpointSchemas_mono (apiSpec : OpenAPIDocument)
  (selected selected' : list (string * PathItemObject)) :
  selected ⊆ selected' →
  endpointSchemas apiSpec selected ⊆ endpointSchemas apiSpec selected'.
Proof.
  intros Hsub schema. unfold endpointSchemas.
  rewrite !list_elem_of_In, !in_flat_map. intros (kv & Hkv & Hschema).
  exists kv. split; [|done]. apply list_elem_of_In, Hsub. by apply list_elem_of_In.
Qed.

(** X14 (src/builder/APISpecParser.ts, [discoverModelPaths] with
    [processMatchingPaths]): discovery grows with the selected paths.  When
    the paths selected by one pattern are among those selected by another,
    every model discovered under the first is discovered under the second;
    in particular whatever a pattern discovers is discovered when no
    pattern is given. *)
Theorem narrower_selection_discovers_less (apiSpec : OpenAPIDocument)
  (pattern pattern' : option string) (selected selected' : list (string * PathItemObject))
  (names : list string) :
  APISpecParser.pathsToProcess apiSpec pattern = Done selected →
  APISpecParser.pathsToProcess apiSpec pattern' = Done selected' →
  selected ⊆ selected' →
  APISpecParser.discoverModelPaths apiSpec pattern = Done names →
  (∃ names', APISpecParser.discoverModelPaths apiSpec pattern' = Done names'
             ∧ names ⊆ names')
  ∧ ∃ all, APISpecParser.discoverModelPaths apiSpec None = Done all ∧ names ⊆ all.
Proof.
  intros Hsel Hsel' Hsub Hnames.
  destruct (discoverModelPaths_selected apiSpec pattern selected Hsel)
    as (names0 & E & _ & Hchar).
  rewrite E in Hnames. injection Hnames as ->.
  assert (Hgrow : ∀ pattern2 selected2,
            APISpecParser.pathsToProcess apiSpec pattern2 = Done selected2 →
            selected ⊆ selected2 →
            ∃ names2, APISpecParser.discoverModelPaths apiSpec pattern2 = Done names2
                      ∧ names ⊆ names2).
  { intros pattern2 selected2 Hsel2 Hsub2.
    destruct (discoverModelPaths_selected apiSpec pattern2 selected2 Hsel2)
      as (names2 & E2 & _ & Hchar2).
    exists names2. split; [exact E2|]. intros n Hn. apply Hchar2.
    apply Hchar in Hn. revert Hn. apply Referenced_mono.
    by apply endpointSchemas_mono. }
  split; [by apply (Hgrow pattern' selected')|].
  apply (Hgrow None (paths apiSpec)); [done|].
  unfold APISpecParser.pathsToProcess in Hsel.
  destruct (JsString.truthy pattern).
  - by apply filterM_subset in Hsel.
  - by injection Hsel as <-.
Qed.

Lemma narrower_selection_discovers_less_witness :
  ∃ all, APISpecParser.discoverModelPaths baseFirstDocument None = Done all
         ∧ ["Base"] ⊆ all.
Proof.
  refine (proj2 (narrower_selection_discovers_less baseFirstDocument
                   (Some "/shop/Base"%string) None _ _ ["Base"] _ _ _ _)).
  - vm_compute. reflexivity.
  - reflexivity.
  - vm_compute. set_solver.
  - vm_compute. reflexivity.
Defined.

(** ** One wrapper per selected endpoint *)

Lemma regexFilter_compiled (text pattern : string) (regex : RegExp.Regex) :
  RegExp.compile ("^" +:+ pattern +:+ "$") = Done regex →
  regexFilter text pattern = Done (RegExp.test regex text).
Proof. intros H. unfold regexFilter. by rewrite H. Qed.

Lemma flatMapM_selected {B : Type} (method : PathItemObject → option OperationObject)
  (pattern : string) (regex : RegExp.Regex)
  (make : string * PathItemObject → OperationObject → B)
  (entries : list (string * PathItemObject)) :
  RegExp.compile ("^" +:+ pattern +:+ "$") = Done regex →
  ∃ endpoints,
    flatMapM
      (λ entry,
         match method (snd entry) with
         | None => Done []
         | Some operation =>
             selected ←! regexFilter (fst entry) pattern;
             if selected then Done [make entry operation] else Done []
         end)
      entries
    = Done endpoints
    ∧ Forall2 (λ entry endpoint, ∃ operation,
                 method (snd entry) = Some operation ∧ endpoint = make entry operation)
        (List.filter
           (λ entry, bool_decide (is_Some (method (snd entry)))
                     && RegExp.test regex (fst entry))
           entries)
        endpoints.
Proof.
  intros Hregex. induction entries as [|entry entries (endpoints & E & Hall)].
  - exists []. split; [done|constructor].
  - cbn [flatMapM List.filter]. rewrite E.
    destruct (method (snd entry)) as [operation|] eqn:Hop.
    + rewrite (regexFilter_compiled _ _ _ Hregex). cbn [obind].
      rewrite bool_decide_eq_true_2 by eauto. cbn [andb].
      destruct (RegExp.test regex (fst entry)); cbn [obind app].
      * eexists. split; [reflexivity|]. constructor; [|done]. by exists operation.
      * by exists endpoints.
    + cbn [obind app]. rewrite bool_decide_eq_false_2 by (by intros [? [=]]).
      by exists endpoints.
Qed.

Lemma omap_filenames (build : EndpointDefinition → option GeneratedOutput)
  (entries : list (string * PathItemObject)) (endpoints : list EndpointDefinition) :
  (∀ endpoint, ∃ output,
     build endpoint = Some output
     ∧ out_filename output = wrapperName (ed_path endpoint)) →
  Forall2 (λ entry endpoint, ed_path endpoint = fst entry) entries endpoints →
  map out_filename (omap build endpoints)
  = map (λ entry, wrapperName (fst entry)) entries.
Proof.
  intros Hbuild. induction 1 as [|entry endpoint l l' Hpath _ IH]; [done|].
  destruct (Hbuild endpoint) as (output & E & Hname).
  change (omap build (endpoint :: l'))
    with (match build endpoint with
          | Some y => y :: omap build l'
          | None => omap build l'
          end).
  rewrite E. cbn [map]. by rewrite IH, Hname, Hpath.
Qed.

Lemma GET_generate_selected (apiSpec : OpenAPIDocument)
  (options : ConfigOptions) (indentSize : nat) (pattern : string)
  (regex : RegExp.Regex) :
  RegExp.compile ("^" +:+ pattern +:+ "$") = Done regex →
  ∃ outputs,
    GETRequestGenerator.generate apiSpec options indentSize [pattern] = Done outputs
    ∧ map out_filename outputs
      = map (λ entry, wrapperName (fst entry)) (selectedWith apiSpec pi_get regex).
Proof.
  intros Hregex.
  unfold GETRequestGenerator.generate, GETRequestGenerator.resolveEntities.
  cbn [flatMapM].
  destruct (flatMapM_selected pi_get pattern regex
              (λ entry operation,
                 mkEndpoint (fst entry) "get"
                   (GETRequestGenerator.extractParameters apiSpec (snd entry) operation)
                   (GETRequestGenerator.extractResponseTypes apiSpec operation)
                   (op_operationId operation) (op_summary operation)
                   (op_description operation) None)
              (paths apiSpec) Hregex) as (endpoints & -> & Hall).
  cbn [obind]. eexists. split; [reflexivity|]. rewrite app_nil_r.
  apply omap_filenames.
  - intros endpoint. eexists. split; [reflexivity|done].
  - eapply Forall2_impl; [exact Hall|]. by intros entry endpoint (op & _ & ->).
Qed.

Lemma POST_generate_selected (apiSpec : OpenAPIDocument)
  (options : ConfigOptions) (indentSize : nat) (pattern : string)
  (regex : RegExp.Regex) :
  RegExp.compile ("^" +:+ pattern +:+ "$") = Done regex →
  ∃ outputs,
    POSTRequestGenerator.generate apiSpec options indentSize [pattern] = Done outputs
    ∧ map out_filename outputs
      = map (λ entry, wrapperName (fst entry)) (selectedWith apiSpec pi_post regex).
Proof.
  intros Hregex.
  unfold POSTRequestGenerator.generate, POSTRequestGenerator.resolveEntities.
  cbn [flatMapM].
  destruct (flatMapM_selected pi_post pattern regex
              (λ entry operation,
                 mkEndpoint (fst entry) "post" []
                   (POSTRequestGenerator.extractResponseTypes apiSpec operation)
                   (op_operationId operation) (op_summary operation)
                   (op_description operation)
                   (POSTRequestGenerator.extractRequestBodyType apiSpec operation))
              (paths apiSpec) Hregex) as (endpoints & -> & Hall).
  cbn [obind]. eexists. split; [reflexivity|]. rewrite app_nil_r.
  apply omap_filenames.
  - intros endpoint. unfold POSTRequestGenerator.buildOutput.
    destruct (JsString.truthy _); eexists; (split; [reflexivity|done]).
  - eapply Forall2_impl; [exact Hall|]. by intros entry endpoint (op & _ & ->).
Qed.

(** X15 (classes GETRequestGenerator and POSTRequestGenerator, [generate],
    [resolveEntities] and [buildOutput]): when the pattern compiles, each
    generator returns one record for every path of the document that
    defines its operation and that the pattern accepts, in the order of the
    document, and nothing else; the record of a path is named after the
    last segment of the path followed by [WebServiceRequest]. *)
Theorem one_wrapper_per_selected_endpoint (apiSpec : OpenAPIDocument)
  (options : ConfigOptions) (indentSize : nat) (pattern : string)
  (regex : RegExp.Regex) :
  RegExp.compile ("^" +:+ pattern +:+ "$") = Done regex →
  (∃ outputs,
     GETRequestGenerator.generate apiSpec options indentSize [pattern] = Done outputs
     ∧ map out_filename outputs
       = map (λ entry, wrapperName (fst entry)) (selectedWith apiSpec pi_get regex))
  ∧ (∃ outputs,
       POSTRequestGenerator.generate apiSpec options indentSize [pattern] = Done outputs
       ∧ map out_filename outputs
         = map (λ entry, wrapperName (fst entry)) (selectedWith apiSpec pi_post regex)).
Proof.
  intros Hregex. split.
  - by apply GET_generate_selected.
  - by apply POST_generate_selected.
Qed.

Lemma one_wrapper_per_selected_endpoint_witness :
  ∃ outputs,
    POSTRequestGenerator.generate loginDocument DEFAULT_CONFIG 2 ["/auth/.*"%string]
    = Done outputs
    ∧ map out_filename outputs = ["LoginWebServiceRequest"%string].
Proof.
  exact (proj2 (one_wrapper_per_selected_endpoint loginDocument DEFAULT_CONFIG 2
                  "/auth/.*" _ eq_refl)).
Defined.

(** ** The outputs of one path pattern *)

(** X16 (src/OpenAPICodeGenerator.ts, [generateForPathPattern] with
    [discoverModels]): the generation for one path pattern returns whenever
    the pattern compiles: discovery, the model emitter and the two request
    generators all return.  What it hands to the file writer is the
    records of the model emitter for the discovered names, which are
    pairwise different, then those of the read-style generator, then those
    of the write-style generator. *)
Theorem generation_for_a_pattern_returns (options : ConfigOptions)
  (apiSpec : OpenAPIDocument) (pattern : string) (regex : RegExp.Regex) :
  RegExp.compile ("^" +:+ pattern +:+ "$") = Done regex →
  ∃ names models st warnings wrappers wrappers',
    APISpecParser.discoverModelPaths apiSpec (Some pattern) = Done names
    ∧ NoDup names
    ∧ DTOGenerator.generate (BaseGenerator.getDefinitions apiSpec) options
        (OpenAPICodeGenerator.indentSize options) names
      = Done (models, st, warnings)
    ∧ GETRequestGenerator.generate apiSpec options
        (OpenAPICodeGenerator.indentSize options) [pattern] = Done wrappers
    ∧ POSTRequestGenerator.generate apiSpec options
        (OpenAPICodeGenerator.indentSize options) [pattern] = Done wrappers'
    ∧ OpenAPICodeGenerator.generateForPathPattern options apiSpec pattern
      = Done (models ++ wrappers ++ wrappers').
Proof.
  intros Hregex.
  assert (∃ selected, APISpecParser.pathsToProcess apiSpec (Some pattern) = Done selected)
    as (selected & Hsel).
  { unfold APISpecParser.pathsToProcess. destruct (JsString.truthy (Some pattern)); [|eauto].
    cbn [default]. induction (paths apiSpec) as [|kv l (selected & E)]; [by exists []|].
    cbn [filterM]. rewrite (regexFilter_compiled _ _ _ Hregex), E. cbn [obind]. eauto. }
  destruct (discoverModelPaths_selected apiSpec (Some pattern) selected Hsel)
    as (names & Hnames & Hnd & _).
  destruct (generateFrom_total (BaseGenerator.getDefinitions apiSpec) options
              (OpenAPICodeGenerator.indentSize options) names DTOGenerator.fresh)
    as (models & st & warnings & Hmodels & _).
  destruct (GET_generate_selected apiSpec options
              (OpenAPICodeGenerator.indentSize options) pattern regex Hregex)
    as (wrappers & Hget & _).
  destruct (POST_generate_selected apiSpec options
              (OpenAPICodeGenerator.indentSize options) pattern regex Hregex)
    as (wrappers' & Hpost & _).
  exists names, models, st, warnings, wrappers, wrappers'.
  split; [exact Hnames|]. split; [exact Hnd|]. split; [exact Hmodels|].
  split; [exact Hget|]. split; [exact Hpost|].
  unfold OpenAPICodeGenerator.generateForPathPattern. rewrite Hnames. cbn [obind].
  change (if JsString.truthy (openapi apiSpec)
          then default ∅ (components apiSpec ≫= schemas)
          else default ∅ (definitions apiSpec))
    with (BaseGenerator.getDefinitions apiSpec).
  unfold DTOGenerator.generate in Hmodels |- *. rewrite Hmodels. cbn [obind fst].
  by rewrite Hget, Hpost.
Qed.

Lemma generation_for_a_pattern_returns_witness :
  ∃ outputs,
    OpenAPICodeGenerator.generateForPathPattern DEFAULT_CONFIG loginDocument "/auth/Login"
    = Done outputs.
Proof.
  destruct (generation_for_a_pattern_returns DEFAULT_CONFIG loginDocument "/auth/Login"
              _ eq_refl)
    as (names & models & st & warnings & wrappers & wrappers' & _ & _ & _ & _ & _ & E).
  eauto.
Defined.

(** ** The base class and the imports of a read-style wrapper *)

Section ReadWrapper.

Variable options : ConfigOptions.
Variable indentSize : nat.

Lemma GET_buildOutput_import (endpoint : EndpointDefinition) (basePath : string)
  (imp : ImportStatement) :
  let className := modelName (getModelPathAndNameWith (ed_path endpoint) "/") in
  let isPdf := BaseGenerator.isPdfResponse (head (ed_responseType endpoint)) in
  imp ∈ GETRequestGenerator.generateImports endpoint isPdf →
  imp_name imp ≠ className →
  ∃ output items,
    GETRequestGenerator.buildOutput options indentSize endpoint basePath = Some output
    ∧ occursIn (CodeBuilder.importStatement (imp_path imp) items) (out_content output)
      = true
    ∧ imp_name imp ∈ map CodeBuilder.ii_name items.
Proof.
  intros className isPdf Himp Hname.
  destruct (wrote_addImportStatements
              (GETRequestGenerator.generateImports endpoint isPdf) className imp
              (CodeBuilder.create indentSize)
              (BaseGenerator.addFileHeader (CodeBuilder.create indentSize))
              Himp Hname)
    as (items & Hw & Hitem).
  { apply extends_addFileHeader, extends_refl. }
  eexists. exists items. split; [reflexivity|]. split; [|exact Hitem].
  cbn [out_content CodeBuilder.build fst].
  eapply wrote_occursIn, wrote_later; [exact Hw|].
  eapply wrote_extends. apply wrote_generateRequestClass.
  destruct (GETRequestGenerator.hasParameters endpoint).
  - apply extends_generateQueryParamsInterface, extends_refl.
  - apply extends_refl.
Qed.

(** X17 (class GETRequestGenerator, [buildOutput], [generateImports] and
    [generateRequestClass]; class BaseGenerator, [isPdfResponse]): the base
    class of a read-style wrapper follows the first response type.  A type
    whose name contains [Stream] gives [PdfWebServiceRequest]; otherwise a
    type that is neither [void] nor a primitive gives
    [JsonWebServiceRequest] of the leaf name of the type, and the file
    imports that model unless it has the name of the class; any other type
    gives [JsonWebServiceRequest<any>]. *)
Theorem read_wrapper_base_class (endpoint : EndpointDefinition)
  (basePath respType : string) :
  head (ed_responseType endpoint) = Some respType →
  let className := modelName (getModelPathAndNameWith (ed_path endpoint) "/") in
  let leaf := modelName (getModelPathAndName respType) in
  ∃ output,
    GETRequestGenerator.buildOutput options indentSize endpoint basePath = Some output
    ∧ (JsString.includes respType "Stream" = true →
       occursIn (classOpening (wrapperName (ed_path endpoint)) "PdfWebServiceRequest")
         (out_content output) = true)
    ∧ (JsString.includes respType "Stream" = false →
       RequestCommon.isModelType (Some respType) = true →
       occursIn
         (classOpening (wrapperName (ed_path endpoint))
            ("JsonWebServiceRequest<" +:+ leaf +:+ ">"))
         (out_content output) = true
       ∧ (leaf ≠ className → importsModel (out_content output) respType))
    ∧ (JsString.includes respType "Stream" = false →
       RequestCommon.isModelType (Some respType) = false →
       occursIn
         (classOpening (wrapperName (ed_path endpoint)) "JsonWebServiceRequest<any>")
         (out_content output) = true).
Proof.
  intros Hhead className leaf.
  destruct (buildOutput_class_opening options indentSize endpoint basePath)
    as (output & E & _ & Hopening).
  exists output. split; [exact E|].
  rewrite Hhead in Hopening. cbn [BaseGenerator.isPdfResponse] in Hopening.
  unfold RequestCommon.baseClass, RequestCommon.responseDTOName in Hopening.
  fold (wrapperName (ed_path endpoint)) in Hopening.
  split; [|split].
  - intros Hstream. by rewrite Hstream in Hopening.
  - intros Hstream Hmodel. rewrite Hstream, Hmodel in Hopening.
    split; [exact Hopening|]. intros Hleaf.
    destruct (GET_buildOutput_import endpoint basePath (DTOGenerator.dtoImport respType))
      as (output' & items & E' & Hocc & Hitem).
    { unfold GETRequestGenerator.generateImports. rewrite Hhead, Hmodel.
      apply list_elem_of_further, list_elem_of_here. }
    { exact Hleaf. }
    rewrite E in E'. injection E' as <-. by exists items.
  - intros Hstream Hmodel. by rewrite Hstream, Hmodel in Hopening.
Qed.

End ReadWrapper.

Lemma read_wrapper_base_class_witness :
  ∃ output,
    GETRequestGenerator.buildOutput DEFAULT_CONFIG 2
      (mkEndpoint "/reports/Export" "get" [] ["FileStream"%string] None None None None)
      "/api" = Some output
    ∧ occursIn "export class ExportWebServiceRequest extends PdfWebServiceRequest {"
        (out_content output) = true.
Proof.
  destruct (read_wrapper_base_class DEFAULT_CONFIG 2
              (mkEndpoint "/reports/Export" "get" [] ["FileStream"%string]
                 None None None None)
              "/api" "FileStream" eq_refl)
    as (output & E & Hpdf & _).
  exists output. split; [exact E|]. exact (Hpdf eq_refl).
Defined.

(** ** Which parameters a read-style wrapper sends *)




(** ** Write-style wrappers *)

Section WriteWrapper.

Variable apiSpec : OpenAPIDocument.
Variable options : ConfigOptions.
Variable indentSize : nat.

Lemma extends_setupBody (body : CodeBuilder.Body) (b0 b : CodeBuilder.t) :
  onlyAppends body →
  extends b0 b →
  extends b0 (CodeBuilder.createMethod POSTRequestGenerator.setupBodyOptions (Some body) b).
Proof.
  intros Hbody Hb. apply extends_createMethod; [|exact Hb].
  intros body' b' [= <-] Hb'. eapply extends_trans; [exact Hb'|apply Hbody].
Qed.

Lemma wrote_setupBody (body : CodeBuilder.Body) (b0 b : CodeBuilder.t) :
  onlyAppends body →
  extends b0 b →
  wrote "setupBody(body: Record<string, any>): void {" b0
    (CodeBuilder.createMethod POSTRequestGenerator.setupBodyOptions (Some body) b).
Proof.
  intros Hbody Hb. unfold CodeBuilder.createMethod.
  cbn [POSTRequestGenerator.setupBodyOptions CodeBuilder.mo_description
         CodeBuilder.mo_paramDescriptions CodeBuilder.mo_returnDescription
         CodeBuilder.mo_abstract CodeBuilder.flag JsString.truthy orb default
         from_option id].
  change (CodeBuilder.methodSignature _)
    with ("setupBody(body: Record<string, any>): void"%string).
  apply (wrote_createBlock_opening "setupBody(body: Record<string, any>): void").
  - intros body' b1 b' [= <-] Hb'. eapply extends_trans; [exact Hb'|apply Hbody].
  - auto with builder.
Qed.

(** X19 (class POSTRequestGenerator, [buildOutput] and
    [buildSimpleEndpoint]): a write-style endpoint for which no request
    body type was resolved still gets a wrapper.  Its class extends
    [PdfWebServiceRequest] when the first response type contains [Stream],
    and otherwise [JsonWebServiceRequest] of the first response type as it
    was resolved ([any] when there is none); the file imports that base
    class and declares a [setupBody] method. *)
Theorem write_wrapper_without_payload (endpoint : EndpointDefinition)
  (basePath : string) :
  JsString.truthy (ed_requestBody endpoint) = false →
  let respType := head (ed_responseType endpoint) in
  let base := RequestCommon.baseImportName (BaseGenerator.isPdfResponse respType) in
  ∃ output,
    POSTRequestGenerator.buildOutput apiSpec options indentSize endpoint basePath
    = Some output
    ∧ out_filename output = wrapperName (ed_path endpoint)
    ∧ occursIn
        (classOpening (wrapperName (ed_path endpoint))
           (if BaseGenerator.isPdfResponse respType then "PdfWebServiceRequest"
            else "JsonWebServiceRequest<" +:+ BaseGenerator.orElse respType "any" +:+ ">"))
        (out_content output) = true
    ∧ occursIn ("import " +:+ base +:+ " from 'data-access/data-service/" +:+ base +:+ "';")
        (out_content output) = true
    ∧ occursIn "setupBody(body: Record<string, any>): void {" (out_content output) = true.
Proof.
  intros Hbody respType base. unfold POSTRequestGenerator.buildOutput.
  rewrite Hbody. eexists. split; [reflexivity|]. split; [reflexivity|].
  unfold POSTRequestGenerator.buildSimpleEndpoint.
  cbn [out_content CodeBuilder.build fst].
  fold respType. fold base.
  set (b0 := CodeBuilder.create indentSize).
  set (b1 := BaseGenerator.addFileHeader b0).
  set (spec := CodeBuilder.mkImportSpec base _ (Some true) None).
  set (b2 := CodeBuilder.createImports [spec] b1).
  set (baseClass := if BaseGenerator.isPdfResponse respType then base else _).
  assert (Hb1 : extends b0 b1) by apply extends_addFileHeader, extends_refl.
  assert (Hb2 : extends b0 b2) by (apply extends_createImports; exact Hb1).
  assert (Hclass : baseClass ≠ ""%string).
  { subst baseClass base. unfold RequestCommon.baseImportName.
    by destruct (BaseGenerator.isPdfResponse respType). }
  split; [|split].
  - apply (wrote_occursIn _ b0).
    apply wrote_then_appendLine, wrote_then_appendEmptyLine.
    unfold CodeBuilder.createClass.
    replace (if BaseGenerator.isPdfResponse respType then "PdfWebServiceRequest"%string
             else "JsonWebServiceRequest<" +:+ BaseGenerator.orElse respType "any" +:+ ">")
      with baseClass.
    2:{ subst baseClass base. unfold RequestCommon.baseImportName.
        by destruct (BaseGenerator.isPdfResponse respType). }
    rewrite <- (classDeclaration_extends _ baseClass
                  (Some ("Request class for " +:+ ed_path endpoint)) Hclass).
    apply wrote_createBlock_opening.
    + intros body b3 b' [= <-] Hb'.
      apply extends_setupBody; [by intros b4; apply extends_refl|].
      apply extends_appendEmptyLine, extends_constructorMethod, Hb'.
    + auto with builder.
  - apply (wrote_occursIn _ b0).
    apply wrote_then_appendLine, wrote_then_appendEmptyLine.
    eapply wrote_later.
    + apply (wrote_createImports [spec] (CodeBuilder.is_path spec)
               [CodeBuilder.mkImportItem base true false] b0 b1); [|exact Hb1].
      subst spec. cbn. apply list_elem_of_here.
    + apply extends_createClass; [|apply extends_refl].
      intros body b' [= <-] Hb'.
      apply extends_setupBody; [by intros b4; apply extends_refl|].
      apply extends_appendEmptyLine, extends_constructorMethod, Hb'.
  - apply (wrote_occursIn _ b0).
    apply wrote_then_appendLine, wrote_then_appendEmptyLine.
    unfold CodeBuilder.createClass.
    apply wrote_createBlock_body; [|auto with builder].
    intros b3 b' Hb'. apply wrote_setupBody; [by intros b4; apply extends_refl|].
    apply extends_appendEmptyLine, extends_constructorMethod, Hb'.
Qed.

Lemma propertyDeclaration_member (name type : string) (optional : bool)
  (description : option string) :
  CodeBuilder.propertyDeclaration
    (CodeBuilder.mkPropertyOptions name type None None None (Some optional) None
       description None)
  = memberLine name optional type.
Proof.
  unfold CodeBuilder.propertyDeclaration, memberLine.
  cbn [CodeBuilder.po_access CodeBuilder.po_static CodeBuilder.po_readonly
         CodeBuilder.po_name CodeBuilder.po_optional CodeBuilder.po_type
         CodeBuilder.po_initializer CodeBuilder.flag JsString.truthy default
         from_option id].
  rewrite append_nil. destruct optional.
  - by rewrite !append_assoc.
  - by rewrite append_nil, !append_assoc.
Qed.

Lemma extends_generateSetupBodyMethod (requestBodyType : string) (b0 b : CodeBuilder.t) :
  extends b0 b →
  extends b0 (POSTRequestGenerator.generateSetupBodyMethod apiSpec b requestBodyType).
Proof.
  intros Hb. unfold POSTRequestGenerator.generateSetupBodyMethod.
  apply extends_setupBody; [|exact Hb].
  intros b'. apply extends_fold_left; auto with builder.
Qed.

Lemma extends_payloadBody (endpoint : EndpointDefinition) (basePath reqName : string)
  (b0 b : CodeBuilder.t) :
  extends b0 b →
  extends b0
    (POSTRequestGenerator.generateSetupBodyMethod apiSpec
       (CodeBuilder.appendEmptyLine
          (RequestCommon.constructorMethod "POST" basePath (ed_path endpoint)
             (CodeBuilder.appendEmptyLine
                (CodeBuilder.createProperty
                   (CodeBuilder.mkPropertyOptions "data" reqName None None None
                      (Some (negb (useStrictTypes options))) None
                      (Some "Request data") None)
                   b))))
       (default "" (ed_requestBody endpoint))).
Proof.
  intros Hb.
  apply extends_generateSetupBodyMethod, extends_appendEmptyLine,
    extends_constructorMethod, extends_appendEmptyLine, extends_createProperty, Hb.
Qed.

(** X20 (class POSTRequestGenerator, [buildOutput],
    [buildEndpointWithPayload], [generateImportsWithPayload],
    [generateWithPayloadClass] and [generateSetupBodyMethod]): the wrapper
    of a write-style endpoint with a resolved request body type.  Its class
    has the base class of the first response type, a [data] property of
    the leaf name of the body type, optional unless strict types are asked
    for, and a [setupBody] method with a copy statement for every property
    the dictionary entry of the body type has; the file imports the body
    model unless that has the name of the class. *)
Theorem write_wrapper_with_payload (endpoint : EndpointDefinition)
  (basePath requestBody : string) :
  ed_requestBody endpoint = Some requestBody → requestBody ≠ ""%string →
  let respType := head (ed_responseType endpoint) in
  let className := modelName (getModelPathAndNameWith (ed_path endpoint) "/") in
  let reqName := modelName (getModelPathAndName requestBody) in
  ∃ output,
    POSTRequestGenerator.buildOutput apiSpec options indentSize endpoint basePath
    = Some output
    ∧ out_filename output = wrapperName (ed_path endpoint)
    ∧ occursIn
        (classOpening (wrapperName (ed_path endpoint))
           (RequestCommon.baseClass (BaseGenerator.isPdfResponse respType) respType))
        (out_content output) = true
    ∧ occursIn (memberLine "data" (negb (useStrictTypes options)) reqName)
        (out_content output) = true
    ∧ occursIn "setupBody(body: Record<string, any>): void {" (out_content output) = true
    ∧ (∀ propName,
         propName ∈ POSTRequestGenerator.bodyPropertyNames apiSpec requestBody →
         occursIn (POSTRequestGenerator.setupBodyLine propName) (out_content output)
         = true)
    ∧ (reqName ≠ className → importsModel (out_content output) requestBody).
Proof.
  intros Hbody Hne respType className reqName.
  assert (Htruthy : JsString.truthy (ed_requestBody endpoint) = true).
  { rewrite Hbody. by destruct requestBody. }
  unfold POSTRequestGenerator.buildOutput. rewrite Htruthy.
  eexists. split; [reflexivity|]. split; [reflexivity|].
  unfold POSTRequestGenerator.buildEndpointWithPayload.
  cbn [out_content CodeBuilder.build fst].
  fold respType. fold className.
  set (isPdf := BaseGenerator.isPdfResponse respType).
  set (b0 := CodeBuilder.create indentSize).
  set (imports := POSTRequestGenerator.generateImportsWithPayload endpoint isPdf).
  set (b1 := BaseGenerator.addImportStatements (BaseGenerator.addFileHeader b0)
               imports className).
  assert (Hb1 : extends b0 b1)
    by apply extends_addImportStatements, extends_addFileHeader, extends_refl.
  unfold POSTRequestGenerator.generateWithPayloadClass. fold respType.
  rewrite Hbody. cbn [default from_option id]. fold reqName.
  assert (Hclass : RequestCommon.baseClass isPdf respType ≠ ""%string).
  { unfold RequestCommon.baseClass. by destruct isPdf. }
  split; [|split; [|split; [|split]]].
  - apply (wrote_occursIn _ b0).
    apply wrote_then_appendLine, wrote_then_appendEmptyLine.
    unfold CodeBuilder.createClass.
    rewrite <- (classDeclaration_extends _ _
                  (Some ("Request class for " +:+ ed_path endpoint)) Hclass).
    apply wrote_createBlock_opening; [|auto with builder].
    intros body b3 b' [= <-] Hb'.
    pose proof (extends_payloadBody endpoint basePath reqName b3 b' Hb') as H.
    by rewrite Hbody in H.
  - apply (wrote_occursIn _ b0).
    apply wrote_then_appendLine, wrote_then_appendEmptyLine.
    unfold CodeBuilder.createClass.
    apply wrote_createBlock_body; [|auto with builder].
    intros b3 b' Hb'. eapply wrote_later.
    + unfold CodeBuilder.createProperty.
      rewrite <- (propertyDeclaration_member "data" reqName _ (Some "Request data")).
      apply (wrote_appendLine
               (CodeBuilder.propertyDeclaration
                  (CodeBuilder.mkPropertyOptions "data" reqName None None None
                     (Some (negb (useStrictTypes options))) None
                     (Some "Request data") None)) b3
               (CodeBuilder.decorate None
                  (CodeBuilder.describe (Some "Request data"%string) b'))).
      auto with builder.
    + apply extends_generateSetupBodyMethod, extends_appendEmptyLine,
        extends_constructorMethod, extends_appendEmptyLine, extends_refl.
  - apply (wrote_occursIn _ b0).
    apply wrote_then_appendLine, wrote_then_appendEmptyLine.
    unfold CodeBuilder.createClass.
    apply wrote_createBlock_body; [|auto with builder].
    intros b3 b' Hb'. unfold POSTRequestGenerator.generateSetupBodyMethod.
    apply wrote_setupBody.
    + intros b4. apply extends_fold_left; auto with builder.
    + apply extends_appendEmptyLine, extends_constructorMethod,
        extends_appendEmptyLine, extends_createProperty, Hb'.
  - intros propName Hprop.
    apply (wrote_occursIn _ b0).
    apply wrote_then_appendLine, wrote_then_appendEmptyLine.
    unfold CodeBuilder.createClass.
    apply wrote_createBlock_body; [|auto with builder].
    intros b3 b' Hb'. unfold POSTRequestGenerator.generateSetupBodyMethod,
      CodeBuilder.createMethod.
    cbn [POSTRequestGenerator.setupBodyOptions CodeBuilder.mo_description
           CodeBuilder.mo_paramDescriptions CodeBuilder.mo_returnDescription
           CodeBuilder.mo_abstract CodeBuilder.flag JsString.truthy orb default
           from_option id].
    apply wrote_createBlock_body.
    + intros b4 b5 Hb5.
      apply (wrote_fold_left _ (λ builder name,
               CodeBuilder.appendLine (POSTRequestGenerator.setupBodyLine name) builder)
               _ propName); [exact Hprop| | |exact Hb5].
      * intros; auto with builder.
      * intros b6. apply wrote_appendLine, extends_refl.
    + apply extends_createJSDocBlock, extends_appendEmptyLine, extends_constructorMethod,
        extends_appendEmptyLine, extends_createProperty, Hb'.
  - intros Hname.
    assert (Himp : DTOGenerator.dtoImport requestBody ∈ imports).
    { subst imports. unfold POSTRequestGenerator.generateImportsWithPayload.
      rewrite Htruthy, Hbody. cbn [default from_option id negb orb].
      repeat case_match; set_solver. }
    destruct (wrote_addImportStatements imports className _ b0
                (BaseGenerator.addFileHeader b0) Himp Hname)
      as (items & Hw & Hitem).
    { apply extends_addFileHeader, extends_refl. }
    exists items. split; [|exact Hitem].
    eapply wrote_occursIn, wrote_later; [exact Hw|].
    apply extends_appendLine, extends_appendEmptyLine, extends_createClass;
      [|apply extends_refl].
    intros body b' [= <-] Hb'.
    pose proof (extends_payloadBody endpoint basePath reqName _ b' Hb') as H.
    by rewrite Hbody in H.
Qed.

End WriteWrapper.

Lemma write_wrapper_without_payload_witness :
  ∃ output,
    POSTRequestGenerator.buildOutput pingDocument DEFAULT_CONFIG 2
      (mkEndpoint "/jobs/Run" "post" [] ["void"%string] None None None None) "/api"
    = Some output
    ∧ occursIn "export class RunWebServiceRequest extends JsonWebServiceRequest<void> {"
        (out_content output) = true.
Proof.
  destruct (write_wrapper_without_payload pingDocument DEFAULT_CONFIG 2
              (mkEndpoint "/jobs/Run" "post" [] ["void"%string] None None None None)
              "/api" eq_refl)
    as (output & E & _ & Hclass & _).
  exists output. split; [exact E|exact Hclass].
Defined.

Lemma write_wrapper_with_payload_witness :
  ∃ output,
    POSTRequestGenerator.buildOutput loginDocument DEFAULT_CONFIG 2
      (mkEndpoint "/auth/Login" "post" [] ["LoginResponse"%string] None None None
         (Some "LoginRequest"%string))
      "/api"
    = Some output
    ∧ occursIn "data: LoginRequest;" (out_content output) = true
    ∧ occursIn "this.setIfNotEmpty(body, 'password', this.data.password);"
        (out_content output) = true.
Proof.
  destruct (write_wrapper_with_payload loginDocument DEFAULT_CONFIG 2
              (mkEndpoint "/auth/Login" "post" [] ["LoginResponse"%string] None None None
                 (Some "LoginRequest"%string))
              "/api" "LoginRequest" eq_refl)
    as (output & E & _ & _ & Hdata & _ & Hcopy & _); [done|].
  exists output. split; [exact E|]. split; [exact Hdata|].
  apply (Hcopy "password"%string). vm_compute. set_solver.
Defined.

(** ** The notice at the start of every file *)

Lemma addFileHeader_content (indentSize : nat) :
  CodeBuilder.content (BaseGenerator.addFileHeader (CodeBuilder.create indentSize))
  = fileHeader.
Proof. reflexivity. Qed.

Lemma starts_with_header (indentSize : nat) (b : CodeBuilder.t) :
  extends (BaseGenerator.addFileHeader (CodeBuilder.create indentSize)) b →
  String.prefix fileHeader (CodeBuilder.content b) = true.
Proof.
  intros [more ->]. rewrite addFileHeader_content. apply prefix_append.
Qed.

(** X21 (class BaseGenerator, [addFileHeader]; [buildOutput] of the three
    generators): every generated file starts with the same notice, the
    documentation block that says the code was generated followed by an
    empty line, whatever the indentation size and whatever follows. *)
Theorem every_file_starts_with_the_notice (apiSpec : OpenAPIDocument)
  (options : ConfigOptions) (indentSize : nat) :
  (∀ modelRef definition,
     String.prefix fileHeader
       (out_content (DTOGenerator.modelOutput options indentSize modelRef definition))
     = true)
  ∧ (∀ endpoint basePath output,
       GETRequestGenerator.buildOutput options indentSize endpoint basePath = Some output →
       String.prefix fileHeader (out_content output) = true)
  ∧ (∀ endpoint basePath output,
       POSTRequestGenerator.buildOutput apiSpec options indentSize endpoint basePath
       = Some output →
       String.prefix fileHeader (out_content output) = true).
Proof.
  split; [|split].
  - intros modelRef definition. unfold DTOGenerator.modelOutput, DTOGenerator.modelContent.
    cbn [out_content CodeBuilder.build fst].
    apply (starts_with_header indentSize).
    destruct (s_allOf definition).
    + apply extends_generateTypeDefinition, extends_addImportStatements, extends_refl.
    + apply extends_generateInterfaceDefinition, extends_addImportStatements, extends_refl.
  - intros endpoint basePath output H. unfold GETRequestGenerator.buildOutput in H.
    apply (inj Some) in H. subst output. cbn [out_content CodeBuilder.build fst].
    apply (starts_with_header indentSize).
    eapply wrote_extends. apply (wrote_generateRequestClass options).
    destruct (GETRequestGenerator.hasParameters endpoint).
    + apply extends_generateQueryParamsInterface, extends_addImportStatements, extends_refl.
    + apply extends_addImportStatements, extends_refl.
  - intros endpoint basePath output. unfold POSTRequestGenerator.buildOutput.
    destruct (JsString.truthy (ed_requestBody endpoint)); intros H;
      apply (inj Some) in H; subst output.
    + unfold POSTRequestGenerator.buildEndpointWithPayload,
        POSTRequestGenerator.generateWithPayloadClass.
      cbn [out_content CodeBuilder.build fst].
      apply (starts_with_header indentSize).
      apply extends_appendLine, extends_appendEmptyLine, extends_createClass.
      * intros body b' [= <-] Hb'. by apply extends_payloadBody.
      * apply extends_addImportStatements, extends_refl.
    + unfold POSTRequestGenerator.buildSimpleEndpoint.
      cbn [out_content CodeBuilder.build fst].
      apply (starts_with_header indentSize).
      apply extends_appendLine, extends_appendEmptyLine, extends_createClass.
      * intros body b' [= <-] Hb'.
        apply extends_setupBody; [by intros b4; apply extends_refl|].
        apply extends_appendEmptyLine, extends_constructorMethod, Hb'.
      * apply extends_createImports, extends_refl.
Qed.

Lemma every_file_starts_with_the_notice_witness :
  String.prefix fileHeader
    (out_content (DTOGenerator.modelOutput DEFAULT_CONFIG 4 "Account" accountSchema))
  = true.
Proof.
  exact (proj1 (every_file_starts_with_the_notice pingDocument DEFAULT_CONFIG 4)
           "Account"%string accountSchema).
Defined.

(** ** The response type of a schema that has a type and no reference *)

Lemma upperChar_not_lower (c : ascii) : JsString.isLower (JsString.upperChar c) = false.
Proof. destruct c as [[] [] [] [] [] [] [] []]; reflexivity. Qed.

Lemma capitalize_primitive (type : string) :
  type ≠ ""%string →
  BaseGenerator.isPrimitiveType (BaseGenerator.capitalize type) = true
  ↔ BaseGenerator.capitalize type = "Object"%string
    ∨ BaseGenerator.capitalize type = "Array"%string.
Proof.
  intros Hne. destruct type as [|c rest]; [done|]. cbn [BaseGenerator.capitalize].
  pose proof (upperChar_not_lower c) as Hupper.
  unfold BaseGenerator.isPrimitiveType. rewrite existsb_exists. split.
  - intros (x & Hx & Heq). apply String.eqb_eq in Heq. subst x.
    cbn [In] in Hx.
    destruct Hx as [H|[H|[H|[H|[H|[H|[H|[]]]]]]]]; auto;
      injection H as H1 H2; rewrite <- H1 in Hupper; discriminate.
  - intros [H|H]; rewrite H.
    + exists "Object"%string. split; [cbn; tauto|reflexivity].
    + exists "Array"%string. split; [cbn; tauto|reflexivity].
Qed.

(** X22 (class BaseGenerator, [normalizeSchemaType] and [isPrimitiveType];
    the response-type test of the request generators): a response schema
    with a type and no reference is named after that type with its first
    letter in upper case, and of such names only [Object] and [Array] are
    taken for primitive.  So a response of type [string], [number],
    [integer] or [boolean] is handled as a model called [String],
    [Number], [Integer] or [Boolean]. *)
Theorem typed_response_is_capitalised (schema : SchemaObject) (type : string) :
  JsString.truthy (s_ref schema) = false → s_type schema = Some type → type ≠ ""%string →
  let resolved := BaseGenerator.normalizeSchemaType (Some schema) in
  resolved = BaseGenerator.capitalize type
  ∧ (RequestCommon.isModelType (Some resolved) = false
     ↔ resolved = "Object"%string ∨ resolved = "Array"%string).
Proof.
  intros Href Htype Hne resolved. subst resolved.
  unfold BaseGenerator.normalizeSchemaType. rewrite Href, Htype.
  assert (Htruthy : JsString.truthy (Some type) = true) by (by destruct type).
  rewrite Htruthy. cbn [default from_option id]. split; [done|].
  unfold RequestCommon.isModelType. cbn [default from_option id].
  pose proof (capitalize_primitive type Hne) as Hprim.
  destruct type as [|c rest]; [done|]. cbn [BaseGenerator.capitalize] in *.
  cbn [JsString.truthy andb].
  assert (Hvoid : (String (JsString.upperChar c) rest =? "void")%string = false).
  { apply String.eqb_neq. intros [= H _]. pose proof (upperChar_not_lower c) as Hc.
    rewrite H in Hc. discriminate. }
  rewrite Hvoid. cbn [negb andb]. rewrite negb_false_iff. exact Hprim.
Qed.

Lemma typed_response_is_capitalised_witness :
  BaseGenerator.normalizeSchemaType (Some (typedSchema "string")) = "String"%string
  ∧ RequestCommon.isModelType (Some "String"%string) = true.
Proof.
  destruct (typed_response_is_capitalised (typedSchema "string") "string"
              eq_refl eq_refl) as [Hname Hmodel]; [done|].
  split; [exact Hname|].
  destruct (RequestCommon.isModelType (Some "String"%string)) eqn:E; [done|].
  rewrite Hname in Hmodel. apply Hmodel in E. by destruct E.
Defined.

(** ** Composed models *)

Lemma processInheritance_fold (members : list SchemaObject) (acc : DTOGenerator.Inheritance) :
  let refs :=
    omap (λ item, if JsString.truthy (s_ref item)
                  then Some (afterLastSlash (default "" (s_ref item)))
                  else None) members in
  let names := map (λ refPath, modelName (getModelPathAndName refPath)) refs in
  Forall (λ name, name ≠ ""%string) names →
  fold_left
    (λ acc item,
       if JsString.truthy (s_ref item) then
         let refPath := afterLastSlash (default "" (s_ref item)) in
         let name := modelName (getModelPathAndName refPath) in
         DTOGenerator.mkInheritance
           (DTOGenerator.inh_imports acc ++ [DTOGenerator.dtoImport refPath])
           (match DTOGenerator.typeDef acc with
            | EmptyString => name
            | _ => DTOGenerator.typeDef acc +:+ " & " +:+ name
            end)
       else acc)
    members acc
  = DTOGenerator.mkInheritance
      (DTOGenerator.inh_imports acc ++ map DTOGenerator.dtoImport refs)
      (match DTOGenerator.typeDef acc, names with
       | EmptyString, _ => JsString.join names " & "
       | _, [] => DTOGenerator.typeDef acc
       | _, _ => DTOGenerator.typeDef acc +:+ " & " +:+ JsString.join names " & "
       end).
Proof.
  revert acc. induction members as [|item members IH]; intros acc refs names Hnames.
  - subst refs names. cbn. rewrite app_nil_r. by destruct acc as [imports []].
  - cbn [fold_left]. subst refs names.
    change (omap ?f (item :: members))
      with (match f item with Some y => y :: omap f members | None => omap f members end)
      in *.
    cbv beta in Hnames |- *.
    destruct (JsString.truthy (s_ref item)) eqn:Href; cbv zeta.
    + cbn [map] in Hnames |- *. apply Forall_cons in Hnames as [Hname Hnames].
      rewrite (IH _ Hnames). cbn [DTOGenerator.inh_imports DTOGenerator.typeDef].
      rewrite <- app_assoc. cbn [app]. f_equal.
      set (name := modelName (getModelPathAndName (afterLastSlash (default "" (s_ref item))))) in *.
      set (rest := map _ (omap _ members)).
      unfold JsString.join.
      destruct (DTOGenerator.typeDef acc) as [|c t] eqn:Hacc.
      * destruct name as [|c' name']; [done|]. destruct rest; [done|]. reflexivity.
      * rewrite append_cons. destruct rest as [|r rest]; [done|].
        cbn [String.concat]. by rewrite <- append_cons, !append_assoc.
    + by rewrite (IH _ Hnames).
Qed.

Lemma typeAliasDeclaration_exported (name type : string) (description : option string) :
  CodeBuilder.typeAliasDeclaration
    (CodeBuilder.mkTypeAliasOptions name type (Some true) None description)
  = "export type " +:+ name +:+ " = " +:+ type +:+ ";".
Proof.
  unfold CodeBuilder.typeAliasDeclaration.
  cbn [CodeBuilder.ta_exported CodeBuilder.ta_name CodeBuilder.ta_typeParams
         CodeBuilder.ta_type CodeBuilder.exportPrefix CodeBuilder.typeParamsSuffix
         JsString.truthy].
  by rewrite append_empty_r, !append_assoc.
Qed.

(** X23 (class DTOGenerator, [processInheritance] and
    [generateTypeDefinition]): a model with [allOf] is declared as a type
    whose base is the leaf names of the referenced members joined by
    [ & ], in the order of [allOf], each of them imported unless it has
    the name of the model itself.  Without properties of its own the
    declaration is the alias [export type Name = Base1 & Base2;]; when no
    member is a reference the base is the empty text. *)
Theorem composed_model_joins_its_parents (options : ConfigOptions) (indentSize : nat)
  (fileName : string) (definition : SchemaObject) (members : list SchemaObject) :
  s_allOf definition = Some members →
  Forall (λ name, name ≠ ""%string) (parentNames definition) →
  let base := JsString.join (parentNames definition) " & " in
  let text := DTOGenerator.modelContent options indentSize fileName definition in
  DTOGenerator.processInheritance definition
  = DTOGenerator.mkInheritance (map DTOGenerator.dtoImport (parentRefs definition)) base
  ∧ (DTOGenerator.col_properties (DTOGenerator.collectProperties definition) = [] →
     occursIn ("export type " +:+ fileName +:+ " = " +:+ base +:+ ";") text = true)
  ∧ (DTOGenerator.col_properties (DTOGenerator.collectProperties definition) ≠ [] →
     occursIn ("export type " +:+ fileName +:+ " = " +:+ base +:+ " & {") text = true)
  ∧ (∀ refPath, refPath ∈ parentRefs definition →
       modelName (getModelPathAndName refPath) ≠ fileName →
       importsModel text refPath).
Proof.
  intros Hall Hnames base text.
  assert (Hinh : DTOGenerator.processInheritance definition
                 = DTOGenerator.mkInheritance
                     (map DTOGenerator.dtoImport (parentRefs definition)) base).
  { unfold DTOGenerator.processInheritance.
    unfold parentNames, parentRefs in Hnames.
    rewrite (processInheritance_fold _ _ Hnames). reflexivity. }
  split; [exact Hinh|].
  subst text. unfold DTOGenerator.modelContent. rewrite Hall, Hinh.
  cbn [DTOGenerator.inh_imports DTOGenerator.typeDef CodeBuilder.build fst].
  set (b0 := CodeBuilder.create indentSize).
  set (imports := map DTOGenerator.dtoImport (parentRefs definition) ++ _).
  set (b1 := BaseGenerator.addImportStatements (BaseGenerator.addFileHeader b0)
               imports fileName).
  assert (Hb1 : extends b0 b1)
    by apply extends_addImportStatements, extends_addFileHeader, extends_refl.
  split; [|split].
  - intros ->. apply (wrote_occursIn _ b0). unfold DTOGenerator.generateTypeDefinition,
      CodeBuilder.createTypeAlias.
    apply wrote_then_appendEmptyLine.
    rewrite <- (typeAliasDeclaration_exported fileName base
                  (Some ("Type representing a " +:+ fileName +:+ " model"))).
    apply wrote_appendLine. auto with builder.
  - intros Hprops. apply (wrote_occursIn _ b0).
    unfold DTOGenerator.generateTypeDefinition.
    destruct (DTOGenerator.col_properties (DTOGenerator.collectProperties definition))
      as [|prop props]; [done|].
    apply wrote_then_appendEmptyLine, wrote_then_appendLine, wrote_then_indentBy.
    eapply wrote_later.
    + apply (wrote_appendLine ("export type " +:+ fileName +:+ " = " +:+ base +:+ " & {")
               b0 (CodeBuilder.createJSDocBlock
                     (Some (inl ("Type representing a " +:+ fileName +:+ " model")))
                     None b1)).
      auto with builder.
    + apply extends_fold_left; [|auto with builder].
      intros x b' Hb'. apply extends_appendLine. case_match; auto with builder.
  - intros refPath Href Hname.
    assert (Himp : DTOGenerator.dtoImport refPath ∈ imports).
    { subst imports. apply elem_of_app. left. apply list_elem_of_In, in_map.
      by apply list_elem_of_In. }
    destruct (wrote_addImportStatements imports fileName _ b0
                (BaseGenerator.addFileHeader b0) Himp Hname)
      as (items & Hw & Hitem).
    { apply extends_addFileHeader, extends_refl. }
    exists items. split; [|exact Hitem].
    eapply wrote_occursIn, wrote_later; [exact Hw|].
    apply extends_generateTypeDefinition, extends_refl.
Qed.

Lemma composed_model_joins_its_parents_witness :
  occursIn "export type Child = Base;"
    (DTOGenerator.modelContent DEFAULT_CONFIG 2 "Child" (childSchema "#/definitions/Base"))
  = true.
Proof.
  refine (proj1 (proj2 (composed_model_joins_its_parents DEFAULT_CONFIG 2 "Child"
                          (childSchema "#/definitions/Base") _ eq_refl _)) eq_refl).
  vm_compute. repeat constructor. discriminate.
Defined.

(** ** Directory names *)














(** ** The mapping of primitive types *)

Lemma stringFormat_type (format : option string) :
  match format with
  | Some "date"%string => "string"%string
  | Some "date-time"%string => "string"%string
  | Some "binary"%string => "Blob"%string
  | Some "byte"%string => "string"%string
  | _ => "string"%string
  end
  = if bool_decide (format = Some "binary"%string) then "Blob"%string else "string"%string.
Proof.
  destruct format as [f|]; [|done].
  destruct (String.eqb_spec f "binary") as [->|Hne]; [done|].
  rewrite bool_decide_eq_false_2 by congruence.
  repeat case_match; try reflexivity; subst; congruence.
Qed.

(** One case of the mapping: membership in the list of images, then the
    equivalences, each by the names that are equal or different *)
Ltac settle_mapping :=
  split; [set_solver|];
  repeat split; intros;
  try set_solver; try discriminate; try tauto;
  try (by intuition discriminate); try (by intuition congruence).

(** X28 (class BaseGenerator, [mapPrimitiveType]): the mapping of schema
    types is total and has seven values.  [integer] and [number] and
    nothing else give [number]; [string] gives [Blob] with the format
    [binary] and [string] with any other format or none; a type that is
    none of [integer], [number], [string], [boolean], [object], [array]
    gives [any], and nothing else does. *)
Theorem primitive_types_have_seven_images (type : string) (format : option string) :
  let mapped := BaseGenerator.mapPrimitiveType type format in
  mapped ∈ ["number"; "string"; "Blob"; "boolean"; "Record<string, any>"; "Array<any>";
            "any"]%string
  ∧ (mapped = "number"%string ↔ type = "integer"%string ∨ type = "number"%string)
  ∧ (mapped = "Blob"%string ↔ type = "string"%string ∧ format = Some "binary"%string)
  ∧ (mapped = "string"%string ↔ type = "string"%string ∧ format ≠ Some "binary"%string)
  ∧ (mapped = "any"%string
     ↔ type ∉ ["integer"; "number"; "string"; "boolean"; "object"; "array"]%string).
Proof.
  intros mapped. subst mapped. unfold BaseGenerator.mapPrimitiveType.
  rewrite stringFormat_type.
  destruct (String.eqb_spec type "integer") as [->|H1]; [cbn [orb]; settle_mapping|].
  destruct (String.eqb_spec type "number") as [->|H2]; [cbn [orb]; settle_mapping|].
  cbn [orb].
  destruct (String.eqb_spec type "string") as [->|H3];
    [case_bool_decide as Hformat; settle_mapping|].
  destruct (String.eqb_spec type "boolean") as [->|H4]; [settle_mapping|].
  destruct (String.eqb_spec type "object") as [->|H5]; [settle_mapping|].
  destruct (String.eqb_spec type "array") as [->|H6]; [settle_mapping|].
  settle_mapping.
Qed.

(** ** A pattern that is not a regular expression *)

(** X25 (src/OpenAPICodeGenerator.ts, [generateForPathPattern];
    src/builder/APISpecParser.ts, [processMatchingPaths];
    src/utils/string.ts, [regexFilter]): the pattern is compiled when the
    first path is tested.  With a pattern that the [RegExp] constructor
    rejects, discovery and the whole generation for that pattern fail with
    that error as soon as the document has a path, and nothing is handed to
    the file writer; for a document without paths nothing is compiled and
    the generation returns no record. *)
Theorem invalid_pattern_fails_the_generation (options : ConfigOptions)
  (apiSpec : OpenAPIDocument) (pattern : string) :
  RegExp.compile ("^" +:+ pattern +:+ "$") = SyntaxError →
  (paths apiSpec ≠ [] →
   APISpecParser.discoverModelPaths apiSpec (Some pattern) = SyntaxError
   ∧ OpenAPICodeGenerator.generateForPathPattern options apiSpec pattern = SyntaxError)
  ∧ (paths apiSpec = [] →
     OpenAPICodeGenerator.generateForPathPattern options apiSpec pattern = Done []).
Proof.
  intros Hregex. split.
  - intros Hpaths.
    assert (Htruthy : JsString.truthy (Some pattern) = true).
    { destruct pattern; [|done]. vm_compute in Hregex. discriminate. }
    assert (Hdiscover :
      APISpecParser.discoverModelPaths apiSpec (Some pattern) = SyntaxError).
    { unfold APISpecParser.discoverModelPaths, APISpecParser.discoverModelPathsWith,
        APISpecParser.processMatchingPaths, APISpecParser.pathsToProcess.
      rewrite Htruthy. destruct (paths apiSpec) as [|kv l]; [done|].
      cbn [filterM default from_option id]. unfold regexFilter at 1.
      by rewrite Hregex. }
    split; [exact Hdiscover|].
    unfold OpenAPICodeGenerator.generateForPathPattern. by rewrite Hdiscover.
  - intros Hpaths.
    unfold OpenAPICodeGenerator.generateForPathPattern,
      APISpecParser.discoverModelPaths, APISpecParser.discoverModelPathsWith,
      APISpecParser.processMatchingPaths, APISpecParser.pathsToProcess,
      GETRequestGenerator.generate, GETRequestGenerator.resolveEntities,
      POSTRequestGenerator.generate, POSTRequestGenerator.resolveEntities.
    rewrite Hpaths. by destruct (JsString.truthy (Some pattern)).
Qed.

Lemma invalid_pattern_fails_the_generation_witness :
  OpenAPICodeGenerator.generateForPathPattern DEFAULT_CONFIG loginDocument "/auth/(Login"
  = SyntaxError.
Proof.
  refine (proj2 (proj1 (invalid_pattern_fails_the_generation DEFAULT_CONFIG loginDocument
                          "/auth/(Login" eq_refl) _)).
  discriminate.
Defined.

(** ** A run of the generator *)

Section RunFacts.

Variable World : Type.
Variable writeToFile : string → string → World → World * GeneratorRun.Completion.
Variable fetchAPISpec : string → World → World * option OpenAPIDocument.
Variable deleteAllFiles : string → list string → World → World * GeneratorRun.Completion.
Variable config : CodegenConfig.

Abbreviation writeOutputs' := (GeneratorRun.writeOutputs World writeToFile).
Abbreviation generateForPatterns' :=
  (GeneratorRun.generateForPatterns World writeToFile config).
Abbreviation generateForEndpoints' :=
  (GeneratorRun.generateForEndpoints World writeToFile fetchAPISpec config).

Lemma writeOutputs_fold (outputs : list GeneratedOutput) (acc : GeneratorRun.Written World) :
  let after := fold_left (GeneratorRun.writeOutput World writeToFile) outputs acc in
  GeneratorRun.successCount World after + GeneratorRun.errorCount World after
  = GeneratorRun.successCount World acc + GeneratorRun.errorCount World acc
    + length outputs
  ∧ GeneratorRun.world World after
    = fold_left (λ w output, fst (writeToFile (out_path output) (out_content output) w))
        outputs (GeneratorRun.world World acc).
Proof.
  revert acc. induction outputs as [|output outputs IH]; intros acc after.
  - subst after. cbn. split; [lia|done].
  - subst after. cbn [fold_left length].
    destruct (IH (GeneratorRun.writeOutput World writeToFile acc output))
      as [Hcount Hworld].
    rewrite Hcount, Hworld. unfold GeneratorRun.writeOutput.
    destruct (writeToFile (out_path output) (out_content output)
                (GeneratorRun.world World acc)) as [w []]; cbn; split; (lia || done).
Qed.

(** X26 (src/OpenAPICodeGenerator.ts, [writeOutputs]): every record is
    given to the file writer, in order, whether or not an earlier write
    threw: the world after the loop is the world after all the writes, and
    the two counters add up to the number of records. *)
Theorem every_record_is_given_to_the_writer (outputs : list GeneratedOutput) (w : World) :
  let written := writeOutputs' outputs w in
  GeneratorRun.successCount World written + GeneratorRun.errorCount World written
  = length outputs
  ∧ GeneratorRun.world World written
    = fold_left (λ w output, fst (writeToFile (out_path output) (out_content output) w))
        outputs w
  ∧ ∀ before after,
      outputs = before ++ after →
      GeneratorRun.world World written
      = GeneratorRun.world World
          (writeOutputs' after (GeneratorRun.world World (writeOutputs' before w))).
Proof.
  intros written. subst written. unfold GeneratorRun.writeOutputs.
  destruct (writeOutputs_fold outputs (GeneratorRun.mkWritten World w 0 0))
    as [Hcount Hworld].
  split; [exact Hcount|]. split; [exact Hworld|].
  intros before after ->. rewrite Hworld.
  rewrite (proj2 (writeOutputs_fold after _)), (proj2 (writeOutputs_fold before _)).
  cbn [GeneratorRun.world]. by rewrite fold_left_app.
Qed.

Lemma generateForEndpoints_app (first rest : list EndpointConfig) (w : World) :
  generateForEndpoints' (first ++ rest) w
  = r1 ←! generateForEndpoints' first w;
    r2 ←! generateForEndpoints' rest (fst r1);
    Done (fst r2, snd r1 + snd r2).
Proof.
  revert w. induction first as [|endpoint first IH]; intros w.
  - cbn. by destruct (generateForEndpoints' rest w) as [[w' n]| | |].
  - cbn [app GeneratorRun.generateForEndpoints].
    destruct (GeneratorRun.generateForEndpoint World writeToFile fetchAPISpec config
                endpoint w) as [[w1 c1]| | |]; cbn [obind fst snd]; try done.
    rewrite IH.
    destruct (generateForEndpoints' first w1) as [[w2 n2]| | |]; cbn [obind fst snd];
      try done.
    destruct (generateForEndpoints' rest w2) as [[w3 n3]| | |]; cbn [obind fst snd];
      try done.
    by destruct c1.
Qed.

(** X27 (src/OpenAPICodeGenerator.ts, [generate] and [generateForEndpoint]):
    what fails. An endpoint whose specification cannot be fetched is
    reported and the run goes on with the next endpoint; so the endpoints
    after any list of endpoints are processed from the world those left,
    and the reports add up.  Within an endpoint, a pattern that the
    [RegExp] constructor rejects ends the processing of that endpoint
    (for a document that has a path): nothing is written for it and the
    patterns after it are not processed.  The directory is cleaned only
    when the options ask for it, and a cleaning that throws ends the run
    before any endpoint is processed. *)
Theorem failures_are_contained (first rest : list EndpointConfig)
  (endpoint : EndpointConfig) (apiSpec : OpenAPIDocument) (pattern : string)
  (patterns : list string) (w : World) :
  generateForEndpoints' (first ++ rest) w
  = (r1 ←! generateForEndpoints' first w;
     r2 ←! generateForEndpoints' rest (fst r1);
     Done (fst r2, snd r1 + snd r2))
  ∧ (snd (fetchAPISpec (ec_url endpoint) w) = None →
     generateForEndpoints' (endpoint :: rest) w
     = (r ←! generateForEndpoints' rest (fst (fetchAPISpec (ec_url endpoint) w));
        Done (fst r, S (snd r))))
  ∧ (RegExp.compile ("^" +:+ pattern +:+ "$") = SyntaxError → paths apiSpec ≠ [] →
     generateForPatterns' apiSpec (pattern :: patterns) w
     = Done (w, GeneratorRun.Threw))
  ∧ (cleanOutputDir (cfg_options config) = false →
     GeneratorRun.generate World writeToFile fetchAPISpec deleteAllFiles config w
     = (r ←! generateForEndpoints' (cfg_endpoints config) w;
        Done (fst r, GeneratorRun.Returned, snd r)))
  ∧ (cleanOutputDir (cfg_options config) = true →
     snd (GeneratorRun.cleanOutputDirectory World deleteAllFiles config w)
     = GeneratorRun.Threw →
     GeneratorRun.generate World writeToFile fetchAPISpec deleteAllFiles config w
     = Done (fst (GeneratorRun.cleanOutputDirectory World deleteAllFiles config w),
             GeneratorRun.Threw, 0)).
Proof.
  split; [apply generateForEndpoints_app|]. split; [|split; [|split]].
  - intros Hfetch. cbn [GeneratorRun.generateForEndpoints].
    unfold GeneratorRun.generateForEndpoint.
    destruct (fetchAPISpec (ec_url endpoint) w) as [w1 fetched]. cbn [snd] in Hfetch.
    subst fetched. cbn [obind fst snd].
    by destruct (generateForEndpoints' rest w1) as [[w2 n]| | |].
  - intros Hregex Hpaths. cbn [GeneratorRun.generateForPatterns].
    unfold GeneratorRun.generateForPathPattern.
    assert (Hfail : OpenAPICodeGenerator.generateForPathPattern (cfg_options config)
                      apiSpec pattern = SyntaxError).
    { assert (Htruthy : JsString.truthy (Some pattern) = true).
      { destruct pattern; [|done]. vm_compute in Hregex. discriminate. }
      unfold OpenAPICodeGenerator.generateForPathPattern,
        APISpecParser.discoverModelPaths, APISpecParser.discoverModelPathsWith,
        APISpecParser.processMatchingPaths, APISpecParser.pathsToProcess.
      rewrite Htruthy. destruct (paths apiSpec) as [|kv l]; [done|].
      cbn [filterM default from_option id]. unfold regexFilter at 1.
      by rewrite Hregex. }
    by rewrite Hfail.
  - intros Hclean. unfold GeneratorRun.generate. by rewrite Hclean.
  - intros Hclean Hthrew. unfold GeneratorRun.generate. by rewrite Hclean, Hthrew.
Qed.

End RunFacts.

Lemma failures_are_contained_witness :
  GeneratorRun.generateForPatterns (list string)
    (λ path _ written, (written ++ [path], GeneratorRun.Returned))
    (createConfig (mkConfigFile [] None)) loginDocument
    ["/auth/(Login"; "/auth/Login"]%string []
  = Done ([], GeneratorRun.Threw).
Proof.
  refine (proj1 (proj2 (proj2
    (failures_are_contained (list string)
       (λ path _ written, (written ++ [path], GeneratorRun.Returned))
       (λ _ written, (written, None))
       (λ _ _ written, (written, GeneratorRun.Returned))
       (createConfig (mkConfigFile [] None)) [] []
       (mkEndpointConfig "" []) loginDocument "/auth/(Login" ["/auth/Login"%string] [])))
    eq_refl _).
  discriminate.
Defined.
